(** * Sidenotes: persistence, import/restore and reducer, verified against the source

    A shallow embedding of the JavaScript of
    - [src/store/notepadReducer.js]  (the notepad state reducer),
    - [src/utils/utils.js]           (codec, id generator, file names, restore
                                      validation),
    - [src/services/db.js]           (the IndexedDB wrapper [StorageDB]),
    - [src/store/notepadActions.js]  (import and share of one notepad, backup and
                                      restore of the library),
    - [src/components/NotepadsViewer.jsx] (deleting from the list, the search),
    - [src/App.jsx]                  (start-up, opening, creating and duplicating),
    - [src/hooks/useDebounce.js]     (the debounced save).

    JavaScript values are an inductive type; objects are association lists in
    insertion order; the IndexedDB object store is a [gmap]; code that talks to
    the outside (clock, random numbers, store, dialogs, alerts) runs in a small
    state-and-exception monad that also records a trace of what was done. *)

From Stdlib Require Import ZArith List String Ascii Lia Bool.
From stdpp Require Import base gmap strings list pretty sorting.

Set Warnings "-register-all".

Open Scope string_scope.
Open Scope list_scope.
Open Scope Z_scope.

(** ** JavaScript values *)

(** A [Blob]: a media type and a byte content. *)
Record Blob := mkBlob { blob_type : string; blob_bytes : list Byte.byte }.

(** Numbers are restricted to integers (timestamps, sizes, indices): the code
    under study only tests numbers for truthiness, copies them, and does
    integer arithmetic on list positions. *)
Inductive value :=
| VUndefined
| VNull
| VBool (b : bool)
| VNum (n : Z)
| VStr (s : string)
| VBlob (b : Blob)
| VArr (elems : list value)
| VObj (fields : list (string * value)).

(** Exceptions the code can raise or meet. *)
Inductive exn :=
| TypeError
| SyntaxError
| Error (msg : string)
| DOMException.

Inductive result (A : Type) :=
| Ok (a : A)
| Throw (e : exn).
Arguments Ok {A} a.
Arguments Throw {A} e.

Definition rbind {A B} (r : result A) (k : A -> result B) : result B :=
  match r with
  | Ok a => k a
  | Throw e => Throw e
  end.

Notation "'let?' x ':=' c 'in' k" := (rbind c (fun x => k))
  (at level 10, x pattern, c at level 100, k at level 200).

Fixpoint rmap {A B} (f : A -> result B) (l : list A) : result (list B) :=
  match l with
  | [] => Ok []
  | x :: r => let? y := f x in let? ys := rmap f r in Ok (y :: ys)
  end.

(** [Boolean(v)]: the falsy values are undefined, null, false, 0 and "". *)
Definition truthy (v : value) : bool :=
  match v with
  | VUndefined | VNull => false
  | VBool b => b
  | VNum n => negb (n =? 0)
  | VStr s => negb (String.eqb s "")
  | VBlob _ | VArr _ | VObj _ => true
  end.

Definition typeof (v : value) : string :=
  match v with
  | VUndefined => "undefined"
  | VBool _ => "boolean"
  | VNum _ => "number"
  | VStr _ => "string"
  | VNull | VBlob _ | VArr _ | VObj _ => "object"
  end.

Definition isArray (v : value) : bool :=
  match v with VArr _ => true | _ => false end.

(** [v instanceof Blob] *)
Definition instanceofBlob (v : value) : bool :=
  match v with VBlob _ => true | _ => false end.

(** [a === b].  Objects, arrays and blobs compare by reference in JavaScript;
    the embedding has no references and takes two such operands to be
    different objects.  Identifiers are strings throughout the program. *)
Definition strict_eq (a b : value) : bool :=
  match a, b with
  | VUndefined, VUndefined => true
  | VNull, VNull => true
  | VBool x, VBool y => Bool.eqb x y
  | VNum x, VNum y => x =? y
  | VStr x, VStr y => String.eqb x y
  | _, _ => false
  end.

(** *** Objects as association lists *)

Fixpoint field (k : string) (f : list (string * value)) : option value :=
  match f with
  | [] => None
  | (k', v) :: r => if String.eqb k' k then Some v else field k r
  end.

(** [o[k] = v] on the property list: an existing key keeps its place. *)
Fixpoint set_field (k : string) (v : value) (f : list (string * value))
  : list (string * value) :=
  match f with
  | [] => [(k, v)]
  | (k', v') :: r =>
      if String.eqb k' k then (k, v) :: r else (k', v') :: set_field k v r
  end.

Fixpoint indexed_from (i : nat) (l : list value) : list (string * value) :=
  match l with
  | [] => []
  | x :: r => (pretty i, x) :: indexed_from (S i) r
  end.

Definition chars (s : string) : list value :=
  map (fun c => VStr (String c EmptyString)) (list_ascii_of_string s).

(** Own enumerable string-keyed properties, as seen by the spread
    [{...v}], [Object.keys], [Object.values] and [Object.entries].  The
    property list of an object is taken to be in the order JavaScript
    enumerates it. *)
Definition own_props (v : value) : list (string * value) :=
  match v with
  | VObj f => f
  | VArr l => indexed_from 0 l
  | VStr s => indexed_from 0 (chars s)
  | _ => []
  end.

Definition keys (v : value) : list string := map fst (own_props v).
Definition values (v : value) : list value := map snd (own_props v).

(** The array index a property key denotes, if it is one: a decimal numeral
    without a sign or leading zeros. *)
Fixpoint digits_value (s : string) (acc : N) : option N :=
  match s with
  | EmptyString => Some acc
  | String c rest =>
      let d := N_of_ascii c in
      if (48 <=? d)%N && (d <=? 57)%N
      then digits_value rest (10 * acc + (d - 48))%N
      else None
  end.

Definition index_of_key (k : string) : option N :=
  match k with
  | EmptyString => None
  | _ =>
      match digits_value k 0%N with
      | Some n => if String.eqb (pretty n) k then Some n else None
      | None => None
      end
  end.

Definition element (l : list value) (k : string) : value :=
  match index_of_key k with
  | Some n =>
      if (n <? N.of_nat (length l))%N then nth (N.to_nat n) l VUndefined
      else VUndefined
  | None => VUndefined
  end.

(** [v[k]] for a [v] that is neither null nor undefined.  Properties
    inherited from a prototype are left out, but for [length] of arrays and
    strings and [size] and [type] of blobs: the names the program reads (id,
    notes, title, attachment, blob, ...) are not among them. *)
Definition get (v : value) (k : string) : value :=
  match v with
  | VObj f => default VUndefined (field k f)
  | VArr l =>
      if String.eqb k "length" then VNum (Z.of_nat (length l))
      else element l k
  | VStr s =>
      if String.eqb k "length" then VNum (Z.of_nat (String.length s))
      else element (chars s) k
  | VBlob b =>
      if String.eqb k "size" then VNum (Z.of_nat (length (blob_bytes b)))
      else if String.eqb k "type" then VStr (blob_type b)
      else VUndefined
  | _ => VUndefined
  end.

(** [v.k]: reading a property of null or undefined raises a TypeError. *)
Definition prop (v : value) (k : string) : result value :=
  match v with
  | VUndefined | VNull => Throw TypeError
  | _ => Ok (get v k)
  end.

(** [v?.k] *)
Definition opt_prop (v : value) (k : string) : value :=
  match v with
  | VUndefined | VNull => VUndefined
  | _ => get v k
  end.

(** [[...v]]: arrays and strings are iterable, anything else the program can
    hold is not. *)
Definition iterate (v : value) : result (list value) :=
  match v with
  | VArr l => Ok l
  | VStr s => Ok (chars s)
  | _ => Throw TypeError
  end.

(** The receiver of an array method ([map], [filter], [findIndex]): calling
    one on something that is not an array raises a TypeError. *)
Definition as_array (v : value) : result (list value) :=
  match v with
  | VArr l => Ok l
  | _ => Throw TypeError
  end.

(** *** Array methods *)

(** [Array.prototype.splice(start, deleteCount, ...items)] on a list:
    returns the removed elements and the array after the call. *)
Definition splice (l : list value) (start deleteCount : Z) (items : list value)
  : list value * list value :=
  let len := Z.of_nat (length l) in
  let actualStart := if start <? 0 then Z.max (len + start) 0 else Z.min start len in
  let actualDeleteCount := Z.min (Z.max deleteCount 0) (len - actualStart) in
  let a := Z.to_nat actualStart in
  let d := Z.to_nat actualDeleteCount in
  (take d (drop a l), take a l ++ items ++ drop (a + d) l).

(** [l.findIndex(p)] for a predicate that may raise; -1 when none matches. *)
Fixpoint findIndex_from (p : value -> result bool) (l : list value) (i : Z)
  : result Z :=
  match l with
  | [] => Ok (-1)
  | x :: r =>
      let? b := p x in
      if b then Ok i else findIndex_from p r (i + 1)
  end.

Definition findIndex (p : value -> result bool) (l : list value) : result Z :=
  findIndex_from p l 0.

(** [l.filter(p)] for a predicate that may raise. *)
Fixpoint rfilter (p : value -> result bool) (l : list value)
  : result (list value) :=
  match l with
  | [] => Ok []
  | x :: r =>
      let? b := p x in
      let? ys := rfilter p r in
      Ok (if b then x :: ys else ys)
  end.

(** ** The notepad reducer ([src/store/notepadReducer.js]) *)

Inductive action :=
| SET_NOTEPAD (payload : value)
| UPDATE_TITLE (payload : value)
| ADD_NOTE (payload : value)
| DUPLICATE_NOTE (originalId newNote : value)
| UPDATE_NOTE (payload : value)
| DELETE_NOTE (payload : value)
| MOVE_NOTE (oldIndex newIndex : Z)
| UNKNOWN (type : string).

(** [notepadReducer(state, action)], with the reading [timestamp] of
    [Date.now()] taken at entry passed in. *)
Definition notepadReducer (timestamp : Z) (state : value) (a : action)
  : result value :=
  match a with
  | SET_NOTEPAD payload =>
      Ok (VObj (own_props payload))
  | UPDATE_TITLE payload =>
      Ok (VObj (set_field "lastUpdate" (VNum timestamp)
                 (set_field "title" payload (own_props state))))
  | ADD_NOTE payload =>
      let? notes := prop state "notes" in
      let? old := iterate notes in
      Ok (VObj (set_field "notes" (VArr (old ++ [payload]))
                 (set_field "lastUpdate" (VNum timestamp) (own_props state))))
  | DUPLICATE_NOTE originalId newNote =>
      let? notes := prop state "notes" in
      let? arr := as_array notes in
      let? index :=
        findIndex (fun n => let? i := prop n "id" in Ok (strict_eq i originalId)) arr in
      if index =? -1 then Ok state
      else
        let? updatedNotes := iterate notes in
        let updatedNotes := snd (splice updatedNotes (index + 1) 0 [newNote]) in
        Ok (VObj (set_field "notes" (VArr updatedNotes)
                   (set_field "lastUpdate" (VNum timestamp) (own_props state))))
  | UPDATE_NOTE payload =>
      let? notes := prop state "notes" in
      let? arr := as_array notes in
      let? arr' :=
        rmap (fun n =>
                let? i := prop n "id" in
                let? j := prop payload "id" in
                Ok (if strict_eq i j then payload else n)) arr in
      Ok (VObj (set_field "notes" (VArr arr')
                 (set_field "lastUpdate" (VNum timestamp) (own_props state))))
  | DELETE_NOTE payload =>
      let? notes := prop state "notes" in
      let? arr := as_array notes in
      let? arr' :=
        rfilter (fun n => let? i := prop n "id" in Ok (negb (strict_eq i payload))) arr in
      Ok (VObj (set_field "notes" (VArr arr')
                 (set_field "lastUpdate" (VNum timestamp) (own_props state))))
  | MOVE_NOTE oldIndex newIndex =>
      let? stateNotes := prop state "notes" in
      let? notes := iterate stateNotes in
      let from := oldIndex - 1 in
      let to := newIndex - 1 in
      if (to <? 0) || (to >=? Z.of_nat (length notes)) then Ok state
      else
        let (removed, notes1) := splice notes from 1 [] in
        let movedNote := hd VUndefined removed in
        let notes2 := snd (splice notes1 to 0 [movedNote]) in
        Ok (VObj (set_field "notes" (VArr notes2)
                   (set_field "lastUpdate" (VNum timestamp) (own_props state))))
  | UNKNOWN _ => Ok state
  end.

(** A run of the reducer over commands, each paired with the clock reading
    at its dispatch. *)
Fixpoint run_reducer (state : value) (cmds : list (Z * action)) : result value :=
  match cmds with
  | [] => Ok state
  | (t, a) :: rest =>
      let? s := notepadReducer t state a in
      run_reducer s rest
  end.

(** *** Vocabulary for runs of the reducer *)

Definition is_set_notepad (a : action) : bool :=
  match a with SET_NOTEPAD _ => true | _ => false end.

(** The commands that make the reducer hand back [state] itself: a
    DUPLICATE_NOTE whose [originalId] matches no note ([index === -1]), a
    MOVE_NOTE whose target fails the bounds test, and a command of a type the
    [switch] does not list. *)
Definition is_noop (state : value) (a : action) : bool :=
  match a with
  | DUPLICATE_NOTE originalId _ =>
      match (let? notes := prop state "notes" in
             let? arr := as_array notes in
             findIndex (fun n => let? i := prop n "id" in Ok (strict_eq i originalId)) arr)
      with
      | Ok index => index =? -1
      | Throw _ => false
      end
  | MOVE_NOTE _ newIndex =>
      match (let? stateNotes := prop state "notes" in iterate stateNotes) with
      | Ok notes => (newIndex <? 1) || (newIndex >? Z.of_nat (length notes))
      | Throw _ => false
      end
  | UNKNOWN _ => true
  | _ => false
  end.

(** The stamp a run leaves behind: [acc] to start with, then the clock reading
    of each command that is not a no-op, the last one winning. *)
Fixpoint last_stamp (state : value) (cmds : list (Z * action)) (acc : value) : value :=
  match cmds with
  | [] => acc
  | (t, a) :: rest =>
      match notepadReducer t state a with
      | Ok s => last_stamp s rest (if is_noop state a then acc else VNum t)
      | Throw _ => acc
      end
  end.

(** Clock readings that never go back, starting from [t0]. *)
Fixpoint nondecreasing_from (t0 : Z) (ts : list Z) : Prop :=
  match ts with
  | [] => True
  | t :: rest => t0 <= t /\ nondecreasing_from t rest
  end.

Definition no_set_notepad (cmds : list (Z * action)) : Prop :=
  forallb (fun c => negb (is_set_notepad (snd c))) cmds = true.

(** Sample documents. *)
Definition sample_note (i : string) : value :=
  VObj [("id", VStr i); ("title", VStr "New note"); ("content", VStr "");
        ("accentColor", VStr ""); ("collapsed", VBool false)].

Definition sample_doc (stamp : Z) (notes : list value) : value :=
  VObj [("id", VStr "notepad-1"); ("title", VStr "New notepad");
        ("created", VNum 1); ("lastUpdate", VNum stamp); ("notes", VArr notes)].

(** The claim "every transition but SET_NOTEPAD stamps [lastUpdate]", as a
    proposition about the reducer. *)
Definition every_other_transition_stamps : Prop :=
  forall (t : Z) (s : value) (a : action) (s' : value),
    is_set_notepad a = false ->
    notepadReducer t s a = Ok s' ->
    get s' "lastUpdate" = VNum t.

(** The document a run ends in ([undefined] if the run raises). *)
Definition run_result (state : value) (cmds : list (Z * action)) : value :=
  match run_reducer state cmds with
  | Ok s => s
  | Throw _ => VUndefined
  end.

(** ** The environment of the effectful code *)

(** What the program does to the outside, in the order it does it. *)
Inductive event :=
| Alert (message : string)
| ConsoleError (label : string)
| SetIsProcessing (flag : bool)
| Fetch (url : string)
| DbGetAll
| DbClear
| DbBulkPut (data : list (string * value))
| ScheduleReload
| OnOpenNotepad (target : value)
| OnClose
| OpenDialog (message : string) (labels : list string).

(** The world a call runs in: the successive readings of [Date.now()] and of
    [Math.random().toString(36).substr(2, 9)] with how many were consumed,
    the object store of the IndexedDB database, and the trace so far (oldest
    event first). *)
Record machine := Machine {
  clock : nat -> Z;
  ticks : nat;
  random : nat -> string;
  draws : nat;
  store : gmap string value;
  trace : list event
}.

(** Asynchronous functions are run to completion one after the other
    (the interleaving of pending promises is not modelled; it changes the
    order of decoding events and of clock readings, nothing else):
    a computation takes the machine and yields a value or an exception,
    and the machine after it. *)
Definition M (A : Type) : Type := machine -> result A * machine.

Definition ret {A} (a : A) : M A := fun m => (Ok a, m).

Definition throw {A} (e : exn) : M A := fun m => (Throw e, m).

Definition bind {A B} (c : M A) (k : A -> M B) : M B :=
  fun m =>
    match c m with
    | (Ok a, m') => k a m'
    | (Throw e, m') => (Throw e, m')
    end.

Notation "'let*' x ':=' c 'in' k" := (bind c (fun x => k))
  (at level 10, x pattern, c at level 100, k at level 200).
Notation "c ';;' k" := (bind c (fun _ => k))
  (at level 100, k at level 200, right associativity).

Definition lift {A} (r : result A) : M A := fun m => (r, m).

(** [try { c } catch (e) { h e }] *)
Definition try_catch {A} (c : M A) (h : exn -> M A) : M A :=
  fun m =>
    match c m with
    | (Ok a, m') => (Ok a, m')
    | (Throw e, m') => h e m'
    end.

(** [try { c } finally { f }] *)
Definition try_finally {A} (c : M A) (f : M unit) : M A :=
  fun m =>
    match c m with
    | (r, m') =>
        match f m' with
        | (Ok _, m'') => (r, m'')
        | (Throw e, m'') => (Throw e, m'')
        end
    end.

Definition emit (e : event) : M unit :=
  fun m => (Ok tt, Machine (clock m) (ticks m) (random m) (draws m) (store m)
                           (trace m ++ [e])).

Definition Date_now : M Z :=
  fun m => (Ok (clock m (ticks m)),
            Machine (clock m) (S (ticks m)) (random m) (draws m) (store m) (trace m)).

Definition Math_random_base36 : M string :=
  fun m => (Ok (random m (draws m)),
            Machine (clock m) (ticks m) (random m) (S (draws m)) (store m) (trace m)).

Definition set_store (s : gmap string value) : M unit :=
  fun m => (Ok tt, Machine (clock m) (ticks m) (random m) (draws m) s (trace m)).

Definition get_store : M (gmap string value) := fun m => (Ok (store m), m).

(** [Promise.all(l.map(async (x) => f x))]: every callback runs, in list
    order; the whole rejects with the first rejection, after all of them
    have run. *)
Fixpoint promise_all_map {X A} (f : X -> M A) (l : list X) : M (list A) :=
  fun m =>
    match l with
    | [] => (Ok [], m)
    | x :: r =>
        match f x m with
        | (rx, m1) =>
            match promise_all_map f r m1 with
            | (rr, m2) =>
                (match rx, rr with
                 | Ok y, Ok ys => Ok (y :: ys)
                 | Throw e, _ => Throw e
                 | Ok _, Throw e => Throw e
                 end, m2)
            end
        end
    end.

(** [l.some(p)] for a predicate that may raise. *)
Fixpoint some (p : value -> result bool) (l : list value) : result bool :=
  match l with
  | [] => Ok false
  | x :: r => let? b := p x in if b then Ok true else some p r
  end.

(** [String(v)], as used when a value is a computed property key.  Integers
    print in decimal. *)
Fixpoint to_string (v : value) : string :=
  match v with
  | VUndefined => "undefined"
  | VNull => "null"
  | VBool true => "true"
  | VBool false => "false"
  | VNum n => pretty n
  | VStr s => s
  | VBlob _ => "[object Blob]"
  | VObj _ => "[object Object]"
  | VArr l =>
      let elem x := match x with VUndefined | VNull => "" | _ => to_string x end in
      (fix join (l : list value) : string :=
         match l with
         | [] => ""
         | x :: r => match r with [] => elem x | _ => elem x +:+ "," +:+ join r end
         end) l
  end.

(** [o[k] = v] on a value: only objects take the assignment in the code
    under study. *)
Definition assign (o : value) (k : string) (v : value) : value :=
  match o with
  | VObj f => VObj (set_field k v f)
  | _ => o
  end.

(** The names a plain object inherits from [Object.prototype] (ECMAScript
    20.1.3 with the additions of Annex B for browsers): under each a lookup
    by name finds a function, and under [__proto__] the prototype itself. *)
Definition Object_prototype_names : list string :=
  ["constructor"; "hasOwnProperty"; "isPrototypeOf"; "propertyIsEnumerable";
   "toLocaleString"; "toString"; "valueOf"; "__proto__";
   "__defineGetter__"; "__defineSetter__"; "__lookupGetter__"; "__lookupSetter__"].

Definition inherited (k : string) : bool :=
  existsb (String.eqb k) Object_prototype_names.

(** Whether [o[k]] is truthy, for a plain object [o] and a name [k] taken
    from data: an own property decides; a name that is no own property is
    looked up on [Object.prototype], where what is found is truthy. *)
Definition truthy_at (o : value) (k : string) : bool :=
  match field k (own_props o) with
  | Some v => truthy v
  | None => inherited k
  end.

(** ** Platform services the codec relies on *)

(** [readAsDataURL b] is the [result] of a [FileReader] that has read [b]
    with [readAsDataURL]; [fetch_blob url] is the blob of the response of
    [fetch(url)], [None] when [fetch] rejects. *)
Class Platform := {
  readAsDataURL : Blob -> string;
  fetch_blob : string -> option Blob
}.

Section Program.
Context {platform : Platform}.

(** ** [src/utils/utils.js] *)

Definition blobToBase64 (blob : value) : M value :=
  match blob with
  | VBlob b => ret (VStr (readAsDataURL b))
  | _ => ret VNull
  end.

(** The [catch] of the source is met only when [fetch] rejects. *)
Definition base64ToBlob (base64Data : value) : M value :=
  if negb (truthy base64Data) || negb (String.eqb (typeof base64Data) "string")
  then ret VNull
  else
    match base64Data with
    | VStr s =>
        if negb (String.prefix "data:" s) then ret VNull
        else
          emit (Fetch s) ;;
          match fetch_blob s with
          | Some b => ret (VBlob b)
          | None => emit (ConsoleError "Conversion to blob failed") ;; ret VNull
          end
    | _ => ret VNull
    end.

Definition generateID (prefix : string) : M value :=
  let* now := Date_now in
  let* rnd := Math_random_base36 in
  ret (VStr (prefix +:+ "-" +:+ pretty now +:+ "-" +:+ rnd)).

Definition serializeNotes (notes : value) (blobToBase64 : value -> M value) : M value :=
  match notes with
  | VArr l =>
      let* out :=
        promise_all_map
          (fun note =>
             let* attachment := lift (prop note "attachment") in
             if instanceofBlob (opt_prop attachment "blob") then
               let* encoded := blobToBase64 (get attachment "blob") in
               ret (VObj (set_field "attachment"
                            (VObj (set_field "blob" encoded (own_props attachment)))
                            (own_props note)))
             else ret note)
          l in
      ret (VArr out)
  | _ => ret (VArr [])
  end.

Definition hydrateNotes (notes : value) (base64ToBlob : value -> M value) : M value :=
  match notes with
  | VArr l =>
      let* out :=
        promise_all_map
          (fun note =>
             let* attachment := lift (prop note "attachment") in
             if String.eqb (typeof (opt_prop attachment "blob")) "string" then
               let* decoded := base64ToBlob (get attachment "blob") in
               ret (VObj (set_field "attachment"
                            (VObj (set_field "blob" decoded (own_props attachment)))
                            (own_props note)))
             else ret note)
          l in
      ret (VArr out)
  | _ => ret (VArr [])
  end.

(** [a || b] when [b] has no effect. *)
Definition js_or (a b : value) : value := if truthy a then a else b.

(** The body of [notepad.notes.map(async (note) => ...)] in
    [dataFallbackMode]. *)
Definition processNote (note : value) : M value :=
  let noteCopy := VObj (own_props note) in
  let blob := opt_prop (get noteCopy "attachment") "blob" in
  let* noteCopy :=
    if truthy blob && String.eqb (typeof blob) "string" then
      let* decoded := base64ToBlob blob in
      ret (assign noteCopy "attachment"
             (assign (get noteCopy "attachment") "blob" decoded))
    else ret noteCopy in
  let* id :=
    if truthy (get noteCopy "id") then ret (get noteCopy "id")
    else generateID "note" in
  ret (VObj [("id", id);
             ("title", js_or (get noteCopy "title") (VStr ""));
             ("content", js_or (get noteCopy "content") (VStr ""));
             ("accentColor", js_or (get noteCopy "accentColor") (VStr ""));
             ("attachment", js_or (get noteCopy "attachment") VNull)]).

(** The guard on a candidate of the backup mapping:
    [notepad && notepad.id && Array.isArray(notepad.notes)]. *)
Definition passes_safeguard (notepad : value) : bool :=
  truthy notepad && truthy (get notepad "id") && isArray (get notepad "notes").

(** The body of [notepadIds.map(async (id) => ...)]: the entry written to
    [validatedData[id]], if any. *)
Definition validateEntry (newData : value) (id : string)
  : M (option (string * value)) :=
  let notepad := get newData id in
  if passes_safeguard notepad then
    let* notes := lift (as_array (get notepad "notes")) in
    let* processedNotes := promise_all_map processNote notes in
    let* created :=
      if truthy (get notepad "created") then ret (get notepad "created")
      else let* now := Date_now in ret (VNum now) in
    let* lastUpdate :=
      if truthy (get notepad "lastUpdate") then ret (get notepad "lastUpdate")
      else let* now := Date_now in ret (VNum now) in
    ret (Some (id, VObj [("id", get notepad "id");
                         ("title", js_or (get notepad "title") (VStr "Untitled Notepad"));
                         ("created", created);
                         ("lastUpdate", lastUpdate);
                         ("notes", VArr processedNotes)]))
  else ret None.

(** [o[k] = v], an assignment to a plain object under a name taken from
    data.  A name the object has as an own property is overwritten, a new
    name is added; but [__proto__], when it is not an own property, is the
    accessor of [Object.prototype]: the assignment runs its setter, which
    replaces the prototype of the object (when [v] is an object or null) and
    adds no property. *)
Definition assign_key (k : string) (v : value) (f : list (string * value))
  : list (string * value) :=
  match field k f with
  | Some _ => set_field k v f
  | None => if String.eqb k "__proto__" then f else set_field k v f
  end.

(** The writes [validatedData[id] = ...], in the order of the keys. *)
Fixpoint collect (entries : list (option (string * value)))
  (validatedData : list (string * value)) : list (string * value) :=
  match entries with
  | [] => validatedData
  | Some (id, notepad) :: rest => collect rest (assign_key id notepad validatedData)
  | None :: rest => collect rest validatedData
  end.

(** The block [if (isBackupCollection) { ... }]: the validated set. *)
Definition validateBackup (newData : value) : M (list (string * value)) :=
  let notepadIds := keys newData in
  let* entries := promise_all_map (validateEntry newData) notepadIds in
  ret (collect entries []).

Definition dquote : string := String (ascii_of_nat 34) EmptyString.

Definition single_notepad_message : string :=
  "This is a single notepad file. Please use the " +:+ dquote +:+ "Import"
  +:+ dquote +:+ " button instead of " +:+ dquote +:+ "Restore" +:+ dquote +:+ ".".

Definition isSingleNotepad (newData : value) : bool :=
  truthy newData && truthy (get newData "notes") && isArray (get newData "notes").

Definition isBackupCollection (newData : value) : bool :=
  truthy newData && negb (isSingleNotepad newData)
  && String.eqb (typeof newData) "object".

(** [validatedData] once the block [if (isBackupCollection) { ... }] is
    passed: empty to start with, filled by the block when it runs. *)
Definition validation (newData : value) : M (list (string * value)) :=
  if isBackupCollection newData then validateBackup newData else ret [].

Definition dataFallbackMode (newData : value) (callbackAction : value -> M unit)
  : M unit :=
  try_catch
    (if isSingleNotepad newData then emit (Alert single_notepad_message)
     else
       let* validatedData := validation newData in
       if (0 <? Z.of_nat (length (keys (VObj validatedData)))) then
         callbackAction (VObj validatedData)
       else emit (Alert "No valid backup data found."))
    (fun error =>
       emit (ConsoleError "Data validation failed:") ;;
       emit (Alert "The file format is invalid.")).

(** ** [src/services/db.js]: the class [StorageDB]

    The store operations are taken to succeed (an environment that denies
    IndexedDB is not modelled). *)

(** The records of the store in key order, as [IDBObjectStore.getAll]
    returns them. *)
Definition records_in_key_order (s : gmap string value) : list (string * value) :=
  merge_sort (fun a b => Is_true (String.leb (fst a) (fst b))) (map_to_list s).

Definition bulkPut (data : value) : M unit :=
  emit (DbBulkPut (own_props data)) ;;
  let* s := get_store in
  set_store (fold_left (fun acc entry => <[fst entry := snd entry]> acc)
               (own_props data) s).

Definition clear : M unit :=
  emit DbClear ;; set_store ∅.

(** [map[item.id] = item] for each record.  The embedding follows the code
    on the stores the program writes: no record is null or undefined, and
    no id prints as [__proto__].  On a null record [item.id] raises a
    TypeError inside the handler of the request, which no promise carries:
    the promise of [getAll] is then never settled, where [index_by_id]
    gives the TypeError as the outcome.  Under the name [__proto__] the
    assignment replaces the prototype of [map] and adds no property.  The
    properties that depend on what [getAll] resolves to are stated for
    stores without such records. *)
Fixpoint index_by_id (items : list value) (map : list (string * value))
  : result (list (string * value)) :=
  match items with
  | [] => Ok map
  | item :: rest =>
      let? id := prop item "id" in
      index_by_id rest (set_field (to_string id) item map)
  end.

Definition getAll : M value :=
  emit DbGetAll ;;
  let* s := get_store in
  let* map := lift (index_by_id (List.map snd (records_in_key_order s)) []) in
  ret (VObj map).

(** ** [src/store/notepadActions.js] *)

(** A confirmation dialog: a message and labelled actions, of which the user
    runs one, or none. *)
Record dialog := Dialog {
  dialog_message : string;
  dialog_actions : list (string * M unit)
}.

Fixpoint action_labelled (label : string) (actions : list (string * M unit))
  : option (M unit) :=
  match actions with
  | [] => None
  | (l, a) :: rest => if String.eqb l label then Some a else action_labelled label rest
  end.

(** The user presses the button [label] of the dialog. *)
Definition press (d : dialog) (label : string) : M unit :=
  match action_labelled label (dialog_actions d) with
  | Some a => a
  | None => ret tt
  end.

Definition openDialog (d : dialog) : M unit :=
  emit (OpenDialog (dialog_message d) (List.map fst (dialog_actions d))).

Definition backup_file_message : string :=
  "This file appears to be a full backup. Please use the " +:+ dquote
  +:+ "Restore" +:+ dquote +:+ " button instead of " +:+ dquote +:+ "Import"
  +:+ dquote +:+ ".".

(** [notepadData && !notepadData.notes && typeof notepadData === 'object'
     && Object.values(notepadData).some((v) => v.notes)] *)
Definition isBackup (notepadData : value) : result bool :=
  if truthy notepadData && negb (truthy (get notepadData "notes"))
     && String.eqb (typeof notepadData) "object"
  then some (fun v => let? notes := prop v "notes" in Ok (truthy notes))
            (values notepadData)
  else Ok false.

Definition saveToDatabase (target : value) : M unit :=
  bulkPut (VObj [(to_string (get target "id"), target)]) ;;
  emit (OnOpenNotepad target) ;;
  emit (SetIsProcessing false) ;;
  emit OnClose.

(** The dialog opened when the id of the imported notepad is taken. *)
Definition collisionDialog (notepad : value) : dialog :=
  Dialog "A version of this notepad already exists."
    [("Keep both",
       let* id := generateID "notepad" in
       saveToDatabase (VObj (set_field "id" id (own_props notepad))));
     ("Replace", saveToDatabase notepad);
     ("Cancel", emit (SetIsProcessing false))].

(** The two steps of [importSingleNotepad] that rebuild the notepad from
    the payload: [hydrateNotes] on its notes, then
    [{ ...notepadData, notes: hydratedNotes }]. *)
Definition hydrateNotepad (notepadData : value) : M value :=
  let* hydratedNotes := hydrateNotes (get notepadData "notes") base64ToBlob in
  ret (VObj (set_field "notes" hydratedNotes (own_props notepadData))).

(** The payload [shareSingleNotepad] builds ([cleanPayload]), before it is
    printed with [JSON.stringify]. *)
Definition cleanPayload (notepad : value) : M value :=
  let* serializedNotes := serializeNotes (get notepad "notes") blobToBase64 in
  ret (VObj [("id", get notepad "id");
             ("title", get notepad "title");
             ("created", get notepad "created");
             ("lastUpdate", get notepad "lastUpdate");
             ("notes", serializedNotes)]).

(** The callback [importSingleNotepad] hands to [uploadLocalFile], run on
    the outcome [parsed] of [JSON.parse(json)]; it returns the dialog it
    leaves open, if any. *)
Definition importSingleNotepad (parsed : result value) : M (option dialog) :=
  emit (SetIsProcessing true) ;;
  try_catch
    (let* notepadData := lift parsed in
     let* backup := lift (isBackup notepadData) in
     if backup then
       emit (Alert backup_file_message) ;;
       emit (SetIsProcessing false) ;;
       ret None
     else if negb (truthy notepadData) || negb (truthy (get notepadData "notes")) then
       emit (SetIsProcessing false) ;;
       throw (Error "Invalid structure")
     else
       let* notepad := hydrateNotepad notepadData in
       let* currentLibrary := getAll in
       let isDuplicate := truthy_at currentLibrary (to_string (get notepad "id")) in
       if isDuplicate then
         emit (SetIsProcessing false) ;;
         openDialog (collisionDialog notepad) ;;
         ret (Some (collisionDialog notepad))
       else
         saveToDatabase notepad ;;
         ret None)
    (fun err =>
       emit (SetIsProcessing false) ;;
       emit (Alert "Import failed: Invalid file format.") ;;
       emit (ConsoleError "") ;;
       ret None).

(** The callback [restoreFullLibrary] hands to [uploadLocalFile]. *)
Definition restoreFromFile (parsed : result value) : M unit :=
  emit (SetIsProcessing true) ;;
  try_finally
    (try_catch
       (let* libraryData := lift parsed in
        dataFallbackMode libraryData
          (fun validatedData =>
             clear ;;
             bulkPut validatedData ;;
             emit ScheduleReload))
       (fun err =>
          emit (ConsoleError "Restore failed:") ;;
          emit (Alert "Restore failed: The file is corrupted or invalid.")))
    (emit (SetIsProcessing false)).

(** [restoreFullLibrary]: [file] is what the file picker delivers once
    "Proceed" is pressed, [None] when no file is picked. *)
Definition restoreFullLibrary (file : option (result value)) : dialog :=
  Dialog "This will replace all local data. Proceed?"
    [("Proceed",
       match file with
       | Some parsed => restoreFromFile parsed
       | None => ret tt
       end);
     ("Cancel", ret tt)].

End Program.

(** ** Vocabulary for traces *)

(** The events validation may cause: decoding attachments. *)
Definition is_decoding_event (e : event) : bool :=
  match e with
  | Fetch _ | ConsoleError _ => true
  | _ => false
  end.

(** A step of the machine that leaves the store alone and adds decoding
    events only. *)
Definition quiet_step (m m' : machine) : Prop :=
  store m' = store m
  /\ clock m' = clock m
  /\ random m' = random m
  /\ exists evs, trace m' = trace m ++ evs /\ forallb is_decoding_event evs = true.

(** A computation that always returns, by quiet steps. *)
Definition validation_only {A} (c : M A) : Prop :=
  forall m, exists a m', c m = (Ok a, m') /\ quiet_step m m'.

(** The store after [bulkPut data] on store [s]. *)
Definition put_all (data : list (string * value)) (s : gmap string value)
  : gmap string value :=
  fold_left (fun acc entry => <[fst entry := snd entry]> acc) data s.

Definition with_trace (m : machine) (t : list event) : machine :=
  Machine (clock m) (ticks m) (random m) (draws m) (store m) t.

(** ** A reference platform: Base64 data URLs

    An executable rendering of the two services for Base64 data URLs
    ([data:<type>;base64,<payload>], RFC 2397 and RFC 4648), used to run the
    program on examples.  A data URL that is not Base64 yields its payload
    characters as bytes (percent-escapes are not decoded). *)

Definition base64_alphabet : list ascii :=
  list_ascii_of_string
    "ABCDEFGHIJKLMNOPQRSTUVWXYZabcdefghijklmnopqrstuvwxyz0123456789+/".

Definition base64_digit (n : N) : ascii :=
  nth (N.to_nat n) base64_alphabet "A"%char.

Fixpoint position_of (c : ascii) (l : list ascii) (i : N) : option N :=
  match l with
  | [] => None
  | x :: r => if Ascii.eqb x c then Some i else position_of c r (N.succ i)
  end.

Definition base64_value (c : ascii) : option N := position_of c base64_alphabet 0%N.

Fixpoint base64_encode (bytes : list N) : list ascii :=
  match bytes with
  | [] => []
  | [a] =>
      [base64_digit (a / 4); base64_digit (a mod 4 * 16); "="%char; "="%char]
  | [a; b] =>
      [base64_digit (a / 4); base64_digit (a mod 4 * 16 + b / 16);
       base64_digit (b mod 16 * 4); "="%char]
  | a :: b :: c :: rest =>
      base64_digit (a / 4) :: base64_digit (a mod 4 * 16 + b / 16)
      :: base64_digit (b mod 16 * 4 + c / 64) :: base64_digit (c mod 64)
      :: base64_encode rest
  end%N.

Fixpoint base64_decode (cs : list ascii) : option (list N) :=
  match cs with
  | [] => Some []
  | c1 :: c2 :: c3 :: c4 :: rest =>
      match base64_value c1, base64_value c2 with
      | Some v1, Some v2 =>
          if Ascii.eqb c3 "=" then
            match Ascii.eqb c4 "=", rest with
            | true, [] => Some [v1 * 4 + v2 / 16]
            | _, _ => None
            end
          else
            match base64_value c3 with
            | Some v3 =>
                if Ascii.eqb c4 "=" then
                  match rest with
                  | [] => Some [v1 * 4 + v2 / 16; v2 mod 16 * 16 + v3 / 4]
                  | _ => None
                  end
                else
                  match base64_value c4, base64_decode rest with
                  | Some v4, Some bytes =>
                      Some (v1 * 4 + v2 / 16 :: v2 mod 16 * 16 + v3 / 4
                            :: v3 mod 4 * 64 + v4 :: bytes)
                  | _, _ => None
                  end
            | None => None
            end
      | _, _ => None
      end
  | _ => None
  end%N.

Definition byte_of_N (n : N) : Byte.byte := default Byte.x00 (Byte.of_N n).

Fixpoint split_at_comma (cs : list ascii) : option (list ascii * list ascii) :=
  match cs with
  | [] => None
  | c :: rest =>
      if Ascii.eqb c "," then Some ([], rest)
      else match split_at_comma rest with
           | Some (before, after) => Some (c :: before, after)
           | None => None
           end
  end.

Fixpoint is_prefix (p l : list ascii) : bool :=
  match p, l with
  | [], _ => true
  | x :: p', y :: l' => Ascii.eqb x y && is_prefix p' l'
  | _ :: _, [] => false
  end.

(** [strip_suffix s l]: [l] without its ending [s], when it ends so. *)
Definition strip_suffix (s l : list ascii) : option (list ascii) :=
  if is_prefix (rev s) (rev l)
  then Some (rev (skipn (length s) (rev l)))
  else None.

Definition reference_readAsDataURL (b : Blob) : string :=
  "data:"
  +:+ (if String.eqb (blob_type b) "" then "application/octet-stream" else blob_type b)
  +:+ ";base64,"
  +:+ string_of_list_ascii (base64_encode (List.map Byte.to_N (blob_bytes b))).

Definition reference_fetch_blob (url : string) : option Blob :=
  if String.prefix "data:" url then
    match split_at_comma (skipn 5 (list_ascii_of_string url)) with
    | Some (header, payload) =>
        match strip_suffix (list_ascii_of_string ";base64") header with
        | Some type =>
            match base64_decode payload with
            | Some bytes =>
                Some (mkBlob (string_of_list_ascii type) (List.map byte_of_N bytes))
            | None => None
            end
        | None =>
            Some (mkBlob (string_of_list_ascii header)
                    (List.map (fun c => byte_of_N (N_of_ascii c)) payload))
        end
    | None => None
    end
  else None.

#[export] Instance reference_platform : Platform :=
  {| readAsDataURL := reference_readAsDataURL;
     fetch_blob := reference_fetch_blob |}.

(** A machine to run examples on: the clock starts at 1700000000000 and
    advances by one per reading; the store holds one notepad. *)
Definition sample_machine : machine :=
  Machine (fun k => Z.of_nat k + 1700000000000) 0
          (fun k => if Nat.even k then "k7f3x9q2a" else "b81zq0pdm") 0
          {[ "notepad-1" := sample_doc 10 [sample_note "a"] ]}
          [].

Definition sample_blob : Blob :=
  mkBlob "image/png" [Byte.x89; Byte.x50; Byte.x4e; Byte.x47; Byte.x0d].

(** ** Vocabulary for the validated set *)

(** [returns clk rnd c P]: on every machine with clock [clk] and random
    source [rnd], [c] returns, by a quiet step, a value that satisfies [P]. *)
Definition returns {A} (clk : nat -> Z) (rnd : nat -> string) (c : M A)
  (P : A -> Prop) : Prop :=
  forall m, clock m = clk -> random m = rnd ->
    exists a m', c m = (Ok a, m') /\ quiet_step m m' /\ P a.

(** A field that falls back on the current time: kept when truthy, otherwise
    some reading of the clock. *)
Definition defaulted_time (clk : nat -> Z) (given out : value) : Prop :=
  if truthy given then out = given else exists k, out = VNum (clk k).

(** An id that falls back on [generateID(prefix)]. *)
Definition defaulted_id (clk : nat -> Z) (rnd : nat -> string) (prefix : string)
  (given out : value) : Prop :=
  if truthy given then out = given
  else exists k j, out = VStr (prefix +:+ "-" +:+ pretty (clk k) +:+ "-" +:+ rnd j).

Section ValidatedSet.
Context {platform : Platform}.

(** The value [base64ToBlob] resolves to. *)
Definition decoded (base64Data : value) : value :=
  match base64Data with
  | VStr s =>
      if truthy base64Data && String.prefix "data:" s then
        match fetch_blob s with
        | Some b => VBlob b
        | None => VNull
        end
      else VNull
  | _ => VNull
  end.

(** The attachment of a restored note: the blob of a truthy string blob is
    replaced by what it decodes to; otherwise the attachment as given, or
    null when it is falsy. *)
Definition restored_attachment (attachment : value) : value :=
  let blob := opt_prop attachment "blob" in
  if truthy blob && String.eqb (typeof blob) "string"
  then assign attachment "blob" (decoded blob)
  else js_or attachment VNull.

(** A note of the restored set, against the note of the payload. *)
Definition backfilled_note (clk : nat -> Z) (rnd : nat -> string)
  (note out : value) : Prop :=
  let noteCopy := VObj (own_props note) in
  exists id,
    defaulted_id clk rnd "note" (get noteCopy "id") id
    /\ out = VObj [("id", id);
                   ("title", js_or (get noteCopy "title") (VStr ""));
                   ("content", js_or (get noteCopy "content") (VStr ""));
                   ("accentColor", js_or (get noteCopy "accentColor") (VStr ""));
                   ("attachment", restored_attachment (get noteCopy "attachment"))].

(** An entry of the restored set, against the candidate of the payload. *)
Definition backfilled (clk : nat -> Z) (rnd : nat -> string)
  (notepad entry : value) : Prop :=
  exists notes notes' created lastUpdate,
    get notepad "notes" = VArr notes
    /\ Forall2 (backfilled_note clk rnd) notes notes'
    /\ defaulted_time clk (get notepad "created") created
    /\ defaulted_time clk (get notepad "lastUpdate") lastUpdate
    /\ entry = VObj [("id", get notepad "id");
                     ("title", js_or (get notepad "title") (VStr "Untitled Notepad"));
                     ("created", created);
                     ("lastUpdate", lastUpdate);
                     ("notes", VArr notes')].

(** What [validateEntry] yields for the key [id]. *)
Definition entry_for (clk : nat -> Z) (rnd : nat -> string) (newData : value)
  (id : string) (e : option (string * value)) : Prop :=
  if passes_safeguard (get newData id)
  then exists entry, e = Some (id, entry) /\ backfilled clk rnd (get newData id) entry
  else e = None.

End ValidatedSet.

(** ** Sample payloads *)

(** [{"a": {"id":"a","notes":[]}, "b": {"notes":[]}}] *)
Definition backup_a_b : value :=
  VObj [("a", VObj [("id", VStr "a"); ("notes", VArr [])]);
        ("b", VObj [("notes", VArr [])])].


(** [{"__proto__": {"id":"p","notes":[]}}] as [JSON.parse] builds it: the
    name [__proto__] is an own property of the payload. *)
Definition backup_under_proto : value :=
  VObj [("__proto__", VObj [("id", VStr "p"); ("notes", VArr [])])].

(** A backup whose only note carries [collapsed] and lacks the rest. *)
Definition backup_collapsed : value :=
  VObj [("a", VObj [("id", VStr "a");
                    ("notes", VArr [VObj [("id", VStr "n1");
                                          ("collapsed", VBool true)]])])].


(** ** Vocabulary for the codec *)

(** Equal but for the identity of blobs, which need only hold the same
    bytes. *)
Inductive content_eq : value -> value -> Prop :=
| content_eq_refl (v : value) : content_eq v v
| content_eq_blob (b b' : Blob) :
    blob_bytes b = blob_bytes b' -> content_eq (VBlob b) (VBlob b')
| content_eq_arr (l l' : list value) :
    Forall2 content_eq l l' -> content_eq (VArr l) (VArr l')
| content_eq_obj (f f' : list (string * value)) :
    Forall2 (fun p q => fst p = fst q /\ content_eq (snd p) (snd q)) f f' ->
    content_eq (VObj f) (VObj f').

(** The outcome of [Promise.all] over settled promises: the fulfilment
    values, or the first rejection. *)
Fixpoint all_results {A} (l : list (result A)) : result (list A) :=
  match l with
  | [] => Ok []
  | r :: rest =>
      match r, all_results rest with
      | Ok y, Ok ys => Ok (y :: ys)
      | Throw e, _ => Throw e
      | Ok _, Throw e => Throw e
      end
  end.

(** [c] settles as [r], leaving the machine as it is but for decoding events
    added to the trace. *)
Definition settles {A} (c : M A) (r : result A) : Prop :=
  forall m, exists evs,
    c m = (r, with_trace m (trace m ++ evs))
    /\ forallb is_decoding_event evs = true.

Definition nullish (v : value) : bool :=
  match v with VUndefined | VNull => true | _ => false end.

Section CodecVocabulary.
Context {platform : Platform}.

(** The platform contract on one blob: its data URL is one, and fetching it
    gives back a blob with the same bytes. *)
Definition data_url_round_trips (b : Blob) : Prop :=
  String.prefix "data:" (readAsDataURL b) = true
  /\ exists b', fetch_blob (readAsDataURL b) = Some b'
                /\ blob_bytes b' = blob_bytes b.

(** A note as the running application holds it: an object (or any value but
    null and undefined) whose attachment blob, if any, is not a string, and
    round-trips through the platform when it is a [Blob]. *)
Definition in_memory_note (note : value) : Prop :=
  nullish note = false
  /\ match opt_prop (get note "attachment") "blob" with
     | VStr _ => False
     | VBlob b => data_url_round_trips b
     | _ => True
     end.

(** What a note hydrates to. *)
Definition hydrated_note (note : value) : result value :=
  let? attachment := prop note "attachment" in
  if String.eqb (typeof (opt_prop attachment "blob")) "string" then
    Ok (VObj (set_field "attachment"
                (VObj (set_field "blob" (decoded (get attachment "blob"))
                         (own_props attachment)))
                (own_props note)))
  else Ok note.

Definition hydrated (notes : value) : result value :=
  match notes with
  | VArr l => let? out := all_results (List.map hydrated_note l) in Ok (VArr out)
  | _ => Ok (VArr [])
  end.

(** What a note serializes to. *)
Definition serialized_note (note : value) : result value :=
  let? attachment := prop note "attachment" in
  match opt_prop attachment "blob" with
  | VBlob b =>
      Ok (VObj (set_field "attachment"
                  (VObj (set_field "blob" (VStr (readAsDataURL b))
                           (own_props attachment)))
                  (own_props note)))
  | _ => Ok note
  end.

Definition serialized (notes : value) : result value :=
  match notes with
  | VArr l => let? out := all_results (List.map serialized_note l) in Ok (VArr out)
  | _ => Ok (VArr [])
  end.

End CodecVocabulary.

(** A note whose attachment holds text that is no data URL, and one whose
    attachment is a picture held in memory. *)
Definition note_with_broken_attachment : value :=
  VObj [("id", VStr "note-1"); ("title", VStr "Receipt"); ("content", VStr "");
        ("accentColor", VStr "");
        ("attachment", VObj [("name", VStr "receipt.png"); ("type", VStr "image");
                             ("mimeType", VStr "image/png"); ("size", VNum 5);
                             ("blob", VStr "not a data url")])].

Definition note_with_picture : value :=
  VObj [("id", VStr "note-2"); ("title", VStr "Cat"); ("content", VStr "");
        ("accentColor", VStr "#fefbe6");
        ("attachment", VObj [("name", VStr "cat.png"); ("type", VStr "image");
                             ("mimeType", VStr "image/png"); ("size", VNum 5);
                             ("blob", VBlob sample_blob)]);
        ("collapsed", VBool false)].

(** A notepad as the running application holds it. *)
Definition notepad_with_picture : value :=
  VObj [("id", VStr "notepad-7"); ("title", VStr "Pets");
        ("created", VNum 1690000000000); ("lastUpdate", VNum 1690000000500);
        ("notes", VArr [note_with_picture; sample_note "note-3"])].

(** ** Vocabulary for the import *)

(** Every record of the store is kept under its own id, as [saveToDatabase]
    and the application's own writes ([{ [notepad.id]: notepad }]) leave it. *)
Definition store_wf (s : gmap string value) : Prop :=
  forall k v, s !! k = Some v -> get v "id" = VStr k.

(** [c] adds to the trace only events that satisfy [q], whatever its
    outcome. *)
Definition emits_only (q : event -> bool) {A} (c : M A) : Prop :=
  forall m, exists evs,
    trace (snd (c m)) = trace m ++ evs /\ forallb q evs = true.

Definition is_backup_alert (e : event) : bool :=
  match e with
  | Alert message => String.eqb message backup_file_message
  | _ => false
  end.

(** The shape the import is said to reject: no top-level [notes], and every
    value holds a [notes] sequence. *)
Definition every_value_has_notes (payload : value) : bool :=
  match payload with
  | VObj f =>
      negb (bool_decide (is_Some (field "notes" f)))
      && forallb (fun v => isArray (get v "notes")) (values payload)
  | _ => false
  end.

(** [{"a": {"id":"a","notes":[]}, "b": {"id":"b","title":"Ideas"}}]: one value
    with notes, one without. *)
Definition payload_with_one_notepad_like_value : value :=
  VObj [("a", VObj [("id", VStr "a"); ("notes", VArr [])]);
        ("b", VObj [("id", VStr "b"); ("title", VStr "Ideas")])].

(** A file that carries the id of the notepad of [sample_machine]. *)
Definition colliding_file : value :=
  VObj [("id", VStr "notepad-1"); ("title", VStr "From a friend");
        ("created", VNum 1650000000000); ("lastUpdate", VNum 1650000000900);
        ("notes", VArr [sample_note "note-9"])].

(** A notepad stored under an id of the form [generateID] builds, and a
    machine whose clock and random source are about to give that very id. *)
Definition notepad_of_mine : value :=
  VObj [("id", VStr "notepad-1700000000000-k7f3x9q2a"); ("title", VStr "Mine");
        ("created", VNum 1700000000000); ("lastUpdate", VNum 1700000000000);
        ("notes", VArr [])].

Definition machine_repeating_an_id : machine :=
  Machine (fun _ => 1700000000000) 0 (fun _ => "k7f3x9q2a") 0
          {[ "notepad-1700000000000-k7f3x9q2a" := notepad_of_mine ]} [].

(** A file that carries the id of that notepad. *)
Definition file_with_repeated_id : value :=
  VObj [("id", VStr "notepad-1700000000000-k7f3x9q2a"); ("title", VStr "Theirs");
        ("notes", VArr [sample_note "n"])].

(** ** Vocabulary for the notes of a document *)

(** [n.id === id] on a note that is an object. *)
Definition has_id (id : value) (n : value) : bool := strict_eq (get n "id") id.

(** No element is null or undefined. *)
Definition non_nullish (l : list value) : Prop :=
  forallb (fun n => negb (nullish n)) l = true.

(** A document the reducer can work on: an object whose [notes] is an array
    of values none of which is null or undefined. *)
Definition well_formed_doc (state : value) : Prop :=
  exists f notes,
    state = VObj f /\ field "notes" f = Some (VArr notes) /\ non_nullish notes.

(** A command that is safe on a document with [len] notes: the notes it
    brings are not null or undefined, the document it installs is well
    formed, and a move within bounds names a source that exists. *)
Definition safe_command (len : nat) (a : action) : Prop :=
  match a with
  | SET_NOTEPAD payload => well_formed_doc payload
  | UPDATE_TITLE _ => True
  | ADD_NOTE payload => nullish payload = false
  | DUPLICATE_NOTE _ newNote => nullish newNote = false
  | UPDATE_NOTE payload => nullish payload = false
  | DELETE_NOTE _ => True
  | MOVE_NOTE oldIndex newIndex =>
      1 <= newIndex <= Z.of_nat len -> 1 <= oldIndex <= Z.of_nat len
  | UNKNOWN _ => True
  end.


(** ** [src/services/db.js]: [StorageDB.delete] *)

(** A valid IndexedDB key, among the values of the embedding: a number, a
    string, or an array of valid keys. *)
Fixpoint valid_key (v : value) : bool :=
  match v with
  | VNum _ | VStr _ => true
  | VArr l => forallb valid_key l
  | _ => false
  end.

Module StorageDB.

(** [delete(id)].  [store.delete(id)] raises a DataError (a DOMException)
    on a key that is not valid; raised inside the executor of the promise,
    it rejects the promise.  The records sit under string keys ([bulkPut]
    writes each under the name of a property), so a valid key that is not a
    string names no record.  The call leaves nothing in the trace, whose
    vocabulary is that of import and restore. *)
Definition delete (id : value) : M unit :=
  if valid_key id then
    let* s := get_store in
    match id with
    | VStr k => set_store (base.delete k s)
    | _ => ret tt
    end
  else throw DOMException.

End StorageDB.

(** An object does not take [__proto__] as a property of its own when it
    is assigned ([map[item.id] = item], [validatedData[id] = ...]): a
    library is plain when no notepad is filed under that name. *)
Definition plain_library (s : gmap string value) : Prop := s !! "__proto__" = None.

(** Every record of the store is an object or another value that has
    properties: none is null or undefined. *)
Definition records_not_null (s : gmap string value) : Prop :=
  forall k v, s !! k = Some v -> nullish v = false.


(** ** Vocabulary for generated ids *)

Fixpoint dash_free (s : string) : bool :=
  match s with
  | EmptyString => true
  | String c r => negb (Ascii.eqb c "-") && dash_free r
  end.


(** ** [src/utils/utils.js]: [getExportFileName]

    A string is read as the sequence of its code units, each below 256, so
    that a character of the embedding is a character of Latin-1. *)

(** The characters [\s] and [trim] take for white space, among Latin-1:
    TAB, LF, VT, FF, CR, the space and the no-break space. *)
Definition is_space (c : ascii) : bool :=
  let n := N_of_ascii c in
  ((9 <=? n) && (n <=? 13) || (n =? 32) || (n =? 160))%N.

(** [toLowerCase] on a character of Latin-1: A-Z and the capital letters
    U+00C0-U+00DE (but the multiplication sign U+00D7) move up by 32. *)
Definition to_lower (c : ascii) : ascii :=
  let n := N_of_ascii c in
  if ((65 <=? n) && (n <=? 90)
      || (192 <=? n) && (n <=? 222) && negb (n =? 215))%N
  then ascii_of_N (n + 32)
  else c.

Definition is_upper (c : ascii) : bool := negb (Ascii.eqb (to_lower c) c).

Fixpoint trimStart (l : list ascii) : list ascii :=
  match l with
  | [] => []
  | c :: r => if is_space c then trimStart r else l
  end.

(** [s.trim()] *)
Definition trim (l : list ascii) : list ascii :=
  rev (trimStart (rev (trimStart l))).

(** [s.replace(/\s+/g, '_')]: every maximal run of white space becomes one
    underscore; [in_run] tells that the character before was white space. *)
Fixpoint replace_spaces (in_run : bool) (l : list ascii) : list ascii :=
  match l with
  | [] => []
  | c :: r =>
      if is_space c
      then (if in_run then replace_spaces true r
            else "_"%char :: replace_spaces true r)
      else c :: replace_spaces false r
  end.

Definition toLowerCase (l : list ascii) : list ascii := List.map to_lower l.

(** [s.split('T')[0]] *)
Fixpoint before_T (l : list ascii) : list ascii :=
  match l with
  | [] => []
  | c :: r => if Ascii.eqb c "T" then [] else c :: before_T r
  end.

(** [s.replace(/-/g, '')] *)
Definition without_dashes (l : list ascii) : list ascii :=
  List.filter (fun c => negb (Ascii.eqb c "-")) l.

(** [getExportFileName(title, type)], with the reading [iso] of
    [new Date().toISOString()] passed in.  The title is cleaned before
    [type] is looked at; [trim] is a method of strings only. *)
Definition getExportFileName (iso : string) (title : value) (type : string)
  : result string :=
  let? cleanTitle :=
    match (if truthy title then title else VStr "sidenotes") with
    | VStr s =>
        Ok (string_of_list_ascii
              (toLowerCase (replace_spaces false (trim (list_ascii_of_string s)))))
    | _ => Throw TypeError
    end in
  if String.eqb type "BACKUP" then
    let dateStamp :=
      string_of_list_ascii (without_dashes (before_T (list_ascii_of_string iso))) in
    Ok ("notepads_" +:+ dateStamp +:+ ".backup.sidenotes.txt")
  else Ok (cleanTitle +:+ ".sidenotes.txt").


(** ** [JSON.stringify]

    The text [JSON.stringify(v)] of a value, [None] when the call gives
    [undefined].  A [Blob] has no enumerable property of its own and prints
    as an empty object; in an array [undefined] prints as [null]; a property
    whose value is [undefined] is left out. *)

Definition hex_digit (n : N) : ascii :=
  nth (N.to_nat n) (list_ascii_of_string "0123456789abcdef") "0"%char.

Definition backslash : string := String (ascii_of_nat 92) EmptyString.

(** One character of [QuoteJSONString]. *)
Definition quote_char (c : ascii) : string :=
  let n := N_of_ascii c in
  if (n =? 8)%N then backslash +:+ "b"
  else if (n =? 9)%N then backslash +:+ "t"
  else if (n =? 10)%N then backslash +:+ "n"
  else if (n =? 12)%N then backslash +:+ "f"
  else if (n =? 13)%N then backslash +:+ "r"
  else if (n =? 34)%N then backslash +:+ dquote
  else if (n =? 92)%N then backslash +:+ backslash
  else if (n <? 32)%N then
    backslash +:+ "u00"
    +:+ String (hex_digit (n / 16)) (String (hex_digit (n mod 16)) EmptyString)
  else String c EmptyString.

Fixpoint quote_chars (s : string) : string :=
  match s with
  | EmptyString => EmptyString
  | String c r => quote_char c +:+ quote_chars r
  end.

Definition QuoteJSONString (s : string) : string :=
  dquote +:+ quote_chars s +:+ dquote.

Fixpoint join_comma (l : list string) : string :=
  match l with
  | [] => ""
  | [s] => s
  | s :: r => s +:+ "," +:+ join_comma r
  end.

Fixpoint SerializeJSONProperty (v : value) : option string :=
  match v with
  | VUndefined => None
  | VNull => Some "null"
  | VBool true => Some "true"
  | VBool false => Some "false"
  | VNum n => Some (pretty n)
  | VStr s => Some (QuoteJSONString s)
  | VBlob _ => Some "{}"
  | VArr l =>
      let elements :=
        (fix elements (l : list value) : list string :=
           match l with
           | [] => []
           | x :: r => default "null" (SerializeJSONProperty x) :: elements r
           end) l in
      Some ("[" +:+ join_comma elements +:+ "]")
  | VObj f =>
      let members :=
        (fix members (f : list (string * value)) : list string :=
           match f with
           | [] => []
           | (k, x) :: r =>
               match SerializeJSONProperty x with
               | Some s => (QuoteJSONString k +:+ ":" +:+ s) :: members r
               | None => members r
               end
           end) f in
      Some ("{" +:+ join_comma members +:+ "}")
  end.

Definition JSON_stringify (v : value) : value :=
  match SerializeJSONProperty v with
  | Some s => VStr s
  | None => VUndefined
  end.

(** [Object.fromEntries(entries)] *)
Definition fromEntries (entries : list (string * value)) : list (string * value) :=
  fold_left (fun acc entry => set_field (fst entry) (snd entry) acc) entries [].

(** ** [src/store/notepadActions.js]: sharing and backup

    [shareLocalFile] is the dependency the two actions are handed: what it
    does with the file is up to the browser. *)

Section Sharing.
Context {platform : Platform}.
Variable shareLocalFile : value -> string -> string -> value -> M value.
Variable iso : string.

(** [shareSingleNotepad(notepad, deps)], with the reading [iso] of
    [new Date().toISOString()]. *)
Definition shareSingleNotepad (notepad : value) : M unit :=
  if negb (truthy notepad) || negb (truthy (get notepad "id"))
     || negb (String.eqb (typeof (get notepad "id")) "string")
  then emit (ConsoleError "Invalid notepad object provided to share.")
  else
    emit (SetIsProcessing true) ;;
    try_finally
      (try_catch
         (let* payload := cleanPayload notepad in
          let payload := JSON_stringify payload in
          let* filename := lift (getExportFileName iso (get notepad "title") "NOTE") in
          shareLocalFile payload filename "text/plain" (get notepad "title") ;;
          ret tt)
         (fun err =>
            emit (ConsoleError "Sharing failed:") ;;
            emit (Alert "Could not share notepad.")))
      (emit (SetIsProcessing false)).

(** The body of [Object.entries(library).map(async ([id, notepad]) => ...)]. *)
Definition serializeEntry (entry : string * value) : M (string * value) :=
  let* notes := lift (prop (snd entry) "notes") in
  let* serializedNotes := serializeNotes notes blobToBase64 in
  ret (fst entry, VObj (set_field "notes" serializedNotes (own_props (snd entry)))).

(** The object [backupFullLibrary] prints:
    [Object.fromEntries(serializedEntries)]. *)
Definition backupPayload : M value :=
  let* library := getAll in
  let* serializedEntries := promise_all_map serializeEntry (own_props library) in
  ret (VObj (fromEntries serializedEntries)).

Definition backupFullLibrary : M unit :=
  emit (SetIsProcessing true) ;;
  try_finally
    (try_catch
       (let* payload := backupPayload in
        let payload := JSON_stringify payload in
        let* filename := lift (getExportFileName iso VNull "BACKUP") in
        shareLocalFile payload filename "text/plain" (VStr "Full Library Backup") ;;
        ret tt)
       (fun err =>
          emit (ConsoleError "Backup failed:") ;;
          emit (Alert "Could not generate backup file.")))
    (emit (SetIsProcessing false)).

End Sharing.

(** ** Vocabulary for the processing flag *)

Definition is_flag (e : event) : bool :=
  match e with SetIsProcessing _ => true | _ => false end.

Definition no_flag (evs : list event) : Prop :=
  forallb (fun e => negb (is_flag e)) evs = true.

(** The value the last call of [setIsProcessing] in [evs] gave the flag,
    [acc] when there is none. *)
Fixpoint last_flag (evs : list event) (acc : option bool) : option bool :=
  match evs with
  | [] => acc
  | SetIsProcessing flag :: rest => last_flag rest (Some flag)
  | _ :: rest => last_flag rest acc
  end.

(** A [shareLocalFile] that stands for the download fallback. *)
Definition downloading_share (data : value) (filename contentType : string)
  (title : value) : M value :=
  ret (VObj [("success", VBool true); ("method", VStr "download")]).


(** [c] only adds to the trace, and what it adds satisfies [P] together
    with the value it returns, when it returns one. *)
Definition on_return {A} (c : M A) (P : list event -> A -> Prop) : Prop :=
  forall m, exists evs,
    trace (snd (c m)) = trace m ++ evs
    /\ forall a, fst (c m) = Ok a -> P evs a.

(** What an import leaves behind when it returns: the flag released, and
    no dialog open but the one about a collision. *)
Definition import_outcome {platform : Platform}
  (evs : list event) (outcome : option dialog) : Prop :=
  last_flag evs None = Some false
  /\ forall d, outcome = Some d -> exists notepad, d = collisionDialog notepad.


(** ** Vocabulary for a backup followed by a restore *)

Section BackupVocabulary.
Context {platform : Platform}.

(** A note of a stored notepad: an object, held as the application holds
    it in memory. *)
Definition stored_note (note : value) : Prop :=
  (exists f, note = VObj f) /\ in_memory_note note.

(** A notepad of the library, stored under [k]: the key is not empty and
    the notes are an array of stored notes. *)
Definition stored_notepad (k : string) (notepad : value) : Prop :=
  k <> ""
  /\ exists notes, get notepad "notes" = VArr notes /\ Forall stored_note notes.

(** What the callback of [backupFullLibrary] resolves to for one entry of
    the library. *)
Definition serialized_entry (entry : string * value) : result (string * value) :=
  let? notes := prop (snd entry) "notes" in
  let? serializedNotes := serialized notes in
  Ok (fst entry, VObj (set_field "notes" serializedNotes (own_props (snd entry)))).

(** A note after a backup and a restore, against the note there was: the
    five properties of a restored note; the id when there was one; title,
    content and colour, or the empty string; the attachment, equal but for
    the identity of its blob, or null. *)
Definition restored_note (note out : value) : Prop :=
  keys out = ["id"; "title"; "content"; "accentColor"; "attachment"]
  /\ (truthy (get note "id") = true -> get out "id" = get note "id")
  /\ get out "title" = js_or (get note "title") (VStr "")
  /\ get out "content" = js_or (get note "content") (VStr "")
  /\ get out "accentColor" = js_or (get note "accentColor") (VStr "")
  /\ content_eq (get out "attachment") (js_or (get note "attachment") VNull).

(** A notepad after a backup and a restore, against the notepad there was
    under [k]. *)
Definition restored_notepad (k : string) (notepad entry : value) : Prop :=
  get entry "id" = VStr k
  /\ get entry "title" = js_or (get notepad "title") (VStr "Untitled Notepad")
  /\ (truthy (get notepad "created") = true ->
      get entry "created" = get notepad "created")
  /\ (truthy (get notepad "lastUpdate") = true ->
      get entry "lastUpdate" = get notepad "lastUpdate")
  /\ exists notes notes',
      get notepad "notes" = VArr notes
      /\ get entry "notes" = VArr notes'
      /\ Forall2 restored_note notes notes'.

End BackupVocabulary.

(** A machine whose library holds the notepad with a picture. *)
Definition machine_with_picture : machine :=
  Machine (clock sample_machine) 0 (random sample_machine) 0
          {[ "notepad-7" := notepad_with_picture ]} [].


(** ** Lists of notepads ([src/App.jsx], [src/components/NotepadsViewer.jsx]) *)

(** The comparator [(a, b) => b.lastUpdate - a.lastUpdate] on records that
    are not null.  The stamps the program writes are readings of the clock;
    a difference that is not a number counts as zero, as in [SortCompare]. *)
Definition compare_lastUpdate (a b : value) : Z :=
  match get b "lastUpdate", get a "lastUpdate" with
  | VNum y, VNum x => y - x
  | _, _ => 0
  end.

Fixpoint insert_by_lastUpdate (x : value) (l : list value) : list value :=
  match l with
  | [] => [x]
  | y :: r =>
      if compare_lastUpdate x y <=? 0 then x :: l
      else y :: insert_by_lastUpdate x r
  end.

(** [l.sort((a, b) => b.lastUpdate - a.lastUpdate)]: the sort is stable,
    most recent first. *)
Fixpoint sort_by_lastUpdate (l : list value) : list value :=
  match l with
  | [] => []
  | x :: r => insert_by_lastUpdate x (sort_by_lastUpdate r)
  end.

(** [l[i]] for an integer [i]. *)
Definition at_index (l : list value) (i : Z) : value :=
  if (0 <=? i) && (i <? Z.of_nat (length l))
  then nth (Z.to_nat i) l VUndefined
  else VUndefined.

(** The callbacks a component is handed as properties, as it calls them. *)
Inductive callback :=
| Refresh
| CreateNotepad (addEmptyNote : bool)
| OpenNotepad (target : value).

(** The action of the button "Delete" of the dialog [handleDelete] opens,
    in [NotepadsViewer]: [notepads] and [activeNotepadId] are the
    properties of the component, [notepadId] the notepad to delete.  It
    resolves to the callbacks it has called. *)
Definition deleteNotepad (notepads : list value) (activeNotepadId notepadId : value)
  : M (list callback) :=
  let* index :=
    lift (findIndex (fun n => let? i := prop n "id" in Ok (strict_eq i notepadId))
            notepads) in
  StorageDB.delete notepadId ;;
  let* allData := getAll in
  let updatedList := sort_by_lastUpdate (values allData) in
  if strict_eq notepadId activeNotepadId then
    if Z.of_nat (length updatedList) =? 0 then ret [Refresh; CreateNotepad true]
    else
      let nextNotepad :=
        js_or (js_or (at_index updatedList index) (at_index updatedList (index - 1)))
              (at_index updatedList 0) in
      if truthy nextNotepad then ret [Refresh; OpenNotepad nextNotepad]
      else ret [Refresh]
  else ret [Refresh].

(** The object [getAll] builds from a store whose records sit under
    their own ids. *)
Definition listing (s : gmap string value) : list (string * value) :=
  fold_left (fun a kv => set_field (fst kv) (snd kv) a) (records_in_key_order s) [].

(** Every record is kept under its own id and carries a number as
    [lastUpdate]. *)
Definition library_wf (s : gmap string value) : Prop :=
  forall k v, s !! k = Some v ->
    get v "id" = VStr k /\ exists n, get v "lastUpdate" = VNum n.

(** A machine whose library holds two notepads. *)
Definition machine_with_two_notepads : machine :=
  Machine (clock sample_machine) 0 (random sample_machine) 0
          (<[ "notepad-1" := sample_doc 10 [sample_note "a"] ]>
             {[ "notepad-2" := VObj [("id", VStr "notepad-2"); ("title", VStr "Ideas");
                                     ("created", VNum 2); ("lastUpdate", VNum 30);
                                     ("notes", VArr [])] ]})
          [].


(** ** [src/App.jsx]: the state of the application and its start-up *)

(** The state the component [App] holds: the open notepad (the state of
    the reducer), the list of notepads, the colours on offer, and the
    title of the document. *)
Record app_state := App {
  app_notepad : value;
  app_notepadsList : list value;
  app_availableColors : list value;
  app_title : value
}.

(** A handler of the component: it works on the state of the application
    and on the machine; an exception leaves both as they are when it is
    raised. *)
Definition AppM (X : Type) : Type :=
  app_state -> machine -> result X * app_state * machine.

Definition aret {X} (x : X) : AppM X := fun a m => (Ok x, a, m).

Definition abind {X Y} (c : AppM X) (k : X -> AppM Y) : AppM Y :=
  fun a m =>
    match c a m with
    | (Ok x, a', m') => k x a' m'
    | (Throw e, a', m') => (Throw e, a', m')
    end.

Notation "'let+' x ':=' c 'in' k" := (abind c (fun x => k))
  (at level 10, x pattern, c at level 100, k at level 200).

(** A computation of the machine, run from a handler. *)
Definition arun {X} (c : M X) : AppM X :=
  fun a m => match c m with (r, m') => (r, a, m') end.

Definition atry_catch {X} (c : AppM X) (h : exn -> AppM X) : AppM X :=
  fun a m =>
    match c a m with
    | (Ok x, a', m') => (Ok x, a', m')
    | (Throw e, a', m') => h e a' m'
    end.

Definition APP_DEFAULTS_accentColors : list value :=
  [VStr ""; VStr "#fefbe6"; VStr "#e0f7fa"; VStr "#f2eef9"; VStr "#fde6e6";
   VStr "#feddc9"; VStr "#e5f4da"; VStr "#d1e3f8"; VStr "#e8dbcd"; VStr "#f5f5f5"].

(** [dispatch(action)]: the reducer runs on the open notepad, with the
    reading of the clock it takes at entry. *)
Definition dispatch (a : action) : AppM unit :=
  fun st m =>
    match Date_now m with
    | (Ok timestamp, m') =>
        match notepadReducer timestamp (app_notepad st) a with
        | Ok s =>
            (Ok tt,
             App s (app_notepadsList st) (app_availableColors st) (app_title st), m')
        | Throw e => (Throw e, st, m')
        end
    | (Throw e, m') => (Throw e, st, m')
    end.

Definition setNotepadsList (l : list value) : AppM unit :=
  fun st m =>
    (Ok tt, App (app_notepad st) l (app_availableColors st) (app_title st), m).

Definition setAvailableColors (l : list value) : AppM unit :=
  fun st m =>
    (Ok tt, App (app_notepad st) (app_notepadsList st) l (app_title st), m).

Definition set_document_title (t : value) : AppM unit :=
  fun st m =>
    (Ok tt, App (app_notepad st) (app_notepadsList st) (app_availableColors st) t, m).

(** [[...new Set(l)]]: the first occurrence of each value is kept. *)
Fixpoint unique_values (seen l : list value) : list value :=
  match l with
  | [] => []
  | x :: r =>
      if existsb (strict_eq x) seen then unique_values seen r
      else x :: unique_values (x :: seen) r
  end.

Section AppHandlers.
Context {platform : Platform}.

Definition refreshNotepadsList : AppM unit :=
  atry_catch
    (let+ allData := arun getAll in
     setNotepadsList (sort_by_lastUpdate (values allData)))
    (fun err => arun (emit (ConsoleError "Failed to refresh notepads list"))).

Definition fillNotepad (data : value) : AppM unit :=
  let+ _ := dispatch (SET_NOTEPAD data) in
  let+ usedColors :=
    arun (lift (let? notes := prop data "notes" in
               let? arr := as_array notes in
               let? colors := rmap (fun n => prop n "accentColor") arr in
               Ok (List.filter truthy colors))) in
  let+ _ := setAvailableColors
              (unique_values [] (APP_DEFAULTS_accentColors ++ usedColors)) in
  set_document_title (js_or (get data "title") (VStr "New notepad")).

Definition createNewNotepad (addEmptyNote : bool) : AppM unit :=
  let+ now := arun Date_now in
  let+ id := arun (generateID "notepad") in
  let+ notes :=
    if addEmptyNote then
      let+ noteId := arun (generateID "note") in
      aret [VObj [("id", noteId); ("title", VStr "New note"); ("content", VStr "");
                  ("accentColor", VStr ""); ("collapsed", VBool false)]]
    else aret [] in
  let+ _ := dispatch (SET_NOTEPAD
                        (VObj [("id", id); ("title", VStr "New notepad");
                               ("created", VNum now); ("lastUpdate", VNum now);
                               ("notes", VArr notes)])) in
  let+ _ := setAvailableColors APP_DEFAULTS_accentColors in
  set_document_title (VStr "New notepad").

(** The effect that loads the data at start-up ([init]); opening the
    database is taken to succeed. *)
Definition init : AppM unit :=
  atry_catch
    (let+ _ := refreshNotepadsList in
     let+ all := arun getAll in
     let last := at_index (sort_by_lastUpdate (values all)) 0 in
     if truthy last then fillNotepad last else createNewNotepad true)
    (fun err => arun (emit (ConsoleError "Database initialisation failed"))).

End AppHandlers.

(** The state the application starts in, before any effect runs. *)
Definition initial_app : app_state :=
  App (VObj [("id", VStr "notepad-0-start"); ("title", VStr "New notepad");
             ("created", VNum 0); ("lastUpdate", VNum 0); ("notes", VArr [])])
      [] APP_DEFAULTS_accentColors VUndefined.


(** ** [src/hooks/useDebounce.js]

    The timers of the browser: [setTimeout] hands out handles 1, 2, ...
    and files the callback under its handle with the time it is due;
    [clearTimeout] drops the timer of a handle, if it is still waiting; when
    time moves on, the timers that are due run, earliest first.  The
    callback of the hook is known by what it is called with. *)

Record timer := Timer {
  timer_handle : Z;
  timer_due : Z;
  timer_args : value
}.

Record debounce := Debounce {
  timer_current : value;
  waiting : list timer;
  next_handle : Z;
  invoked : list value
}.

(** The state of a hook that was never called. *)
Definition useDebounce : debounce := Debounce VUndefined [] 1 [].

Definition setTimeout (now delay : Z) (args : value) (d : debounce) : Z * debounce :=
  (next_handle d,
   Debounce (timer_current d)
            (waiting d ++ [Timer (next_handle d) (now + Z.max delay 0) args])
            (next_handle d + 1) (invoked d)).

Definition clearTimeout (handle : value) (d : debounce) : debounce :=
  Debounce (timer_current d)
           (List.filter (fun t => negb (strict_eq (VNum (timer_handle t)) handle))
              (waiting d))
           (next_handle d) (invoked d).

Fixpoint insert_by_due (t : timer) (l : list timer) : list timer :=
  match l with
  | [] => [t]
  | u :: r =>
      if timer_due t <? timer_due u then t :: l else u :: insert_by_due t r
  end.

Fixpoint sort_by_due (l : list timer) : list timer :=
  match l with
  | [] => []
  | t :: r => insert_by_due t (sort_by_due r)
  end.

(** Time moves on to [now]: the timers due by then run. *)
Definition elapse (now : Z) (d : debounce) : debounce :=
  let due := List.filter (fun t => timer_due t <=? now) (waiting d) in
  Debounce (timer_current d)
           (List.filter (fun t => negb (timer_due t <=? now)) (waiting d))
           (next_handle d)
           (invoked d ++ List.map timer_args (sort_by_due due)).

(** [debouncedFunction(...args)], called at time [now]. *)
Definition debouncedFunction (delay : Z) (now : Z) (args : value) (d : debounce)
  : debounce :=
  let d := elapse now d in
  let d := if truthy (timer_current d) then clearTimeout (timer_current d) d else d in
  let (handle, d) := setTimeout now delay args d in
  Debounce (VNum handle) (waiting d) (next_handle d) (invoked d).

(** Calls at the given times, then time moves on to [finish]. *)
Fixpoint debounced_run (delay : Z) (calls : list (Z * value)) (finish : Z)
  (d : debounce) : debounce :=
  match calls with
  | [] => elapse finish d
  | (now, args) :: rest =>
      debounced_run delay rest finish (debouncedFunction delay now args d)
  end.

(** The calls that are followed by [delay] of quiet: the next call, or the
    end, comes no sooner than [delay] after them. *)
Fixpoint followed_by_quiet (delay : Z) (calls : list (Z * value)) (finish : Z)
  : list value :=
  match calls with
  | [] => []
  | (now, args) :: rest =>
      let next := match rest with [] => finish | (t, _) :: _ => t end in
      if now + delay <=? next then args :: followed_by_quiet delay rest finish
      else followed_by_quiet delay rest finish
  end.

(** Times that do not go back, and end no later than [finish]. *)
Fixpoint in_time_order (calls : list (Z * value)) (finish : Z) : Prop :=
  match calls with
  | [] => True
  | (now, _) :: rest =>
      now <= match rest with [] => finish | (t, _) :: _ => t end
      /\ in_time_order rest finish
  end.

(** A burst: each call comes less than [delay] after the one before. *)
Fixpoint burst (delay : Z) (calls : list (Z * value)) : Prop :=
  match calls with
  | [] => True
  | (now, _) :: rest =>
      match rest with
      | [] => True
      | (t, _) :: _ => t < now + delay
      end
      /\ burst delay rest
  end.


(** ** Vocabulary for the order of the list of notepads *)





(** ** [src/App.jsx]: duplicating a note *)

(** [duplicateNote(originalNote)].  The new note is
    [{ ...originalNote, id: generateID(tag, Date.now()), title:
    originalNote.title + ' (Copy)' }]: the clock is read for the argument
    [generateID] ignores, and once more inside it. *)
Definition duplicateNote (originalNote : value) : AppM unit :=
  let+ _ := arun Date_now in
  let+ id := arun (generateID "note") in
  let+ title := arun (lift (prop originalNote "title")) in
  let newNote :=
    VObj (set_field "title" (VStr (to_string title +:+ " (Copy)"))
            (set_field "id" id (own_props originalNote))) in
  let+ originalId := arun (lift (prop originalNote "id")) in
  dispatch (DUPLICATE_NOTE originalId newNote).


(** ** [src/components/NotepadsViewer.jsx]: the search *)

(** [s.toLowerCase()] on a string. *)
Definition lowercase (s : string) : string :=
  string_of_list_ascii (toLowerCase (list_ascii_of_string s)).

(** [s.includes(t)] *)
Fixpoint includes (s t : string) : bool :=
  String.prefix t s
  || match s with
     | EmptyString => false
     | String _ r => includes r t
     end.

(** [v.toLowerCase()]: a method of strings only. *)
Definition toLowerCase_of (v : value) : result string :=
  match v with
  | VStr s => Ok (lowercase s)
  | _ => Throw TypeError
  end.

(** The callback of [notepad.notes.some(...)]. *)
Definition note_matches (lowerCaseSearch : string) (n : value) : result bool :=
  let? title := prop n "title" in
  let? lowerTitle := toLowerCase_of title in
  let noteTitleMatch := includes lowerTitle lowerCaseSearch in
  let? content := prop n "content" in
  let? lowerContent := toLowerCase_of content in
  let noteContentMatch := includes lowerContent lowerCaseSearch in
  Ok (noteTitleMatch || noteContentMatch).

(** The callback of [notepads.filter(...)]. *)
Definition notepad_matches (lowerCaseSearch : string) (notepad : value) : result bool :=
  let? title := prop notepad "title" in
  let? lowerTitle := toLowerCase_of title in
  if includes lowerTitle lowerCaseSearch then Ok true
  else
    let? notes := prop notepad "notes" in
    let? arr := as_array notes in
    some (note_matches lowerCaseSearch) arr.

(** The list the viewer shows for a search term. *)
Definition filteredNotepads (notepads : list value) (searchTerm : string)
  : result (list value) :=
  if String.eqb searchTerm "" then Ok notepads
  else rfilter (notepad_matches (lowercase searchTerm)) notepads.

(** *** Vocabulary for the search *)

(** The capital letters of Latin-1: A-Z, and U+00C0-U+00DE but for the
    multiplication sign. *)
Definition is_capital (c : ascii) : Prop :=
  let n := N_of_ascii c in
  (65 <= n <= 90 \/ (192 <= n <= 222 /\ n <> 215))%N.

(** The same letter, in either case: a capital and its small letter are 32
    apart. *)
Definition same_letter (c d : ascii) : Prop :=
  c = d
  \/ (is_capital c /\ N_of_ascii d = (N_of_ascii c + 32)%N)
  \/ (is_capital d /\ N_of_ascii c = (N_of_ascii d + 32)%N).

Definition same_letters (a b : string) : Prop :=
  Forall2 same_letter (list_ascii_of_string a) (list_ascii_of_string b).

(** [term] occurs in [text], the case of letters apart. *)
Definition occurs_in (term text : string) : Prop :=
  exists pre found post,
    text = pre +:+ found +:+ post /\ same_letters found term.

(** The notepad mentions [term]: in its title, or in the title or the
    content of one of its notes. *)
Definition mentions (term : string) (notepad : value) : Prop :=
  (exists title, get notepad "title" = VStr title /\ occurs_in term title)
  \/ (exists notes note,
        get notepad "notes" = VArr notes /\ In note notes
        /\ ((exists title, get note "title" = VStr title /\ occurs_in term title)
            \/ (exists content,
                  get note "content" = VStr content /\ occurs_in term content))).

(** A notepad as the list of the viewer holds them: its title is a string,
    its notes are an array, and the title and the content of each note are
    strings. *)
Definition searchable (notepad : value) : Prop :=
  (exists title, get notepad "title" = VStr title)
  /\ exists notes,
      get notepad "notes" = VArr notes
      /\ Forall (fun note =>
                   (exists title, get note "title" = VStr title)
                   /\ exists content, get note "content" = VStr content) notes.

(** * Part II: properties *)

(** ** Objects *)

Section ObjectLemmas.

Lemma field_set_field_eq k v f : field k (set_field k v f) = Some v.
Proof.
  induction f as [|[k' v'] r IH]; simpl.
  - now rewrite String.eqb_refl.
  - destruct (String.eqb k' k) eqn:E; simpl.
    + now rewrite String.eqb_refl.
    + now rewrite E.
Qed.

Lemma field_set_field_ne k k' v f :
  k <> k' -> field k (set_field k' v f) = field k f.
Proof.
  intros Hne. induction f as [|[k0 v0] r IH]; simpl.
  - destruct (String.eqb_spec k' k); congruence.
  - destruct (String.eqb_spec k0 k') as [->|Hk]; simpl.
    + destruct (String.eqb_spec k' k); congruence.
    + now rewrite IH.
Qed.

Lemma get_set_field_eq k v f : get (VObj (set_field k v f)) k = v.
Proof. simpl. now rewrite field_set_field_eq. Qed.

Lemma get_set_field_ne k k' v f :
  k <> k' -> get (VObj (set_field k' v f)) k = get (VObj f) k.
Proof. intros. simpl. now rewrite field_set_field_ne. Qed.

End ObjectLemmas.

(** ** The reducer *)

(** The stamp every rebuilt document carries. *)
Lemma restamped_lastUpdate t notes f :
  get (VObj (set_field "notes" notes (set_field "lastUpdate" (VNum t) f)))
      "lastUpdate" = VNum t.
Proof.
  rewrite get_set_field_ne by discriminate. apply get_set_field_eq.
Qed.

Lemma restamped_notes t notes f :
  get (VObj (set_field "notes" notes (set_field "lastUpdate" (VNum t) f)))
      "notes" = notes.
Proof. apply get_set_field_eq. Qed.

(** *** [splice] on the two calls of MOVE_NOTE *)

Lemma splice_insert (l : list value) (i : Z) (x : value) :
  0 <= i <= Z.of_nat (length l) ->
  snd (splice l i 0 [x]) = take (Z.to_nat i) l ++ [x] ++ drop (Z.to_nat i) l.
Proof.
  intros Hi. unfold splice. simpl snd.
  destruct (Z.ltb_spec i 0) as [?|_]; [lia|].
  rewrite Z.min_l by lia.
  replace (Z.to_nat (Z.min (Z.max 0 0) (Z.of_nat (length l) - i))) with 0%nat by lia.
  now rewrite Nat.add_0_r.
Qed.

Lemma splice_remove_last (init : list value) (x : value) :
  splice (init ++ [x]) (-1) 1 [] = ([x], init).
Proof.
  unfold splice. change (-1 <? 0) with true. cbv iota.
  rewrite length_app. simpl length.
  replace (Z.to_nat (Z.max (Z.of_nat (length init + 1) + -1) 0)) with (length init) by lia.
  replace (Z.to_nat (Z.min (Z.max 1 0)
             (Z.of_nat (length init + 1) - Z.max (Z.of_nat (length init + 1) + -1) 0)))
    with 1%nat by lia.
  rewrite drop_app_length, take_app_length. simpl.
  rewrite drop_ge by (rewrite length_app; simpl; lia).
  now rewrite app_nil_r.
Qed.

(** C6: a MOVE_NOTE whose target position [newIndex] lies outside
    [1 .. notes.length] is rejected by the reducer itself: the very same
    state comes back, so the notes keep their order and [lastUpdate] is not
    restamped, whatever the source index is. *)
Theorem move_note_out_of_bounds_is_identity
  (timestamp : Z) (state : value) (notes : list value) (oldIndex newIndex : Z) :
  prop state "notes" = Ok (VArr notes) ->
  newIndex < 1 \/ newIndex > Z.of_nat (length notes) ->
  notepadReducer timestamp state (MOVE_NOTE oldIndex newIndex) = Ok state.
Proof.
  intros Hnotes Hout. unfold notepadReducer.
  rewrite Hnotes. simpl.
  destruct (Z.ltb_spec (newIndex - 1) 0) as [?|Hge]; [reflexivity|].
  simpl. destruct (Z.geb_spec (newIndex - 1) (Z.of_nat (length notes))) as [?|Hlt];
    [reflexivity|lia].
Qed.

(** C9: the source index of MOVE_NOTE is not validated.  With [oldIndex = 0]
    (internal index -1) and a target in range, [splice(-1, 1)] takes the last
    note off the list and the second [splice] puts it back at position
    [newIndex - 1]; the document is rebuilt and restamped. *)
Theorem move_note_from_zero_moves_last_note
  (timestamp : Z) (state : value) (init : list value) (x : value) (newIndex : Z) :
  prop state "notes" = Ok (VArr (init ++ [x])) ->
  1 <= newIndex <= Z.of_nat (length (init ++ [x])) ->
  notepadReducer timestamp state (MOVE_NOTE 0 newIndex) =
    Ok (VObj (set_field "notes"
               (VArr (take (Z.to_nat (newIndex - 1)) init ++ [x]
                        ++ drop (Z.to_nat (newIndex - 1)) init))
               (set_field "lastUpdate" (VNum timestamp) (own_props state)))).
Proof.
  intros Hnotes Hin. unfold notepadReducer.
  rewrite Hnotes. cbn [rbind iterate].
  change (0 - 1) with (-1). rewrite splice_remove_last. cbn [hd].
  rewrite length_app in *. cbn [length] in *.
  rewrite splice_insert by lia.
  destruct (Z.ltb_spec (newIndex - 1) 0) as [?|_]; [lia|].
  destruct (Z.geb_spec (newIndex - 1) (Z.of_nat (length init + 1))) as [?|_]; [lia|].
  reflexivity.
Qed.

(** What one transition does to [lastUpdate]: SET_NOTEPAD copies its payload,
    a no-op returns the state it was given, every other transition stamps. *)
Lemma reducer_step (t : Z) (s : value) (a : action) (s' : value) :
  notepadReducer t s a = Ok s' ->
  match a with
  | SET_NOTEPAD payload => s' = VObj (own_props payload)
  | _ => if is_noop s a then s' = s else get s' "lastUpdate" = VNum t
  end.
Proof.
  destruct a as [p|p|p|oid nn|p|p|oi ni|ty]; cbn [notepadReducer is_noop].
  - now intros [= <-].
  - intros [= <-]. apply get_set_field_eq.
  - destruct (prop s "notes") as [notes|]; [|discriminate]; cbn [rbind].
    destruct (iterate notes); [|discriminate]; cbn [rbind].
    intros [= <-]. apply restamped_lastUpdate.
  - destruct (prop s "notes") as [notes|]; [|discriminate]; cbn [rbind].
    destruct (as_array notes) as [arr|] eqn:Earr; [|discriminate]; cbn [rbind].
    destruct (findIndex _ arr) as [index|]; [|discriminate]; cbn [rbind].
    destruct (index =? -1); [now intros [= <-]|].
    destruct (iterate notes); [|discriminate]; cbn [rbind].
    intros [= <-]. apply restamped_lastUpdate.
  - destruct (prop s "notes") as [notes|]; [|discriminate]; cbn [rbind].
    destruct (as_array notes) as [arr|]; [|discriminate]; cbn [rbind].
    destruct (rmap _ arr); [|discriminate]; cbn [rbind].
    intros [= <-]. apply restamped_lastUpdate.
  - destruct (prop s "notes") as [notes|]; [|discriminate]; cbn [rbind].
    destruct (as_array notes) as [arr|]; [|discriminate]; cbn [rbind].
    destruct (rfilter _ arr); [|discriminate]; cbn [rbind].
    intros [= <-]. apply restamped_lastUpdate.
  - destruct (prop s "notes") as [notes|]; [|discriminate]; cbn [rbind].
    destruct (iterate notes) as [l|]; [|discriminate]; cbn [rbind].
    replace ((ni <? 1) || (ni >? Z.of_nat (length l)))%bool
      with ((ni - 1 <? 0) || (ni - 1 >=? Z.of_nat (length l)))%bool.
    2:{ f_equal.
        - destruct (Z.ltb_spec (ni - 1) 0), (Z.ltb_spec ni 1); lia || reflexivity.
        - destruct (Z.geb_spec (ni - 1) (Z.of_nat (length l))),
            (Z.gtb_spec ni (Z.of_nat (length l))); lia || reflexivity. }
    destruct ((ni - 1 <? 0) || (ni - 1 >=? Z.of_nat (length l)))%bool;
      [now intros [= <-]|].
    destruct (splice l (oi - 1) 1 []) as [removed notes1].
    intros [= <-]. apply restamped_lastUpdate.
  - now intros [= <-].
Qed.

(** Over a run without SET_NOTEPAD the document carries the stamp of the last
    command that was not a no-op. *)
Lemma run_last_stamp (cmds : list (Z * action)) :
  forall s s', no_set_notepad cmds ->
    run_reducer s cmds = Ok s' ->
    get s' "lastUpdate" = last_stamp s cmds (get s "lastUpdate").
Proof.
  unfold no_set_notepad.
  induction cmds as [|[t a] rest IH]; intros s s' Hns Hrun; cbn in *.
  - now injection Hrun as <-.
  - apply andb_prop in Hns as [Ha Hrest].
    destruct (notepadReducer t s a) as [s1|] eqn:Hstep; [|discriminate].
    cbn [rbind] in Hrun. rewrite (IH _ _ Hrest Hrun).
    apply reducer_step in Hstep.
    destruct a; try discriminate Ha;
      destruct (is_noop s _); subst; try rewrite Hstep; reflexivity.
Qed.

Lemma last_nonempty_default (r : list Z) :
  forall z d d', List.last (z :: r) d = List.last (z :: r) d'.
Proof.
  induction r as [|y r IH]; intros z d d'; [reflexivity|].
  change (List.last (y :: r) d = List.last (y :: r) d'). apply IH.
Qed.

Lemma nondecreasing_from_app (ts1 ts2 : list Z) :
  forall t0, nondecreasing_from t0 (ts1 ++ ts2) ->
    nondecreasing_from t0 ts1 /\ nondecreasing_from (List.last ts1 t0) ts2.
Proof.
  induction ts1 as [|t r IH]; intros t0 H; cbn in *.
  - auto.
  - destruct H as [Hle H]. apply IH in H as [H1 H2]. split; [auto|].
    destruct r as [|z r]; [exact H2|].
    now rewrite (last_nonempty_default r z t0 t).
Qed.

(** The stamp stays between the stamp at the start and the latest clock
    reading. *)
Lemma run_stamp_bounds (cmds : list (Z * action)) :
  forall s s' u c, no_set_notepad cmds ->
    get s "lastUpdate" = VNum u -> u <= c ->
    nondecreasing_from c (map fst cmds) ->
    run_reducer s cmds = Ok s' ->
    exists u', get s' "lastUpdate" = VNum u' /\ u <= u' <= List.last (map fst cmds) c.
Proof.
  unfold no_set_notepad.
  induction cmds as [|[t a] rest IH]; intros s s' u c Hns Hu Huc Hnd Hrun; cbn in *.
  - injection Hrun as <-. exists u. split; [assumption|lia].
  - apply andb_prop in Hns as [Ha Hrest]. destruct Hnd as [Hct Hnd].
    destruct (notepadReducer t s a) as [s1|] eqn:Hstep; [|discriminate].
    cbn [rbind] in Hrun. apply reducer_step in Hstep.
    assert (Hs1 : exists u1, get s1 "lastUpdate" = VNum u1 /\ u <= u1 <= t).
    { destruct a; try discriminate Ha;
        destruct (is_noop s _); subst;
        first [ exists u; split; [assumption|lia] | exists t; split; [assumption|lia] ]. }
    destruct Hs1 as (u1 & Hu1 & Hb).
    destruct (IH s1 s' u1 t Hrest Hu1 ltac:(lia) Hnd Hrun) as (u' & Hu' & Hb').
    exists u'. split; [assumption|].
    destruct (map fst rest) as [|z r] eqn:E; [cbn in *; lia|].
    change (List.last (t :: z :: r) c) with (List.last (z :: r) c).
    rewrite (last_nonempty_default r z c t). lia.
Qed.

(** C5, as amended.  One transition: SET_NOTEPAD installs a copy of its
    payload without stamping; a DUPLICATE_NOTE whose original is not found, a
    MOVE_NOTE whose target is out of range and an unlisted command return the
    state as it is, unstamped; every other transition stamps [lastUpdate] with
    the clock reading.  A run without SET_NOTEPAD: [lastUpdate] ends as the
    reading of the last command that was not such a no-op (as it started if
    there is none), and, when the clock never goes back and starts at or after
    the initial stamp, [lastUpdate] never decreases along the run. *)
Theorem lastUpdate_stamping_discipline :
  (forall (t : Z) (s : value) (a : action) (s' : value),
      notepadReducer t s a = Ok s' ->
      match a with
      | SET_NOTEPAD payload => s' = VObj (own_props payload)
      | _ => if is_noop s a then s' = s else get s' "lastUpdate" = VNum t
      end)
  /\ (forall (s : value) (cmds : list (Z * action)) (s' : value),
      no_set_notepad cmds ->
      run_reducer s cmds = Ok s' ->
      get s' "lastUpdate" = last_stamp s cmds (get s "lastUpdate"))
  /\ (forall (s : value) (t0 : Z) (c1 c2 : list (Z * action)) (s1 s2 : value),
      get s "lastUpdate" = VNum t0 ->
      no_set_notepad (c1 ++ c2) ->
      nondecreasing_from t0 (map fst (c1 ++ c2)) ->
      run_reducer s c1 = Ok s1 ->
      run_reducer s1 c2 = Ok s2 ->
      exists u1 u2 : Z,
        get s1 "lastUpdate" = VNum u1 /\ get s2 "lastUpdate" = VNum u2 /\ u1 <= u2).
Proof.
  split; [exact reducer_step|]. split; [intros; now apply run_last_stamp|].
  intros s t0 c1 c2 s1 s2 Ht0 Hns Hnd Hr1 Hr2.
  unfold no_set_notepad in Hns. rewrite forallb_app in Hns.
  apply andb_prop in Hns as [Hns1 Hns2].
  rewrite map_app in Hnd. apply nondecreasing_from_app in Hnd as [Hnd1 Hnd2].
  destruct (run_stamp_bounds c1 s s1 t0 t0 Hns1 Ht0 ltac:(lia) Hnd1 Hr1)
    as (u1 & Hu1 & Hb1).
  destruct (run_stamp_bounds c2 s1 s2 u1 _ Hns2 Hu1 (proj2 Hb1) Hnd2 Hr2)
    as (u2 & Hu2 & Hb2).
  exists u1, u2. repeat split; [assumption|assumption|lia].
Qed.

Lemma lastUpdate_stamping_discipline_witness :
  let s := sample_doc 10 [sample_note "a"; sample_note "b"] in
  let c1 := [(20, UPDATE_TITLE (VStr "Groceries")); (25, MOVE_NOTE 1 9)] in
  let c2 := [(30, ADD_NOTE (sample_note "c")); (31, UNKNOWN "PING")] in
  no_set_notepad (c1 ++ c2)
  /\ nondecreasing_from 10 (map fst (c1 ++ c2))
  /\ get (run_result s (c1 ++ c2)) "lastUpdate" = VNum 30
  /\ exists u1 u2 : Z,
      get (run_result s c1) "lastUpdate" = VNum u1
      /\ get (run_result (run_result s c1) c2) "lastUpdate" = VNum u2
      /\ u1 <= u2.
Proof.
  intros s c1 c2.
  destruct lastUpdate_stamping_discipline as (_ & Hlast & Hmono).
  assert (Hns : no_set_notepad (c1 ++ c2)) by reflexivity.
  assert (Hnd : nondecreasing_from 10 (map fst (c1 ++ c2))) by (cbn; lia).
  split; [exact Hns|]. split; [exact Hnd|]. split.
  - rewrite (Hlast s (c1 ++ c2) (run_result s (c1 ++ c2)) Hns eq_refl).
    reflexivity.
  - exact (Hmono s 10 c1 c2 (run_result s c1) (run_result (run_result s c1) c2)
             eq_refl Hns Hnd eq_refl eq_refl).
Defined.

(** C5 as stated fails twice over.  At clock 20 an out-of-range MOVE_NOTE,
    which is not SET_NOTEPAD, leaves the stamp at 10; and after an
    UPDATE_TITLE at clock 20, a SET_NOTEPAD at clock 30 of a document stamped
    3 brings [lastUpdate] down from 20 to 3, which is not the reading of the
    last command other than SET_NOTEPAD either. *)
Lemma lastUpdate_stamping_counterexample :
  (notepadReducer 20 (sample_doc 10 [sample_note "a"]) (MOVE_NOTE 1 5)
     = Ok (sample_doc 10 [sample_note "a"])
   /\ get (sample_doc 10 [sample_note "a"]) "lastUpdate" = VNum 10)
  /\ (get (run_result (sample_doc 10 []) [(20, UPDATE_TITLE (VStr "x"))])
        "lastUpdate" = VNum 20
      /\ get (run_result (sample_doc 10 [])
                [(20, UPDATE_TITLE (VStr "x")); (30, SET_NOTEPAD (sample_doc 3 []))])
           "lastUpdate" = VNum 3)
  /\ ~ every_other_transition_stamps.
Proof.
  split; [split; reflexivity|]. split; [split; reflexivity|].
  intros H.
  specialize (H 20 (sample_doc 10 [sample_note "a"]) (MOVE_NOTE 1 5)
                (sample_doc 10 [sample_note "a"]) eq_refl eq_refl).
  discriminate H.
Qed.

Lemma move_note_out_of_bounds_is_identity_witness :
  let state := sample_doc 10 [sample_note "a"; sample_note "b"] in
  prop state "notes" = Ok (VArr [sample_note "a"; sample_note "b"])
  /\ (3 < 1 \/ 3 > Z.of_nat (length [sample_note "a"; sample_note "b"]))
  /\ notepadReducer 20 state (MOVE_NOTE 1 3) = Ok state.
Proof.
  intros state.
  assert (Hn : prop state "notes" = Ok (VArr [sample_note "a"; sample_note "b"]))
    by reflexivity.
  assert (Ho : 3 < 1 \/ 3 > Z.of_nat (length [sample_note "a"; sample_note "b"]))
    by (right; cbn; lia).
  split; [exact Hn|]. split; [exact Ho|].
  exact (move_note_out_of_bounds_is_identity 20 state _ 1 3 Hn Ho).
Defined.

Lemma move_note_from_zero_moves_last_note_witness :
  let state := sample_doc 10 [sample_note "a"; sample_note "b"; sample_note "c"] in
  prop state "notes" = Ok (VArr ([sample_note "a"; sample_note "b"] ++ [sample_note "c"]))
  /\ 1 <= 1 <= Z.of_nat (length ([sample_note "a"; sample_note "b"] ++ [sample_note "c"]))
  /\ notepadReducer 20 state (MOVE_NOTE 0 1) =
       Ok (sample_doc 20 [sample_note "c"; sample_note "a"; sample_note "b"]).
Proof.
  intros state.
  assert (Hn : prop state "notes"
               = Ok (VArr ([sample_note "a"; sample_note "b"] ++ [sample_note "c"])))
    by reflexivity.
  assert (Hi : 1 <= 1 <= Z.of_nat (length ([sample_note "a"; sample_note "b"] ++ [sample_note "c"])))
    by (cbn; lia).
  split; [exact Hn|]. split; [exact Hi|].
  rewrite (move_note_from_zero_moves_last_note 20 state _ _ 1 Hn Hi).
  reflexivity.
Defined.

(** ** Validation is quiet: it returns, leaves the store alone, and only decodes *)

Lemma quiet_step_refl (m : machine) : quiet_step m m.
Proof.
  repeat split. exists []. now rewrite app_nil_r.
Qed.

Lemma quiet_step_trans (m1 m2 m3 : machine) :
  quiet_step m1 m2 -> quiet_step m2 m3 -> quiet_step m1 m3.
Proof.
  intros (Hs & Hc & Hr & evs & Ht & He) (Hs' & Hc' & Hr' & evs' & Ht' & He').
  repeat split; try congruence.
  exists (evs ++ evs'). split.
  - now rewrite Ht', Ht, <- app_assoc.
  - rewrite forallb_app. now rewrite He, He'.
Qed.

Section Returns.
Variables (clk : nat -> Z) (rnd : nat -> string).

Lemma returns_ret {A} (a : A) (P : A -> Prop) : P a -> returns clk rnd (ret a) P.
Proof.
  intros HP m _ _. exists a, m. repeat split; [apply quiet_step_refl|assumption].
Qed.

Lemma returns_bind {A B} (c : M A) (k : A -> M B) (P : A -> Prop) (Q : B -> Prop) :
  returns clk rnd c P -> (forall a, P a -> returns clk rnd (k a) Q) ->
  returns clk rnd (bind c k) Q.
Proof.
  intros Hc Hk m Hclk Hrnd.
  destruct (Hc m Hclk Hrnd) as (a & m1 & Hrun & Hq & HP).
  assert (Hclk1 : clock m1 = clk) by (destruct Hq as (_ & -> & _); assumption).
  assert (Hrnd1 : random m1 = rnd) by (destruct Hq as (_ & _ & -> & _); assumption).
  destruct (Hk a HP m1 Hclk1 Hrnd1) as (b & m2 & Hrun' & Hq' & HQ).
  exists b, m2. split; [|split; [eapply quiet_step_trans; eassumption|assumption]].
  unfold bind. now rewrite Hrun.
Qed.

Lemma returns_weaken {A} (c : M A) (P Q : A -> Prop) :
  returns clk rnd c P -> (forall a, P a -> Q a) -> returns clk rnd c Q.
Proof.
  intros Hc HPQ m Hclk Hrnd.
  destruct (Hc m Hclk Hrnd) as (a & m1 & Hrun & Hq & HP). eauto 6.
Qed.

Lemma returns_emit (e : event) :
  is_decoding_event e = true -> returns clk rnd (emit e) (fun _ => True).
Proof.
  intros He m _ _. eexists _, _. split; [reflexivity|]. split; [|exact I].
  repeat split. exists [e]. split; [reflexivity|]. cbn. now rewrite He.
Qed.

Lemma returns_Date_now :
  returns clk rnd Date_now (fun t => exists k, t = clk k).
Proof.
  intros m Hclk _. eexists _, _. split; [reflexivity|]. split.
  - repeat split. exists []. cbn. now rewrite app_nil_r.
  - exists (ticks m). now rewrite Hclk.
Qed.

Lemma returns_Math_random :
  returns clk rnd Math_random_base36 (fun r => exists j, r = rnd j).
Proof.
  intros m _ Hrnd. eexists _, _. split; [reflexivity|]. split.
  - repeat split. exists []. cbn. now rewrite app_nil_r.
  - exists (draws m). now rewrite Hrnd.
Qed.

Lemma returns_promise_all {X A} (f : X -> M A) (P : X -> A -> Prop) (l : list X) :
  (forall x, returns clk rnd (f x) (P x)) ->
  returns clk rnd (promise_all_map f l) (Forall2 P l).
Proof.
  intros Hf. induction l as [|x r IH]; intros m Hclk Hrnd.
  - exists [], m. repeat split; [apply quiet_step_refl|constructor].
  - destruct (Hf x m Hclk Hrnd) as (y & m1 & Hx & Hq1 & HP).
    assert (Hclk1 : clock m1 = clk) by (destruct Hq1 as (_ & -> & _); assumption).
    assert (Hrnd1 : random m1 = rnd) by (destruct Hq1 as (_ & _ & -> & _); assumption).
    destruct (IH m1 Hclk1 Hrnd1) as (ys & m2 & Hr & Hq2 & HF).
    exists (y :: ys), m2. split; [|split].
    + cbn. now rewrite Hx, Hr.
    + eapply quiet_step_trans; eassumption.
    + now constructor.
Qed.

Context {platform : Platform}.

Lemma returns_base64ToBlob (v : value) :
  returns clk rnd (base64ToBlob v) (fun out => out = decoded v).
Proof.
  unfold base64ToBlob, decoded.
  destruct v as [| |b|n|s| | |]; try (apply returns_ret; reflexivity).
  { destruct b; apply returns_ret; reflexivity. }
  { cbn [typeof]. change (String.eqb "number" "string") with false.
    rewrite orb_true_r. apply returns_ret; reflexivity. }
  change (String.eqb (typeof (VStr s)) "string") with true.
  cbn [truthy negb]. rewrite orb_false_r.
  destruct (negb (String.eqb s "")) eqn:Hs; cbn [negb andb];
    [|apply returns_ret; reflexivity].
  destruct (String.prefix "data:" s); cbn [negb]; [|apply returns_ret; reflexivity].
  eapply returns_bind; [apply returns_emit; reflexivity|]. intros _ _.
  destruct (fetch_blob s); [apply returns_ret; reflexivity|].
  eapply returns_bind; [apply returns_emit; reflexivity|]. intros _ _.
  apply returns_ret; reflexivity.
Qed.

Lemma returns_generateID (prefix : string) :
  returns clk rnd (generateID prefix)
    (fun out => exists k j,
         out = VStr (prefix +:+ "-" +:+ pretty (clk k) +:+ "-" +:+ rnd j)).
Proof.
  unfold generateID.
  eapply returns_bind; [apply returns_Date_now|]. intros t [k ->].
  eapply returns_bind; [apply returns_Math_random|]. intros r [j ->].
  apply returns_ret. eauto.
Qed.

Lemma string_blob_is_on_an_object (attachment : value) :
  (truthy (opt_prop attachment "blob")
   && String.eqb (typeof (opt_prop attachment "blob")) "string")%bool = true ->
  exists f, attachment = VObj f.
Proof.
  destruct attachment as [| | | |s|b|l|f]; cbn; try discriminate; eauto.
Qed.

Lemma returns_processNote (note : value) :
  returns clk rnd (processNote note) (backfilled_note clk rnd note).
Proof.
  unfold processNote, backfilled_note, restored_attachment.
  set (noteCopy := VObj (own_props note)).
  set (attachment := get noteCopy "attachment").
  set (blob := opt_prop attachment "blob").
  destruct (truthy blob && String.eqb (typeof blob) "string")%bool eqn:Hblob.
  - destruct (string_blob_is_on_an_object attachment Hblob) as [f Hf].
    eapply returns_bind
      with (P := fun nc => nc = assign noteCopy "attachment"
                                  (assign attachment "blob" (decoded blob))).
    { eapply returns_bind; [apply returns_base64ToBlob|]. intros d ->.
      apply returns_ret; reflexivity. }
    intros nc ->.
    assert (Hatt : get (assign noteCopy "attachment"
                          (assign attachment "blob" (decoded blob))) "attachment"
                   = assign attachment "blob" (decoded blob))
      by apply get_set_field_eq.
    assert (Hother : forall k, k <> "attachment" ->
              get (assign noteCopy "attachment"
                     (assign attachment "blob" (decoded blob))) k = get noteCopy k)
      by (intros k Hk; now apply get_set_field_ne).
    rewrite Hatt, !Hother by discriminate.
    eapply returns_bind with (P := defaulted_id clk rnd "note" (get noteCopy "id")).
    + unfold defaulted_id. destruct (truthy (get noteCopy "id"));
        [apply returns_ret; reflexivity|apply returns_generateID].
    + intros id Hid. apply returns_ret. exists id. split; [assumption|].
      rewrite Hf. reflexivity.
  - eapply returns_bind with (P := fun nc => nc = noteCopy);
      [apply returns_ret; reflexivity|]. intros nc ->.
    eapply returns_bind with (P := defaulted_id clk rnd "note" (get noteCopy "id")).
    + unfold defaulted_id. destruct (truthy (get noteCopy "id"));
        [apply returns_ret; reflexivity|apply returns_generateID].
    + intros id Hid. apply returns_ret. exists id. split; [assumption|reflexivity].
Qed.

Lemma passes_safeguard_is_array (notepad : value) :
  passes_safeguard notepad = true ->
  exists notes, get notepad "notes" = VArr notes.
Proof.
  unfold passes_safeguard. intros H.
  apply andb_prop in H as [_ H].
  destruct (get notepad "notes"); try discriminate. eauto.
Qed.

Lemma returns_defaulted_time (given : value) :
  returns clk rnd
    (if truthy given then ret given else let* now := Date_now in ret (VNum now))
    (defaulted_time clk given).
Proof.
  unfold defaulted_time. destruct (truthy given); [apply returns_ret; reflexivity|].
  eapply returns_bind; [apply returns_Date_now|]. intros t [k ->].
  apply returns_ret. eauto.
Qed.

Lemma returns_validateEntry (newData : value) (id : string) :
  returns clk rnd (validateEntry newData id) (entry_for clk rnd newData id).
Proof.
  unfold validateEntry, entry_for.
  destruct (passes_safeguard (get newData id)) eqn:Hg; [|apply returns_ret; reflexivity].
  destruct (passes_safeguard_is_array _ Hg) as [notes Hnotes]. rewrite Hnotes.
  eapply returns_bind with (P := fun l => l = notes);
    [intros m _ _; exists notes, m; repeat split; apply quiet_step_refl|].
  intros l ->.
  eapply returns_bind;
    [apply returns_promise_all with (P := backfilled_note clk rnd);
     apply returns_processNote|].
  intros notes' Hnotes'.
  eapply returns_bind; [apply returns_defaulted_time|]. intros created Hcreated.
  eapply returns_bind; [apply returns_defaulted_time|]. intros lastUpdate HlastUpdate.
  apply returns_ret. eexists. split; [reflexivity|].
  exists notes, notes', created, lastUpdate. rewrite Hnotes. auto.
Qed.

Lemma returns_validateBackup (newData : value) :
  returns clk rnd (validateBackup newData)
    (fun validatedData =>
       exists entries,
         Forall2 (entry_for clk rnd newData) (keys newData) entries
         /\ validatedData = collect entries []).
Proof.
  unfold validateBackup.
  eapply returns_bind;
    [apply returns_promise_all with (P := entry_for clk rnd newData);
     apply returns_validateEntry|].
  intros entries Hentries. apply returns_ret. eauto.
Qed.

End Returns.

Section Validation.
Context {platform : Platform}.

Lemma validation_only_validation (newData : value) :
  validation_only (validation newData).
Proof.
  intros m. unfold validation. destruct (isBackupCollection newData).
  - destruct (returns_validateBackup (clock m) (random m) newData m eq_refl eq_refl)
      as (a & m' & Hrun & Hq & _). eauto.
  - exists [], m. split; [reflexivity|apply quiet_step_refl].
Qed.

End Validation.

(** ** Full-library restore *)

Lemma nonempty_test (validatedData : list (string * value)) :
  (0 <? Z.of_nat (length (keys (VObj validatedData)))) =
  match validatedData with [] => false | _ :: _ => true end.
Proof. destruct validatedData; reflexivity. Qed.

Section Restore.
Context {platform : Platform}.

(** C1: what a restore does, for every file and every machine.  The store is
    written in one case only: the payload is not a single notepad and the
    validated set is non-empty; then the trace shows every decoding event of
    the validation first, and only then the clear, the bulk write of the
    validated set and the reload.  When the validated set is empty, "No valid
    backup data found." is reported and the store is what it was; the same
    holds (with their own messages) for a single-notepad payload and for a
    file that does not parse. *)
Theorem restore_clears_only_after_validation (parsed : result value) (m : machine) :
  let m' := snd (restoreFromFile parsed m) in
  match parsed with
  | Throw _ =>
      store m' = store m
      /\ trace m' = trace m ++ [SetIsProcessing true;
                                ConsoleError "Restore failed:";
                                Alert "Restore failed: The file is corrupted or invalid.";
                                SetIsProcessing false]
  | Ok libraryData =>
      if isSingleNotepad libraryData then
        store m' = store m
        /\ trace m' = trace m ++ [SetIsProcessing true;
                                  Alert single_notepad_message;
                                  SetIsProcessing false]
      else
        exists (validatedData : list (string * value)) (decoding : list event),
          fst (validation libraryData
                 (with_trace m (trace m ++ [SetIsProcessing true]))) = Ok validatedData
          /\ forallb is_decoding_event decoding = true
          /\ match validatedData with
             | [] =>
                 store m' = store m
                 /\ trace m' = trace m ++ [SetIsProcessing true] ++ decoding
                                 ++ [Alert "No valid backup data found.";
                                     SetIsProcessing false]
             | _ :: _ =>
                 store m' = put_all validatedData ∅
                 /\ trace m' = trace m ++ [SetIsProcessing true] ++ decoding
                                 ++ [DbClear; DbBulkPut validatedData;
                                     ScheduleReload; SetIsProcessing false]
             end
  end.
Proof.
  destruct parsed as [libraryData|e]; cbn zeta.
  2:{ cbn. split; [reflexivity|]. now rewrite <- !app_assoc. }
  unfold restoreFromFile, bind, try_finally, try_catch, lift, dataFallbackMode.
  cbn [emit fst snd]. unfold try_catch.
  destruct (isSingleNotepad libraryData) eqn:Hsingle.
  { cbn. split; [reflexivity|]. now rewrite <- !app_assoc. }
  unfold bind.
  destruct (validation_only_validation libraryData
              (with_trace m (trace m ++ [SetIsProcessing true])))
    as (validatedData & m1 & Hrun & Hstore & _ & _ & decoding & Htrace & Hdec).
  exists validatedData, decoding. rewrite Hrun.
  unfold with_trace in Hrun. rewrite Hrun.
  split; [reflexivity|]. split; [assumption|].
  rewrite nonempty_test.
  destruct validatedData as [|entry rest]; cbn.
  - split; [exact Hstore|]. rewrite Htrace. cbn. now rewrite <- !app_assoc.
  - split; [reflexivity|]. rewrite Htrace. cbn. now rewrite <- !app_assoc.
Qed.

(** Pressing "Cancel" on the confirmation of a restore does nothing. *)
Lemma restore_cancelled_is_noop (file : option (result value)) (m : machine) :
  press (restoreFullLibrary file) "Cancel" m = (Ok tt, m).
Proof. reflexivity. Qed.

(** The payload [{"x": {"notes": "not-an-array"}}] restores nothing: the
    store is as it was and "No valid backup data found." is alerted. *)
Lemma restore_of_invalid_entry_leaves_store (m : machine) :
  store (snd (restoreFromFile
                (Ok (VObj [("x", VObj [("notes", VStr "not-an-array")])])) m))
  = store m
  /\ trace (snd (restoreFromFile
                   (Ok (VObj [("x", VObj [("notes", VStr "not-an-array")])])) m))
     = trace m ++ [SetIsProcessing true; Alert "No valid backup data found.";
                   SetIsProcessing false].
Proof.
  split; [reflexivity|].
  unfold restoreFromFile, try_finally, try_catch, bind, lift, dataFallbackMode.
  cbn. unfold try_catch. cbn. change (0 <? Z.of_nat 0) with false.
  cbn. now rewrite <- !app_assoc.
Qed.

End Restore.

(** ** The validated set of a restore *)

Section ValidatedSetProperties.
Context {platform : Platform}.
Variables (clk : nat -> Z) (rnd : nat -> string) (newData : value).

(** The assignment [validatedData[id] = ...], name by name. *)
Lemma assign_key_proto (v : value) (f : list (string * value)) :
  field "__proto__" f = None -> assign_key "__proto__" v f = f.
Proof. intros H. unfold assign_key. now rewrite H. Qed.

Lemma assign_key_other (k : string) (v : value) (f : list (string * value)) :
  k <> "__proto__" -> assign_key k v f = set_field k v f.
Proof.
  intros H. unfold assign_key. apply String.eqb_neq in H. rewrite H.
  now destruct (field k f).
Qed.

Lemma assign_key_keeps_no_proto (k : string) (v : value) (f : list (string * value)) :
  field "__proto__" f = None -> field "__proto__" (assign_key k v f) = None.
Proof.
  intros H. destruct (String.eqb_spec k "__proto__") as [->|Hne].
  - now rewrite assign_key_proto.
  - rewrite assign_key_other by assumption.
    rewrite field_set_field_ne by congruence. exact H.
Qed.

Lemma collect_keeps_no_proto (entries : list (option (string * value))) :
  forall acc, field "__proto__" acc = None ->
              field "__proto__" (collect entries acc) = None.
Proof.
  induction entries as [|[[id notepad]|] rest IH]; intros acc Hacc; cbn [collect];
    [assumption| |now apply IH].
  apply IH. now apply assign_key_keeps_no_proto.
Qed.

(** What [validatedData] holds under a key once the entries are written. *)
Lemma collect_field (ids : list string) (entries : list (option (string * value))) :
  Forall2 (entry_for clk rnd newData) ids entries ->
  forall (acc : list (string * value)) (id : string),
    field "__proto__" acc = None ->
    match field id (collect entries acc) with
    | Some entry =>
        (In id ids /\ passes_safeguard (get newData id) = true
         /\ backfilled clk rnd (get newData id) entry)
        \/ field id acc = Some entry
    | None =>
        field id acc = None
        /\ (In id ids -> id <> "__proto__" ->
            passes_safeguard (get newData id) = false)
    end.
Proof.
  induction 1 as [|x e ids entries Hx _ IH]; intros acc id Hproto; cbn [collect].
  - destruct (field id acc); [now right|]. split; [reflexivity|intros []].
  - unfold entry_for in Hx.
    destruct (passes_safeguard (get newData x)) eqn:Hpass.
    + destruct Hx as (entry & -> & Hentry).
      specialize (IH (assign_key x entry acc) id
                     (assign_key_keeps_no_proto x entry acc Hproto)).
      destruct (String.eqb_spec x "__proto__") as [->|Hx].
      * rewrite assign_key_proto in IH |- * by assumption.
        destruct (field id (collect entries acc)) as [entry0|].
        -- destruct IH as [(Hin & Hp & Hb)|Hacc]; [left; cbn; auto|now right].
        -- destruct IH as [Hacc Hin]. split; [assumption|].
           intros [Heq|Hr] Hid; [congruence|auto].
      * rewrite assign_key_other in IH |- * by assumption.
        destruct (field id (collect entries (set_field x entry acc))) as [entry0|].
        -- destruct IH as [(Hin & Hp & Hb)|Hacc]; [left; cbn; auto|].
           destruct (String.eqb_spec id x) as [->|Hne].
           ++ rewrite field_set_field_eq in Hacc. injection Hacc as <-.
              left. cbn. auto.
           ++ rewrite field_set_field_ne in Hacc by assumption. now right.
        -- destruct IH as [Hacc Hin].
           destruct (String.eqb_spec id x) as [->|Hne];
             [now rewrite field_set_field_eq in Hacc|].
           rewrite field_set_field_ne in Hacc by assumption.
           split; [assumption|]. intros [Heq|Hr] Hid; [congruence|auto].
    + subst e. specialize (IH acc id Hproto).
      destruct (field id (collect entries acc)) as [entry0|].
      * destruct IH as [(Hin & Hp & Hb)|Hacc]; [left; cbn; auto|now right].
      * destruct IH as [Hacc Hin]. split; [assumption|].
        intros [Heq|Hr] Hid; [congruence|auto].
Qed.

End ValidatedSetProperties.

Section RestoredSet.
Context {platform : Platform}.

(** The validated set, entry by entry: nothing is held under the name
    [__proto__], whatever the payload has there. *)
Lemma validateBackup_entries (newData : value) (m : machine) :
  exists validatedData m',
    validateBackup newData m = (Ok validatedData, m')
    /\ field "__proto__" validatedData = None
    /\ forall id,
        match field id validatedData with
        | Some entry =>
            In id (keys newData) /\ passes_safeguard (get newData id) = true
            /\ backfilled (clock m) (random m) (get newData id) entry
        | None =>
            In id (keys newData) -> id <> "__proto__" ->
            passes_safeguard (get newData id) = false
        end.
Proof.
  destruct (returns_validateBackup (clock m) (random m) newData m eq_refl eq_refl)
    as (validatedData & m' & Hrun & _ & entries & Hentries & ->).
  exists (collect entries []), m'. split; [assumption|].
  split; [now apply collect_keeps_no_proto|]. intros id.
  pose proof (collect_field _ _ _ _ _ Hentries [] id eq_refl) as H.
  destruct (field id (collect entries [])).
  - destruct H as [H|H]; [assumption|discriminate].
  - apply H.
Qed.




(** C10: every note of every entry of the validated set is an object with
    exactly the properties id, title, content, accentColor and attachment,
    in this order; whatever else the note of the payload carried, such as
    [collapsed], is gone. *)
Theorem restored_notes_have_five_fields (newData : value) (m : machine) :
  exists validatedData m',
    validateBackup newData m = (Ok validatedData, m')
    /\ forall id entry,
        field id validatedData = Some entry ->
        exists notes',
          get entry "notes" = VArr notes'
          /\ Forall (fun note =>
                       keys note = ["id"; "title"; "content"; "accentColor"; "attachment"]
                       /\ get note "collapsed" = VUndefined) notes'.
Proof.
  destruct (validateBackup_entries newData m) as (validatedData & m' & Hrun & _ & H).
  exists validatedData, m'. split; [assumption|].
  intros id entry Hentry. specialize (H id). rewrite Hentry in H.
  destruct H as (_ & _ & notes & notes' & created & lastUpdate & _ & Hnotes & _ & _ & ->).
  exists notes'. split; [reflexivity|].
  clear -Hnotes. induction Hnotes as [|note out notes notes' Hout _ IH];
    constructor; [|assumption].
  destruct Hout as (i & _ & ->). split; reflexivity.
Qed.


End RestoredSet.



(** The name [__proto__]: in [{"__proto__": {"id":"p","notes":[]}}] the
    candidate passes the guard and is not kept.  The validated set is
    empty, and a restore from this file alerts that no valid data was found
    and leaves the store as it was. *)
Lemma backup_candidate_under_proto_not_kept :
  passes_safeguard (get backup_under_proto "__proto__") = true
  /\ fst (validateBackup backup_under_proto sample_machine) = Ok []
  /\ store (snd (restoreFromFile (Ok backup_under_proto) sample_machine))
     = store sample_machine
  /\ trace (snd (restoreFromFile (Ok backup_under_proto) sample_machine))
     = [SetIsProcessing true; Alert "No valid backup data found.";
        SetIsProcessing false].
Proof. repeat split. Qed.

Lemma restored_notes_have_five_fields_witness :
  exists notes',
    get (VObj [("id", VStr "a");
               ("title", VStr "Untitled Notepad");
               ("created", VNum 1700000000000);
               ("lastUpdate", VNum 1700000000001);
               ("notes", VArr [VObj [("id", VStr "n1"); ("title", VStr "");
                                     ("content", VStr ""); ("accentColor", VStr "");
                                     ("attachment", VNull)]])]) "notes" = VArr notes'
    /\ Forall (fun note =>
                 keys note = ["id"; "title"; "content"; "accentColor"; "attachment"]
                 /\ get note "collapsed" = VUndefined) notes'.
Proof.
  destruct (restored_notes_have_five_fields backup_collapsed sample_machine)
    as (validatedData & m' & Hrun & Hfields).
  apply (f_equal fst) in Hrun. vm_compute in Hrun. injection Hrun as <-.
  exact (Hfields "a" _ eq_refl).
Defined.

(** ** The codec *)

Lemma set_field_set_field (k : string) (v v' : value) (f : list (string * value)) :
  set_field k v (set_field k v' f) = set_field k v f.
Proof.
  induction f as [|[k0 v0] r IH]; cbn.
  - now rewrite String.eqb_refl.
  - destruct (String.eqb k0 k) eqn:E; cbn.
    + now rewrite String.eqb_refl.
    + now rewrite E, IH.
Qed.

Lemma content_eq_fields_refl (f : list (string * value)) :
  Forall2 (fun p q => fst p = fst q /\ content_eq (snd p) (snd q)) f f.
Proof. induction f; constructor; auto using content_eq_refl. Qed.

(** Replacing the value of a property by one equal in content. *)
Lemma content_eq_set_field (k : string) (v v0 : value) (f : list (string * value)) :
  field k f = Some v0 -> content_eq v v0 ->
  content_eq (VObj (set_field k v f)) (VObj f).
Proof.
  intros Hf Hv. apply content_eq_obj. revert Hf.
  induction f as [|[k0 w] r IH]; cbn; [discriminate|].
  destruct (String.eqb_spec k0 k) as [->|Hne].
  - intros [= ->]. constructor; [auto|apply content_eq_fields_refl].
  - intros Hr. constructor; [auto using content_eq_refl|auto].
Qed.

Lemma with_trace_nil (m : machine) : with_trace m (trace m ++ []) = m.
Proof. destruct m. unfold with_trace. cbn. now rewrite app_nil_r. Qed.

Lemma settles_ret {A} (a : A) : settles (ret a) (Ok a).
Proof. intros m. exists []. now rewrite with_trace_nil. Qed.

Lemma settles_lift {A} (r : result A) : settles (lift r) r.
Proof. intros m. exists []. now rewrite with_trace_nil. Qed.

Lemma settles_emit (e : event) :
  is_decoding_event e = true -> settles (emit e) (Ok tt).
Proof. intros He m. exists [e]. split; [reflexivity|]. cbn. now rewrite He. Qed.

Lemma settles_bind {A B} (c : M A) (k : A -> M B) (a : A) (r : result B) :
  settles c (Ok a) -> settles (k a) r -> settles (bind c k) r.
Proof.
  intros Hc Hk m. destruct (Hc m) as (evs & Hrun & He).
  destruct (Hk (with_trace m (trace m ++ evs))) as (evs' & Hrun' & He').
  exists (evs ++ evs'). split.
  - unfold bind. rewrite Hrun, Hrun'. cbn. now rewrite app_assoc.
  - rewrite forallb_app. now rewrite He, He'.
Qed.

Lemma settles_bind_throw {A B} (c : M A) (k : A -> M B) (e : exn) :
  settles c (Throw e) -> settles (bind c k) (Throw e).
Proof.
  intros Hc m. destruct (Hc m) as (evs & Hrun & He).
  exists evs. split; [|assumption]. unfold bind. now rewrite Hrun.
Qed.

Lemma settles_rbind {A B} (c : M A) (k : A -> M B) (r : result A)
  (k' : A -> result B) :
  settles c r -> (forall a, settles (k a) (k' a)) ->
  settles (bind c k) (rbind r k').
Proof.
  intros Hc Hk. destruct r as [a|e]; cbn [rbind].
  - eapply settles_bind; [exact Hc|apply Hk].
  - now apply settles_bind_throw.
Qed.

Lemma settles_promise_all {X A} (f : X -> M A) (g : X -> result A) (l : list X) :
  (forall x, settles (f x) (g x)) ->
  settles (promise_all_map f l) (all_results (List.map g l)).
Proof.
  intros Hf. induction l as [|x r IH]; intros m.
  - exists []. now rewrite with_trace_nil.
  - destruct (Hf x m) as (evs & Hx & He).
    destruct (IH (with_trace m (trace m ++ evs))) as (evs' & Hr & He').
    exists (evs ++ evs'). split.
    + cbn [promise_all_map List.map all_results]. rewrite Hx, Hr.
      cbn. now rewrite app_assoc.
    + rewrite forallb_app. now rewrite He, He'.
Qed.

Section Codec.
Context {platform : Platform}.

Lemma settles_base64ToBlob (v : value) : settles (base64ToBlob v) (Ok (decoded v)).
Proof.
  unfold base64ToBlob, decoded.
  destruct v as [| |b|n|s| | |]; try apply settles_ret.
  { destruct b; apply settles_ret. }
  { cbn [typeof]. change (String.eqb "number" "string") with false.
    rewrite orb_true_r. apply settles_ret. }
  change (String.eqb (typeof (VStr s)) "string") with true.
  cbn [truthy negb]. rewrite orb_false_r.
  destruct (negb (String.eqb s "")); cbn [negb andb]; [|apply settles_ret].
  destruct (String.prefix "data:" s); cbn [negb]; [|apply settles_ret].
  eapply settles_bind; [apply settles_emit; reflexivity|].
  destruct (fetch_blob s); [apply settles_ret|].
  eapply settles_bind; [apply settles_emit; reflexivity|apply settles_ret].
Qed.

Lemma settles_hydrateNotes (notes : value) :
  settles (hydrateNotes notes base64ToBlob) (hydrated notes).
Proof.
  unfold hydrateNotes, hydrated.
  destruct notes as [| | | | | |l|]; try apply settles_ret.
  assert (H : settles
                (promise_all_map
                   (fun note =>
                      let* attachment := lift (prop note "attachment") in
                      if String.eqb (typeof (opt_prop attachment "blob")) "string" then
                        let* decoded := base64ToBlob (get attachment "blob") in
                        ret (VObj (set_field "attachment"
                                     (VObj (set_field "blob" decoded (own_props attachment)))
                                     (own_props note)))
                      else ret note) l)
                (all_results (List.map hydrated_note l))).
  { apply settles_promise_all. intros note. unfold hydrated_note.
    destruct (prop note "attachment") as [attachment|e] eqn:Hp; cbn [rbind].
    - eapply settles_bind; [apply settles_lift|].
      destruct (String.eqb (typeof (opt_prop attachment "blob")) "string");
        [|apply settles_ret].
      eapply settles_bind; [apply settles_base64ToBlob|apply settles_ret].
    - apply settles_bind_throw, settles_lift. }
  destruct (all_results (List.map hydrated_note l)) as [out|e]; cbn [rbind].
  - eapply settles_bind; [exact H|apply settles_ret].
  - apply settles_bind_throw. exact H.
Qed.

Lemma settles_serializeNotes (notes : value) :
  settles (serializeNotes notes blobToBase64) (serialized notes).
Proof.
  unfold serializeNotes, serialized.
  destruct notes as [| | | | | |l|]; try apply settles_ret.
  assert (H : settles
                (promise_all_map
                   (fun note =>
                      let* attachment := lift (prop note "attachment") in
                      if instanceofBlob (opt_prop attachment "blob") then
                        let* encoded := blobToBase64 (get attachment "blob") in
                        ret (VObj (set_field "attachment"
                                     (VObj (set_field "blob" encoded (own_props attachment)))
                                     (own_props note)))
                      else ret note) l)
                (all_results (List.map serialized_note l))).
  { apply settles_promise_all. intros note. unfold serialized_note.
    destruct (prop note "attachment") as [attachment|e] eqn:Hp; cbn [rbind].
    - eapply settles_bind; [apply settles_lift|].
      destruct (opt_prop attachment "blob") as [| | | | |b| |] eqn:Hb;
        cbn [instanceofBlob]; try apply settles_ret.
      assert (Hget : get attachment "blob" = VBlob b)
        by (destruct attachment; try discriminate Hb; exact Hb).
      rewrite Hget. cbn [blobToBase64].
      eapply settles_bind; apply settles_ret.
    - apply settles_bind_throw, settles_lift. }
  destruct (all_results (List.map serialized_note l)) as [out|e]; cbn [rbind].
  - eapply settles_bind; [exact H|apply settles_ret].
  - apply settles_bind_throw. exact H.
Qed.

Lemma settles_cleanPayload (notepad : value) :
  settles (cleanPayload notepad)
    (let? serializedNotes := serialized (get notepad "notes") in
     Ok (VObj [("id", get notepad "id");
               ("title", get notepad "title");
               ("created", get notepad "created");
               ("lastUpdate", get notepad "lastUpdate");
               ("notes", serializedNotes)])).
Proof.
  unfold cleanPayload. apply settles_rbind; [apply settles_serializeNotes|].
  intros a. apply settles_ret.
Qed.

Lemma settles_hydrateNotepad (notepadData : value) :
  settles (hydrateNotepad notepadData)
    (let? hydratedNotes := hydrated (get notepadData "notes") in
     Ok (VObj (set_field "notes" hydratedNotes (own_props notepadData)))).
Proof.
  unfold hydrateNotepad. apply settles_rbind; [apply settles_hydrateNotes|].
  intros a. apply settles_ret.
Qed.

(** A property read that yields an object, a string or a blob under a name
    that is not built in comes from an object. *)
Lemma get_attachment_from_object (note : value) (f : list (string * value)) :
  get note "attachment" = VObj f ->
  exists nf, note = VObj nf /\ field "attachment" nf = Some (VObj f).
Proof.
  destruct note as [| | | |s|b|l|nf]; cbn; try discriminate.
  destruct (field "attachment" nf) as [v|] eqn:E; cbn; [|discriminate].
  intros ->. eauto.
Qed.

Lemma element_blob (l : list value) : element l "blob" = VUndefined.
Proof. reflexivity. Qed.

Lemma blob_of_attachment (attachment v : value) :
  opt_prop attachment "blob" = v -> v <> VUndefined ->
  exists af, attachment = VObj af /\ field "blob" af = Some v.
Proof.
  destruct attachment as [| | | |s|b|l|af]; cbn; rewrite ?element_blob;
    try congruence.
  destruct (field "blob" af) as [w|] eqn:E; cbn; [|congruence].
  intros ->. eauto.
Qed.

Lemma data_url_decodes (b : Blob) :
  data_url_round_trips b ->
  exists b', decoded (VStr (readAsDataURL b)) = VBlob b'
             /\ blob_bytes b' = blob_bytes b.
Proof.
  intros (Hprefix & b' & Hfetch & Hbytes). exists b'. split; [|assumption].
  unfold decoded. rewrite Hprefix, Hfetch.
  destruct (readAsDataURL b); [discriminate Hprefix|reflexivity].
Qed.

(** One note through the codec. *)
Lemma note_round_trip (note : value) :
  in_memory_note note ->
  exists s h, serialized_note note = Ok s /\ hydrated_note s = Ok h
              /\ content_eq h note.
Proof.
  intros [Hnn Hblob]. unfold serialized_note.
  assert (Hprop : prop note "attachment" = Ok (get note "attachment"))
    by (destruct note; try discriminate Hnn; reflexivity).
  rewrite Hprop. cbn [rbind].
  destruct (opt_prop (get note "attachment") "blob") as [| | | |s|b| |] eqn:Hb;
    try (exists note, note; split; [reflexivity|]; split; [|apply content_eq_refl];
         unfold hydrated_note; rewrite Hprop; cbn [rbind]; rewrite Hb; reflexivity).
  - contradiction.
  - destruct (blob_of_attachment _ _ Hb ltac:(discriminate)) as (af & Hatt & Hfield).
    destruct (get_attachment_from_object _ _ Hatt) as (nf & -> & Hnf).
    destruct (data_url_decodes b Hblob) as (b' & Hdec & Hbytes).
    rewrite Hatt. cbn [own_props].
    eexists _, _. split; [reflexivity|]. split.
    + unfold hydrated_note. cbn [prop rbind].
      rewrite get_set_field_eq. cbn [opt_prop].
      rewrite !get_set_field_eq. cbn [typeof own_props].
      rewrite String.eqb_refl, Hdec, !set_field_set_field. reflexivity.
    + eapply content_eq_set_field; [exact Hnf|].
      eapply content_eq_set_field; [exact Hfield|].
      now apply content_eq_blob.
Qed.

Lemma notes_round_trip (l : list value) :
  Forall in_memory_note l ->
  exists sl hl,
    all_results (List.map serialized_note l) = Ok sl
    /\ all_results (List.map hydrated_note sl) = Ok hl
    /\ Forall2 content_eq hl l.
Proof.
  induction 1 as [|note l Hnote _ (sl & hl & Hs & Hh & Heq)].
  - exists [], []. repeat split. constructor.
  - destruct (note_round_trip note Hnote) as (s & h & Hs1 & Hh1 & Heq1).
    exists (s :: sl), (h :: hl). cbn. rewrite Hs1, Hs, Hh1, Hh.
    repeat split. now constructor.
Qed.

(** C2: for a notepad whose notes are as the running application holds
    them (attachment blobs are [Blob]s that round-trip through the platform,
    never strings), building the share payload and rebuilding the notepad
    from it returns a notepad with the five fields of the data model; id,
    title, created and lastUpdate are those of the original and the notes are
    equal to the original's but for the identity of the blobs, which hold the
    same bytes.  Nothing is written to the store on the way. *)
Theorem serialize_deserialize_round_trip
  (notepad : value) (notes : list value) (m : machine) :
  get notepad "notes" = VArr notes ->
  Forall in_memory_note notes ->
  exists payload m1 notepad' m2,
    cleanPayload notepad m = (Ok payload, m1)
    /\ hydrateNotepad payload m1 = (Ok notepad', m2)
    /\ store m2 = store m
    /\ keys notepad' = ["id"; "title"; "created"; "lastUpdate"; "notes"]
    /\ get notepad' "id" = get notepad "id"
    /\ get notepad' "title" = get notepad "title"
    /\ get notepad' "created" = get notepad "created"
    /\ get notepad' "lastUpdate" = get notepad "lastUpdate"
    /\ content_eq (get notepad' "notes") (get notepad "notes").
Proof.
  intros Hnotes Hmem.
  destruct (notes_round_trip notes Hmem) as (sl & hl & Hs & Hh & Heq).
  destruct (settles_cleanPayload notepad m) as (evs & Hrun & _).
  rewrite Hnotes in Hrun. cbn [serialized] in Hrun.
  rewrite Hs in Hrun. cbn [rbind] in Hrun.
  set (payload := VObj [("id", get notepad "id"); ("title", get notepad "title");
                        ("created", get notepad "created");
                        ("lastUpdate", get notepad "lastUpdate");
                        ("notes", VArr sl)]) in *.
  destruct (settles_hydrateNotepad payload (with_trace m (trace m ++ evs)))
    as (evs' & Hrun' & _).
  change (get payload "notes") with (VArr sl) in Hrun'. cbn [hydrated] in Hrun'.
  rewrite Hh in Hrun'. cbn [rbind] in Hrun'.
  eexists _, _, _, _. split; [exact Hrun|]. split; [exact Hrun'|].
  rewrite Hnotes. repeat split. now apply content_eq_arr.
Qed.

(** C7, as amended.  Hydration of notes none of which is null returns
    normally, adding decoding events only; where the attachment blob of a
    note is a string that is no data URL, or a data URL that [fetch] rejects,
    the blob decodes to null and takes the place of the string, while the
    attachment object and the note keep all their other properties.  In a
    restore a note with such a blob, when the string is not empty, is
    processed normally too, and its attachment is kept with a null blob. *)
Theorem broken_attachment_blob_becomes_null (notes : list value) (m : machine) :
  forallb (fun note => negb (nullish note)) notes = true ->
  (exists out evs,
    hydrateNotes (VArr notes) base64ToBlob m
      = (Ok (VArr out), with_trace m (trace m ++ evs))
    /\ forallb is_decoding_event evs = true
    /\ length out = length notes
    /\ forall (i : nat) (note : value) (af : list (string * value)) (s : string),
        notes !! i = Some note ->
        get note "attachment" = VObj af ->
        field "blob" af = Some (VStr s) ->
        String.prefix "data:" s = false \/ fetch_blob s = None ->
        fst (base64ToBlob (VStr s) m) = Ok VNull
        /\ out !! i = Some (VObj (set_field "attachment"
                                    (VObj (set_field "blob" VNull af))
                                    (own_props note))))
  /\ (forall (note : value) (af : list (string * value)) (s : string),
        get (VObj (own_props note)) "attachment" = VObj af ->
        field "blob" af = Some (VStr s) ->
        s <> "" ->
        String.prefix "data:" s = false \/ fetch_blob s = None ->
        exists out m',
          processNote note m = (Ok out, m')
          /\ store m' = store m
          /\ get out "attachment" = VObj (set_field "blob" VNull af)).
Proof.
  intros Hnn. split.
  2:{ intros note af s Hatt Hblob Hs Hbad.
      destruct (returns_processNote (clock m) (random m) note m eq_refl eq_refl)
        as (out & m' & Hrun & (Hstore & _) & id & _ & ->).
      eexists _, m'. split; [exact Hrun|]. split; [exact Hstore|].
      change (restored_attachment (get (VObj (own_props note)) "attachment")
              = VObj (set_field "blob" VNull af)).
      unfold restored_attachment. rewrite Hatt.
      assert (Hg : opt_prop (VObj af) "blob" = VStr s) by (cbn; now rewrite Hblob).
      rewrite Hg. cbn [truthy typeof].
      assert (Hne : negb (String.eqb s "") = true)
        by (destruct (String.eqb_spec s ""); [contradiction|reflexivity]).
      rewrite Hne. cbn [andb assign].
      assert (Hdec : decoded (VStr s) = VNull).
      { unfold decoded. destruct Hbad as [-> | ->];
          [now rewrite andb_false_r|].
        now destruct (truthy (VStr s) && String.prefix "data:" s)%bool. }
      now rewrite Hdec. }
  assert (Hall : exists out,
             all_results (List.map hydrated_note notes) = Ok out
             /\ Forall2 (fun note h => hydrated_note note = Ok h) notes out).
  { induction notes as [|note notes IH]; [exists []; split; [reflexivity|constructor]|].
    cbn in Hnn. apply andb_prop in Hnn as [Hn Hrest].
    destruct (IH Hrest) as (out & Hout & HF).
    assert (Hh : exists h, hydrated_note note = Ok h).
    { unfold hydrated_note. destruct note; try discriminate Hn; cbn [prop rbind];
        match goal with |- context [if ?c then _ else _] => destruct c end; eauto. }
    destruct Hh as [h Hh]. exists (h :: out). cbn. rewrite Hh, Hout.
    split; [reflexivity|now constructor]. }
  destruct Hall as (out & Hout & HF).
  destruct (settles_hydrateNotes (VArr notes) m) as (evs & Hrun & Hevs).
  cbn [hydrated] in Hrun. rewrite Hout in Hrun. cbn [rbind] in Hrun.
  exists out, evs. split; [exact Hrun|]. split; [exact Hevs|].
  split; [symmetry; eapply Forall2_length; eassumption|].
  intros i note af s Hi Hatt Hblob Hbad.
  assert (Hdec : decoded (VStr s) = VNull).
  { unfold decoded. destruct Hbad as [-> | ->];
      [now rewrite andb_false_r|].
    now destruct (truthy (VStr s) && String.prefix "data:" s)%bool. }
  split.
  - destruct (settles_base64ToBlob (VStr s) m) as (evs0 & Hrun0 & _).
    now rewrite Hrun0, Hdec.
  - destruct (Forall2_lookup_l _ _ _ _ _ HF Hi) as (h & Hh & Hnote).
    rewrite Hh. f_equal.
    unfold hydrated_note in Hnote.
    destruct (get_attachment_from_object _ _ Hatt) as (nf & -> & Hnf).
    assert (Hg : get (VObj af) "blob" = VStr s) by (cbn; now rewrite Hblob).
    assert (Ho : opt_prop (VObj af) "blob" = VStr s) by exact Hg.
    cbn [prop rbind] in Hnote. rewrite Hatt, Ho, Hg, Hdec in Hnote.
    now injection Hnote as <-.
Qed.

End Codec.

Lemma sample_blob_round_trips : data_url_round_trips sample_blob.
Proof.
  split; [reflexivity|]. exists sample_blob. split; reflexivity.
Defined.

Lemma serialize_deserialize_round_trip_witness :
  get notepad_with_picture "notes" = VArr [note_with_picture; sample_note "note-3"]
  /\ Forall in_memory_note [note_with_picture; sample_note "note-3"]
  /\ exists payload m1 notepad' m2,
      cleanPayload notepad_with_picture sample_machine = (Ok payload, m1)
      /\ hydrateNotepad payload m1 = (Ok notepad', m2)
      /\ store m2 = store sample_machine
      /\ keys notepad' = ["id"; "title"; "created"; "lastUpdate"; "notes"]
      /\ get notepad' "id" = get notepad_with_picture "id"
      /\ get notepad' "title" = get notepad_with_picture "title"
      /\ get notepad' "created" = get notepad_with_picture "created"
      /\ get notepad' "lastUpdate" = get notepad_with_picture "lastUpdate"
      /\ content_eq (get notepad' "notes") (get notepad_with_picture "notes").
Proof.
  assert (Hnotes : get notepad_with_picture "notes"
                   = VArr [note_with_picture; sample_note "note-3"]) by reflexivity.
  assert (Hmem : Forall in_memory_note [note_with_picture; sample_note "note-3"]).
  { constructor; [split; [reflexivity|exact sample_blob_round_trips]|].
    constructor; [split; [reflexivity|exact I]|constructor]. }
  split; [exact Hnotes|]. split; [exact Hmem|].
  exact (serialize_deserialize_round_trip notepad_with_picture _ sample_machine
           Hnotes Hmem).
Defined.

Lemma broken_attachment_blob_becomes_null_witness :
  forallb (fun note => negb (nullish note)) [note_with_broken_attachment] = true
  /\ fst (hydrateNotes (VArr [note_with_broken_attachment]) base64ToBlob sample_machine)
     = Ok (VArr [VObj (set_field "attachment"
                         (VObj (set_field "blob" VNull
                                  [("name", VStr "receipt.png"); ("type", VStr "image");
                                   ("mimeType", VStr "image/png"); ("size", VNum 5);
                                   ("blob", VStr "not a data url")]))
                         (own_props note_with_broken_attachment))]).
Proof.
  split; [reflexivity|].
  destruct (broken_attachment_blob_becomes_null [note_with_broken_attachment]
              sample_machine eq_refl) as ((out & evs & Hrun & _ & Hlen & H) & _).
  destruct (H 0%nat note_with_broken_attachment _ "not a data url"
              eq_refl eq_refl eq_refl (or_introl eq_refl)) as [_ H0].
  rewrite Hrun. cbn [fst].
  destruct out as [|o [|o' out]]; try discriminate Hlen.
  cbn in H0. now injection H0 as ->.
Defined.

(** C7 as stated fails: after hydration the note whose blob was no data URL
    still has its attachment, an object with the name, type, mimeType and
    size it came with and a null blob: it is not a note without attachment. *)
Lemma broken_attachment_is_not_dropped :
  fst (hydrateNotes (VArr [note_with_broken_attachment]) base64ToBlob sample_machine)
  = Ok (VArr [VObj [("id", VStr "note-1"); ("title", VStr "Receipt");
                    ("content", VStr ""); ("accentColor", VStr "");
                    ("attachment",
                      VObj [("name", VStr "receipt.png"); ("type", VStr "image");
                            ("mimeType", VStr "image/png"); ("size", VNum 5);
                            ("blob", VNull)])]])
  /\ VObj [("name", VStr "receipt.png"); ("type", VStr "image");
           ("mimeType", VStr "image/png"); ("size", VNum 5); ("blob", VNull)]
     <> VNull.
Proof. split; [reflexivity|discriminate]. Qed.

(** ** The store *)

Lemma field_list_to_map (recs : list (string * value)) (k : string) :
  field k recs = (list_to_map recs : gmap string value) !! k.
Proof.
  induction recs as [|[k0 v] r IH]; cbn; [now rewrite lookup_empty|].
  destruct (String.eqb_spec k0 k) as [->|Hne].
  - now rewrite lookup_insert_eq.
  - now rewrite lookup_insert_ne.
Qed.

Lemma field_records_in_key_order (s : gmap string value) (k : string) :
  field k (records_in_key_order s) = s !! k.
Proof.
  rewrite field_list_to_map. unfold records_in_key_order.
  rewrite (list_to_map_proper _ (map_to_list s)).
  - now rewrite list_to_map_to_list.
  - rewrite merge_sort_Permutation. apply NoDup_fst_map_to_list.
  - apply merge_sort_Permutation.
Qed.

Lemma records_in_key_order_elem (s : gmap string value) (k : string) (v : value) :
  In (k, v) (records_in_key_order s) -> s !! k = Some v.
Proof.
  intros Hin. apply elem_of_map_to_list.
  rewrite <- (merge_sort_Permutation
                (fun a b => Is_true (String.leb (fst a) (fst b))) (map_to_list s)).
  now apply list_elem_of_In.
Qed.

Lemma NoDup_records_in_key_order (s : gmap string value) :
  NoDup (List.map fst (records_in_key_order s)).
Proof.
  unfold records_in_key_order.
  change (List.map fst) with (@fmap list _ (string * value) string fst).
  rewrite merge_sort_Permutation. apply NoDup_fst_map_to_list.
Qed.

(** Indexing records that sit under their own ids writes each under its key. *)
Lemma index_by_id_own_keys (recs : list (string * value)) :
  (forall k v, In (k, v) recs -> get v "id" = VStr k) ->
  forall acc,
    index_by_id (List.map snd recs) acc
    = Ok (fold_left (fun a kv => set_field (fst kv) (snd kv) a) recs acc).
Proof.
  induction recs as [|[k v] r IH]; intros Hwf acc; [reflexivity|].
  cbn [List.map snd index_by_id fold_left fst].
  assert (Hid : get v "id" = VStr k) by (apply Hwf; now left).
  assert (Hprop : prop v "id" = Ok (VStr k))
    by (destruct v; try discriminate Hid; cbn [prop]; now rewrite Hid).
  rewrite Hprop. cbn [rbind to_string]. apply IH.
  intros k' v' Hin. apply Hwf. now right.
Qed.

Lemma field_fold_set_field (recs : list (string * value)) (k : string) :
  NoDup (List.map fst recs) ->
  forall acc,
    field k (fold_left (fun a kv => set_field (fst kv) (snd kv) a) recs acc)
    = match field k recs with
      | Some v => Some v
      | None => field k acc
      end.
Proof.
  induction recs as [|[k0 v] r IH]; intros Hnd acc; cbn [fold_left field fst snd];
    [reflexivity|].
  apply NoDup_cons in Hnd as [Hk0 Hnd]. rewrite (IH Hnd).
  destruct (String.eqb_spec k0 k) as [->|Hne].
  - assert (Hr : field k r = None).
    { destruct (field k r) as [w|] eqn:E; [|reflexivity]. exfalso. apply Hk0.
      clear -E. induction r as [|[k1 v1] r IH]; [discriminate|]. cbn in *.
      destruct (String.eqb_spec k1 k) as [->|_]; [left|right; auto]. }
    rewrite Hr. apply field_set_field_eq.
  - destruct (field k r); [reflexivity|]. now apply field_set_field_ne.
Qed.

(** On a store whose records sit under their own ids, [getAll] resolves to
    the store itself, read as an object. *)
Lemma getAll_on_wf_store (m : machine) :
  store_wf (store m) ->
  exists map,
    getAll m = (Ok (VObj map), with_trace m (trace m ++ [DbGetAll]))
    /\ forall k, field k map = store m !! k.
Proof.
  intros Hwf. eexists. split.
  - unfold getAll, bind, get_store, lift. cbn [emit store].
    rewrite index_by_id_own_keys; [reflexivity|].
    intros k v Hin. apply Hwf. now apply records_in_key_order_elem.
  - intros k. rewrite field_fold_set_field by apply NoDup_records_in_key_order.
    rewrite field_records_in_key_order. now destruct (store m !! k).
Qed.

(** ** Generated ids: what tells them apart *)

Lemma string_app_cons (c : ascii) (a b : string) :
  String c a +:+ b = String c (a +:+ b).
Proof. reflexivity. Qed.

Lemma string_app_nil_l (b : string) : "" +:+ b = b.
Proof. reflexivity. Qed.

Lemma string_app_assoc (a b c : string) : (a +:+ b) +:+ c = a +:+ (b +:+ c).
Proof.
  induction a as [|x a IH]; [reflexivity|].
  rewrite !string_app_cons. now f_equal.
Qed.

Lemma string_app_nil_r (a : string) : a +:+ "" = a.
Proof.
  induction a as [|x a IH]; [reflexivity|]. rewrite string_app_cons. now f_equal.
Qed.

Lemma string_app_inv_head (p a b : string) : p +:+ a = p +:+ b -> a = b.
Proof.
  induction p as [|x p IH]; [auto|]. rewrite !string_app_cons. intros [= H]. auto.
Qed.

Lemma dash_free_app (a b : string) :
  dash_free (a +:+ b) = dash_free a && dash_free b.
Proof.
  induction a as [|x a IH]; [reflexivity|].
  rewrite string_app_cons. cbn [dash_free]. now rewrite IH, andb_assoc.
Qed.

Lemma pretty_N_char_not_dash (x : N) : Ascii.eqb (pretty_N_char x) "-" = false.
Proof. unfold pretty_N_char. repeat case_match; reflexivity. Qed.

(** The digits [pretty_N_go] puts in front of its accumulator. *)
Lemma pretty_N_go_digits (x : N) :
  forall s, exists d,
    pretty_N_go x s = d +:+ s /\ dash_free d = true /\ ((0 < x)%N -> d <> "").
Proof.
  induction (N.lt_wf_0 x) as [x _ IH]; intros s.
  assert (x = 0 \/ 0 < x)%N as [->|Hpos] by lia.
  - exists "". rewrite pretty_N_go_0. split; [reflexivity|]. split; [reflexivity|lia].
  - rewrite pretty_N_go_step by assumption.
    destruct (IH (x `div` 10)%N (N.div_lt x 10 Hpos eq_refl)
                (String (pretty_N_char (x `mod` 10)) s)) as (d & Hd & Hfree & _).
    exists (d +:+ String (pretty_N_char (x `mod` 10)) "").
    split; [|split].
    + rewrite Hd, string_app_assoc. reflexivity.
    + rewrite dash_free_app, Hfree. cbn [dash_free andb].
      now rewrite pretty_N_char_not_dash.
    + intros _. destruct d; discriminate.
Qed.

(** A printed integer is a first character followed by digits. *)
Lemma pretty_Z_shape (z : Z) :
  exists c t, pretty z = String c t /\ dash_free t = true.
Proof.
  assert (Hpos : forall p, exists d,
            pretty (N.pos p) = d /\ dash_free d = true /\ d <> "").
  { intros p. destruct (pretty_N_go_digits (N.pos p) "") as (d & Hd & Hfree & Hne).
    exists d. unfold pretty, pretty_N. rewrite decide_False by discriminate.
    rewrite Hd, string_app_nil_r. split; [reflexivity|]. split; [assumption|].
    apply Hne. lia. }
  destruct z as [|p|p]; unfold pretty, pretty_Z.
  - exists "0"%char, "". split; reflexivity.
  - destruct (Hpos p) as (d & Hd & Hfree & Hne). unfold pretty, pretty_positive.
    rewrite Hd. destruct d as [|c t]; [congruence|]. exists c, t.
    split; [reflexivity|]. cbn in Hfree. now apply andb_prop in Hfree.
  - destruct (Hpos p) as (d & Hd & Hfree & _). unfold pretty, pretty_positive.
    rewrite Hd. exists "-"%char, d. split; [reflexivity|assumption].
Qed.

Lemma split_at_first_dash (t1 : string) :
  forall t2 r1 r2,
    dash_free t1 = true -> dash_free t2 = true ->
    t1 +:+ String "-" r1 = t2 +:+ String "-" r2 ->
    t1 = t2 /\ r1 = r2.
Proof.
  induction t1 as [|c t1 IH]; intros [|c2 t2] r1 r2 H1 H2;
    rewrite ?string_app_cons, ?string_app_nil_l; cbn [dash_free] in *.
  - intros [= ->]. now split.
  - intros [= <- _]. discriminate.
  - intros [= -> _]. discriminate.
  - intros [= <- H]. apply andb_prop in H1 as [_ H1]. apply andb_prop in H2 as [_ H2].
    destruct (IH _ _ _ H1 H2 H) as [-> ->]. now split.
Qed.

(** Two ids built the way [generateID] builds them are equal only when the
    clock readings and the random suffixes are. *)
Lemma generated_ids_equal (prefix : string) (t1 t2 : Z) (r1 r2 : string) :
  prefix +:+ "-" +:+ pretty t1 +:+ "-" +:+ r1
  = prefix +:+ "-" +:+ pretty t2 +:+ "-" +:+ r2 ->
  t1 = t2 /\ r1 = r2.
Proof.
  intros Heq. apply string_app_inv_head in Heq.
  rewrite !string_app_cons, !string_app_nil_l in Heq. injection Heq as Heq.
  destruct (pretty_Z_shape t1) as (c1 & d1 & E1 & F1).
  destruct (pretty_Z_shape t2) as (c2 & d2 & E2 & F2).
  rewrite E1, E2 in Heq. rewrite !string_app_cons in Heq. injection Heq as Hc Heq.
  apply split_at_first_dash in Heq as [Ht Hr]; [|assumption..].
  split; [|assumption]. apply (inj pretty). rewrite E1, E2. congruence.
Qed.

(** ** Single-notepad import *)

Section SingleImport.
Context {platform : Platform}.

Lemma put_all_single (k : string) (v : value) (s : gmap string value) :
  put_all [(k, v)] s = <[k := v]> s.
Proof. reflexivity. Qed.

(** What [saveToDatabase] leaves in the store. *)
Lemma saveToDatabase_store (target : value) (k : string) (m : machine) :
  get target "id" = VStr k ->
  fst (saveToDatabase target m) = Ok tt
  /\ store (snd (saveToDatabase target m)) = <[k := target]> (store m).
Proof.
  intros Hid. unfold saveToDatabase, bulkPut, bind, get_store, set_store.
  rewrite Hid. cbn [to_string own_props emit fst snd store fold_left].
  split; reflexivity.
Qed.

(** An import whose notes hydrate and whose id is taken ends with the
    collision dialog open and the store as it was. *)
Lemma import_opens_collision_dialog
  (notepadData : value) (i : string) (old hydratedNotes : value) (m : machine) :
  store_wf (store m) ->
  store m !! i = Some old ->
  get notepadData "id" = VStr i ->
  truthy (get notepadData "notes") = true ->
  fst (hydrateNotes (get notepadData "notes") base64ToBlob m) = Ok hydratedNotes ->
  let notepad := VObj (set_field "notes" hydratedNotes (own_props notepadData)) in
  exists m1,
    importSingleNotepad (Ok notepadData) m = (Ok (Some (collisionDialog notepad)), m1)
    /\ store m1 = store m /\ clock m1 = clock m /\ ticks m1 = ticks m
    /\ random m1 = random m /\ draws m1 = draws m.
Proof.
  intros Hwf Hold Hid Hnotes Hhyd notepad.
  assert (Hobj : exists f, notepadData = VObj f).
  { destruct notepadData; try discriminate Hid. eauto. }
  destruct Hobj as [f ->].
  assert (Hh : hydrated (get (VObj f) "notes") = Ok hydratedNotes).
  { destruct (settles_hydrateNotes (get (VObj f) "notes") m) as (evs & Hrun & _).
    now rewrite Hrun in Hhyd. }
  unfold importSingleNotepad.
  assert (Hbackup : isBackup (VObj f) = Ok false).
  { unfold isBackup. rewrite Hnotes. reflexivity. }
  unfold bind at 1. cbn [emit]. unfold try_catch, bind at 1. cbn [lift].
  unfold bind at 1. cbn [lift]. rewrite Hbackup. cbn [truthy negb orb].
  rewrite Hnotes. cbn [negb]. unfold bind at 1.
  match goal with |- context [hydrateNotepad ?d ?m0] =>
    destruct (settles_hydrateNotepad d m0) as (evs & Hrun & _) end.
  rewrite Hh in Hrun. cbn [rbind] in Hrun. rewrite Hrun. fold notepad.
  unfold bind at 1.
  match goal with |- context [getAll ?m0] =>
    destruct (getAll_on_wf_store m0 Hwf) as (map & Hget & Hmap) end.
  rewrite Hget.
  assert (Hnid : get notepad "id" = VStr i).
  { unfold notepad. cbn [own_props]. rewrite get_set_field_ne by discriminate.
    exact Hid. }
  rewrite Hnid. unfold truthy_at. cbn [to_string own_props]. rewrite Hmap.
  cbn [store with_trace]. rewrite Hold.
  assert (Htruthy : truthy old = true).
  { specialize (Hwf i old Hold). destruct old; try discriminate Hwf. reflexivity. }
  rewrite Htruthy. cbn.
  eexists. split; [reflexivity|]. cbn. repeat split.
Qed.

(** C8, as amended.  On a library whose records sit under their own ids,
    an import whose id is taken opens a dialog with the three buttons
    "Keep both", "Replace" and "Cancel", the store untouched.  Pressing
    "Keep both" writes a copy of the imported notepad, with the same notes
    and every other property but the id, under an id generated from the
    clock and the random source; every other entry of the store stays as
    it was.  So the existing entry stays, next to the new one, whenever the
    generated id is not the imported one, which the code does not check:
    it is so when the imported id was generated at another reading of the
    clock or with another random suffix, and when the two ids are equal the
    copy takes the place of the existing entry.  "Replace" puts the
    imported notepad in the place of the existing entry; "Cancel" leaves
    the store as it was.  One button is pressed, and only its action
    runs. *)
Theorem import_collision_resolutions
  (notepadData : value) (i : string) (old hydratedNotes : value) (m : machine) :
  plain_library (store m) ->
  store_wf (store m) ->
  store m !! i = Some old ->
  get notepadData "id" = VStr i ->
  truthy (get notepadData "notes") = true ->
  fst (hydrateNotes (get notepadData "notes") base64ToBlob m) = Ok hydratedNotes ->
  let notepad := VObj (set_field "notes" hydratedNotes (own_props notepadData)) in
  let now := clock m (ticks m) in
  let suffix := random m (draws m) in
  let fresh := "notepad" +:+ "-" +:+ pretty now +:+ "-" +:+ suffix in
  let copy := VObj (set_field "id" (VStr fresh) (own_props notepad)) in
  exists m1,
    importSingleNotepad (Ok notepadData) m = (Ok (Some (collisionDialog notepad)), m1)
    /\ store m1 = store m
    /\ List.map fst (dialog_actions (collisionDialog notepad))
       = ["Keep both"; "Replace"; "Cancel"]
    /\ (let kept := store (snd (press (collisionDialog notepad) "Keep both" m1)) in
        kept = <[fresh := copy]> (store m)
        /\ kept !! fresh = Some copy
        /\ get copy "id" = VStr fresh
        /\ get copy "notes" = hydratedNotes
        /\ (forall k, k <> "id" -> get copy k = get notepad k)
        /\ (forall k, k <> fresh -> kept !! k = store m !! k)
        /\ (fresh <> i -> kept !! i = Some old)
        /\ (fresh = i -> kept !! i = Some copy)
        /\ (forall t r,
              i = "notepad" +:+ "-" +:+ pretty t +:+ "-" +:+ r ->
              t <> now \/ r <> suffix ->
              fresh <> i))
    /\ store (snd (press (collisionDialog notepad) "Replace" m1))
       = <[i := notepad]> (store m)
    /\ store (snd (press (collisionDialog notepad) "Cancel" m1)) = store m.
Proof.
  intros _ Hwf Hold Hid Hnotes Hhyd notepad now suffix fresh copy.
  destruct (import_opens_collision_dialog notepadData i old hydratedNotes m
              Hwf Hold Hid Hnotes Hhyd)
    as (m1 & Hrun & Hstore & Hclock & Hticks & Hrandom & Hdraws).
  fold notepad in Hrun. exists m1.
  split; [exact Hrun|]. split; [exact Hstore|]. split; [reflexivity|].
  assert (Hnid : get notepad "id" = VStr i).
  { unfold notepad. destruct notepadData; try discriminate Hid. cbn [own_props].
    rewrite get_set_field_ne by discriminate. exact Hid. }
  assert (Hcid : get copy "id" = VStr fresh) by apply get_set_field_eq.
  assert (Hkeep : store (snd (press (collisionDialog notepad) "Keep both" m1))
                  = <[fresh := copy]> (store m)).
  { unfold press. cbn [collisionDialog dialog_actions action_labelled String.eqb
                         Ascii.eqb Bool.eqb].
    unfold generateID, bind at 1. unfold bind at 1. cbn [Date_now].
    unfold bind at 1. cbn [Math_random_base36 ret clock ticks random draws].
    rewrite Hclock, Hticks, Hrandom, Hdraws. fold now suffix fresh. fold copy.
    match goal with |- context [saveToDatabase copy ?m0] =>
      destruct (saveToDatabase_store copy fresh m0 Hcid) as [_ Hs] end.
    rewrite Hs. cbn [store]. now rewrite Hstore. }
  split.
  { cbv zeta. rewrite Hkeep. split; [reflexivity|].
    split; [apply lookup_insert_eq|]. split; [exact Hcid|]. split.
    { unfold copy, notepad. cbn [own_props].
      rewrite get_set_field_ne by discriminate. apply get_set_field_eq. }
    split.
    { intros k Hk. unfold copy. now apply get_set_field_ne. }
    split.
    { intros k Hk. now apply lookup_insert_ne. }
    split.
    { intros Hfresh. rewrite lookup_insert_ne by exact Hfresh. exact Hold. }
    split.
    { intros <-. apply lookup_insert_eq. }
    intros t r -> Hdiff Heq. unfold fresh in Heq.
    apply generated_ids_equal in Heq as [Ht Hr].
    destruct Hdiff as [Hd|Hd]; congruence. }
  split.
  - unfold press. cbn [collisionDialog dialog_actions action_labelled String.eqb
                         Ascii.eqb Bool.eqb].
    destruct (saveToDatabase_store notepad i m1 Hnid) as [_ Hs].
    rewrite Hs. now rewrite Hstore.
  - unfold press. cbn [collisionDialog dialog_actions action_labelled String.eqb
                         Ascii.eqb Bool.eqb emit snd store]. exact Hstore.
Qed.

End SingleImport.

Lemma sample_store_wf : store_wf (store sample_machine).
Proof.
  intros k v H. cbn [store sample_machine] in H.
  apply lookup_singleton_Some in H as [<- <-]. reflexivity.
Defined.

Lemma import_collision_resolutions_witness :
  let notepad :=
    VObj (set_field "notes" (VArr [sample_note "note-9"]) (own_props colliding_file)) in
  let fresh := "notepad-1700000000000-k7f3x9q2a" in
  let copy := VObj (set_field "id" (VStr fresh) (own_props notepad)) in
  plain_library (store sample_machine)
  /\ store_wf (store sample_machine)
  /\ store sample_machine !! "notepad-1" = Some (sample_doc 10 [sample_note "a"])
  /\ get colliding_file "id" = VStr "notepad-1"
  /\ truthy (get colliding_file "notes") = true
  /\ fst (hydrateNotes (get colliding_file "notes") base64ToBlob sample_machine)
     = Ok (VArr [sample_note "note-9"])
  /\ exists m1,
      importSingleNotepad (Ok colliding_file) sample_machine
        = (Ok (Some (collisionDialog notepad)), m1)
      /\ store m1 = store sample_machine
      /\ store (snd (press (collisionDialog notepad) "Keep both" m1))
         = <[fresh := copy]> (store sample_machine)
      /\ store (snd (press (collisionDialog notepad) "Keep both" m1)) !! "notepad-1"
         = Some (sample_doc 10 [sample_note "a"])
      /\ store (snd (press (collisionDialog notepad) "Replace" m1))
         = <["notepad-1" := notepad]> (store sample_machine)
      /\ store (snd (press (collisionDialog notepad) "Cancel" m1))
         = store sample_machine.
Proof.
  intros notepad fresh copy.
  assert (Hplain : plain_library (store sample_machine)) by reflexivity.
  assert (Hold : store sample_machine !! "notepad-1"
                 = Some (sample_doc 10 [sample_note "a"]))
    by apply lookup_singleton_eq.
  assert (Hid : get colliding_file "id" = VStr "notepad-1") by reflexivity.
  assert (Hnotes : truthy (get colliding_file "notes") = true) by reflexivity.
  assert (Hhyd : fst (hydrateNotes (get colliding_file "notes") base64ToBlob
                        sample_machine) = Ok (VArr [sample_note "note-9"]))
    by reflexivity.
  split; [exact Hplain|]. split; [exact sample_store_wf|]. split; [exact Hold|].
  split; [exact Hid|]. split; [exact Hnotes|]. split; [exact Hhyd|].
  destruct (import_collision_resolutions colliding_file "notepad-1" _ _ sample_machine
              Hplain sample_store_wf Hold Hid Hnotes Hhyd)
    as (m1 & Hrun & Hstore & _ & Hkeep & Hreplace & Hcancel).
  cbv zeta in Hkeep.
  destruct Hkeep as (Hkept & _ & _ & _ & _ & _ & Hboth & _).
  exists m1. split; [exact Hrun|]. split; [exact Hstore|].
  split; [exact Hkept|]. split; [apply Hboth; discriminate|].
  split; [exact Hreplace|exact Hcancel].
Defined.

(** C8 as stated fails: the id "Keep both" generates is not compared with
    the imported one.  On a machine whose clock reads 1700000000000 and
    whose random source gives "k7f3x9q2a", a file with the id
    "notepad-1700000000000-k7f3x9q2a" meets the notepad stored under that
    id; "Keep both" then generates the same id, and the store is left with
    one entry, the copy: the entry that was there is gone. *)
Lemma keep_both_overwrites_when_the_generated_id_is_taken :
  let i := "notepad-1700000000000-k7f3x9q2a" in
  let notepad :=
    VObj (set_field "notes" (VArr [sample_note "n"])
            (own_props file_with_repeated_id)) in
  let copy := VObj (set_field "id" (VStr i) (own_props notepad)) in
  let kept m1 := store (snd (press (collisionDialog notepad) "Keep both" m1)) in
  store_wf (store machine_repeating_an_id)
  /\ store machine_repeating_an_id !! i = Some notepad_of_mine
  /\ get file_with_repeated_id "id" = VStr i
  /\ exists m1,
      importSingleNotepad (Ok file_with_repeated_id) machine_repeating_an_id
      = (Ok (Some (collisionDialog notepad)), m1)
      /\ kept m1 = {[ i := copy ]}
      /\ kept m1 !! i <> Some notepad_of_mine.
Proof.
  intros i notepad copy kept. split.
  { intros k v H. cbn [store machine_repeating_an_id] in H.
    apply lookup_singleton_Some in H as [<- <-]. reflexivity. }
  split; [reflexivity|]. split; [reflexivity|].
  eexists. split; [reflexivity|]. split; [reflexivity|].
  vm_compute. discriminate.
Qed.

(** A name every object inherits counts as taken: a file whose id is
    "constructor" is answered with the dialog about an existing version
    though the library holds no notepad of that id, and the store is left
    as it was. *)
Lemma import_of_an_inherited_name_meets_the_dialog :
  let file :=
    VObj [("id", VStr "constructor"); ("title", VStr "Plans");
          ("notes", VArr [sample_note "n"])] in
  store sample_machine !! "constructor" = None
  /\ exists m1,
      importSingleNotepad (Ok file) sample_machine
      = (Ok (Some (collisionDialog file)), m1)
      /\ store m1 = store sample_machine.
Proof.
  intros file. split; [reflexivity|]. eexists. split; reflexivity.
Qed.

(** ** What the import may emit *)

Section EmitsOnly.
Variable q : event -> bool.

Lemma emits_only_ret {A} (a : A) : emits_only q (ret a).
Proof. intros m. exists []. cbn. now rewrite app_nil_r. Qed.

Lemma emits_only_throw {A} (e : exn) : emits_only q (@throw A e).
Proof. intros m. exists []. cbn. now rewrite app_nil_r. Qed.

Lemma emits_only_lift {A} (r : result A) : emits_only q (lift r).
Proof. intros m. exists []. cbn. now rewrite app_nil_r. Qed.

Lemma emits_only_emit (e : event) : q e = true -> emits_only q (emit e).
Proof. intros He m. exists [e]. cbn. now rewrite He. Qed.

Lemma emits_only_get_store : emits_only q get_store.
Proof. intros m. exists []. cbn. now rewrite app_nil_r. Qed.

Lemma emits_only_set_store (s : gmap string value) : emits_only q (set_store s).
Proof. intros m. exists []. cbn. now rewrite app_nil_r. Qed.

Lemma emits_only_Date_now : emits_only q Date_now.
Proof. intros m. exists []. cbn. now rewrite app_nil_r. Qed.

Lemma emits_only_Math_random : emits_only q Math_random_base36.
Proof. intros m. exists []. cbn. now rewrite app_nil_r. Qed.

Lemma emits_only_bind {A B} (c : M A) (k : A -> M B) :
  emits_only q c -> (forall a, emits_only q (k a)) -> emits_only q (bind c k).
Proof.
  intros Hc Hk m. destruct (Hc m) as (evs & Ht & He). unfold bind.
  destruct (c m) as [[a|e] m1]; cbn [snd] in *.
  - destruct (Hk a m1) as (evs' & Ht' & He'). exists (evs ++ evs'). split.
    + now rewrite Ht', Ht, <- app_assoc.
    + rewrite forallb_app. now rewrite He, He'.
  - exists evs. auto.
Qed.

Lemma emits_only_try_catch {A} (c : M A) (h : exn -> M A) :
  emits_only q c -> (forall e, emits_only q (h e)) -> emits_only q (try_catch c h).
Proof.
  intros Hc Hh m. destruct (Hc m) as (evs & Ht & He). unfold try_catch.
  destruct (c m) as [[a|e] m1]; cbn [snd] in *.
  - exists evs. auto.
  - destruct (Hh e m1) as (evs' & Ht' & He'). exists (evs ++ evs'). split.
    + now rewrite Ht', Ht, <- app_assoc.
    + rewrite forallb_app. now rewrite He, He'.
Qed.

Lemma emits_only_promise_all {X A} (f : X -> M A) (l : list X) :
  (forall x, emits_only q (f x)) -> emits_only q (promise_all_map f l).
Proof.
  intros Hf. induction l as [|x r IH]; intros m.
  - exists []. cbn. now rewrite app_nil_r.
  - cbn [promise_all_map]. destruct (Hf x m) as (evs & Ht & He).
    destruct (f x m) as [rx m1]. cbn [snd] in *.
    destruct (IH m1) as (evs' & Ht' & He').
    destruct (promise_all_map f r m1) as [rr m2]. cbn [snd] in *.
    exists (evs ++ evs'). split.
    + now rewrite Ht', Ht, <- app_assoc.
    + rewrite forallb_app. now rewrite He, He'.
Qed.

Lemma emits_only_bind_lift_ok {A B} (a : A) (k : A -> M B) :
  emits_only q (k a) -> emits_only q (bind (lift (Ok a)) k).
Proof. intros H m. exact (H m). Qed.

Lemma emits_only_bind_lift_throw {A B} (e : exn) (k : A -> M B) :
  emits_only q (bind (lift (Throw e)) k).
Proof. intros m. exists []. cbn. now rewrite app_nil_r. Qed.

End EmitsOnly.

Create HintDb emits.

#[local] Hint Resolve emits_only_ret emits_only_throw emits_only_lift
  emits_only_get_store emits_only_set_store emits_only_Date_now
  emits_only_Math_random emits_only_bind emits_only_try_catch
  emits_only_promise_all : emits.

#[local] Hint Extern 1 (emits_only _ (emit _)) =>
  apply emits_only_emit; reflexivity : emits.

(** [some] on a list, in terms of its first hit. *)
Lemma some_true_iff (p : value -> result bool) (l : list value) :
  some p l = Ok true <->
  exists before v after,
    l = before ++ v :: after /\ p v = Ok true
    /\ Forall (fun w => p w = Ok false) before.
Proof.
  induction l as [|x r IH]; cbn [some].
  - split; [discriminate|]. intros (before & v & after & H & _).
    destruct before; discriminate H.
  - destruct (p x) as [[|]|e] eqn:Hx; cbn [rbind].
    + split; [|reflexivity]. intros _. exists [], x, r. repeat split; auto.
    + rewrite IH. split.
      * intros (before & v & after & -> & Hv & Hb).
        exists (x :: before), v, after. repeat split; auto.
      * intros (before & v & after & Heq & Hv & Hb).
        destruct before as [|y before]; cbn in Heq; injection Heq as -> ->.
        -- congruence.
        -- apply Forall_cons in Hb as [_ Hb]. eauto 6.
    + split; [discriminate|]. intros (before & v & after & Heq & Hv & Hb).
      destruct before as [|y before]; cbn in Heq; injection Heq as -> ->.
      * congruence.
      * apply Forall_cons in Hb as [Hy _]. congruence.
Qed.

Lemma notes_truthy_iff (v : value) (b : bool) :
  (let? notes := prop v "notes" in Ok (truthy notes)) = Ok b <->
  nullish v = false /\ truthy (get v "notes") = b.
Proof.
  destruct v; cbn; split;
    try discriminate; try (intros [H _]; discriminate H);
    try (intros [= <-]; auto); try (intros [_ <-]; reflexivity).
Qed.

Section ImportRejection.
Context {platform : Platform}.

Lemma emits_only_base64ToBlob (q : event -> bool) (v : value) :
  (forall s, q (Fetch s) = true) -> (forall s, q (ConsoleError s) = true) ->
  emits_only q (base64ToBlob v).
Proof.
  intros Hf Hc. unfold base64ToBlob.
  destruct (negb (truthy v) || negb (String.eqb (typeof v) "string"))%bool;
    [auto with emits|].
  destruct v; auto with emits.
  destruct (negb (String.prefix "data:" s)); [auto with emits|].
  apply emits_only_bind; [apply emits_only_emit, Hf|]. intros _.
  destruct (fetch_blob s); [auto with emits|].
  apply emits_only_bind; [apply emits_only_emit, Hc|auto with emits].
Qed.

Lemma emits_only_hydrateNotepad (q : event -> bool) (notepadData : value) :
  (forall s, q (Fetch s) = true) -> (forall s, q (ConsoleError s) = true) ->
  emits_only q (hydrateNotepad notepadData).
Proof.
  intros Hf Hc. unfold hydrateNotepad, hydrateNotes.
  apply emits_only_bind; [|auto with emits].
  destruct (get notepadData "notes"); auto with emits.
  apply emits_only_bind; [|auto with emits].
  apply emits_only_promise_all. intros note.
  apply emits_only_bind; [auto with emits|]. intros attachment.
  destruct (String.eqb _ _); [|auto with emits].
  apply emits_only_bind; [now apply emits_only_base64ToBlob|auto with emits].
Qed.

Lemma emits_only_saveToDatabase (q : event -> bool) (target : value) :
  (forall d, q (DbBulkPut d) = true) -> (forall t, q (OnOpenNotepad t) = true) ->
  q (SetIsProcessing false) = true -> q OnClose = true ->
  emits_only q (saveToDatabase target).
Proof.
  intros Hb Ho Hs Hc. unfold saveToDatabase, bulkPut.
  repeat (apply emits_only_bind; [|intros ?]);
    auto using emits_only_emit with emits.
Qed.

(** Past the test on [isBackup], nothing the import does is the alert about
    backup files. *)
Lemma import_rest_never_alerts_backup (notepadData : value) :
  emits_only (fun e => negb (is_backup_alert e))
    (if negb (truthy notepadData) || negb (truthy (get notepadData "notes")) then
       emit (SetIsProcessing false) ;;
       throw (Error "Invalid structure")
     else
       let* notepad := hydrateNotepad notepadData in
       let* currentLibrary := getAll in
       let isDuplicate := truthy_at currentLibrary (to_string (get notepad "id")) in
       if isDuplicate then
         emit (SetIsProcessing false) ;;
         openDialog (collisionDialog notepad) ;;
         ret (Some (collisionDialog notepad))
       else
         saveToDatabase notepad ;;
         ret None).
Proof.
  destruct (negb (truthy notepadData) || negb (truthy (get notepadData "notes")))%bool.
  - auto with emits.
  - apply emits_only_bind; [apply emits_only_hydrateNotepad; reflexivity|].
    intros notepad. apply emits_only_bind.
    + unfold getAll. auto 10 with emits.
    + intros currentLibrary. cbn zeta. destruct (truthy_at _ _).
      * unfold openDialog. auto 10 with emits.
      * apply emits_only_bind; [apply emits_only_saveToDatabase; reflexivity|].
        auto with emits.
Qed.

(** C4, as amended.  The import classifies a payload as a backup exactly
    when it is a truthy object whose top-level [notes] is absent or falsy and
    one of its values has a truthy [notes], no value before that one being
    null (reading [notes] off null raises, which ends the import as an
    invalid file).  A payload so classified is rejected with the alert about
    backup files and nothing else happens: no store operation, no dialog.
    In every other case that alert is not raised. *)
Theorem import_rejects_backup_shape (notepadData : value) (m : machine) :
  (isBackup notepadData = Ok true <->
   truthy notepadData = true
   /\ truthy (get notepadData "notes") = false
   /\ typeof notepadData = "object"
   /\ exists before v after,
       values notepadData = before ++ v :: after
       /\ nullish v = false /\ truthy (get v "notes") = true
       /\ Forall (fun w => nullish w = false /\ truthy (get w "notes") = false) before)
  /\ (isBackup notepadData = Ok true ->
      importSingleNotepad (Ok notepadData) m
      = (Ok None,
         with_trace m (trace m ++ [SetIsProcessing true;
                                   Alert backup_file_message;
                                   SetIsProcessing false])))
  /\ (isBackup notepadData <> Ok true ->
      exists evs,
        trace (snd (importSingleNotepad (Ok notepadData) m)) = trace m ++ evs
        /\ ~ In (Alert backup_file_message) evs).
Proof.
  split; [|split].
  - unfold isBackup.
    destruct (truthy notepadData) eqn:Ht; cbn [andb];
      [|split; [discriminate|intros [H _]; discriminate H]].
    destruct (truthy (get notepadData "notes")) eqn:Hn; cbn [negb andb];
      [split; [discriminate|intros (_ & H & _); discriminate H]|].
    destruct (String.eqb_spec (typeof notepadData) "object") as [Hty|Hty];
      [|split; [discriminate|intros (_ & _ & H & _); contradiction]].
    rewrite some_true_iff. split.
    + intros (before & v & after & Hv & Hp & Hb).
      apply notes_truthy_iff in Hp as [Hnull Htr].
      repeat split; try assumption. exists before, v, after.
      repeat split; try assumption.
      eapply Forall_impl; [exact Hb|]. intros w Hw. now apply notes_truthy_iff in Hw.
    + intros (_ & _ & _ & before & v & after & Hv & Hnull & Htr & Hb).
      exists before, v, after. repeat split; try assumption.
      * now apply notes_truthy_iff.
      * eapply Forall_impl; [exact Hb|]. intros w Hw. now apply notes_truthy_iff.
  - intros Hb. unfold importSingleNotepad, bind, try_catch, lift.
    cbn [emit]. rewrite Hb. cbn. now rewrite <- !app_assoc.
  - intros Hb.
    assert (H : emits_only (fun e => negb (is_backup_alert e))
                  (importSingleNotepad (Ok notepadData))).
    { unfold importSingleNotepad.
      apply emits_only_bind; [auto with emits|]. intros _.
      apply emits_only_try_catch; [|intros e; auto 10 with emits].
      apply emits_only_bind_lift_ok.
      destruct (isBackup notepadData) as [[|]|e]; [congruence| |].
      - apply emits_only_bind_lift_ok, import_rest_never_alerts_backup.
      - apply emits_only_bind_lift_throw. }
    destruct (H m) as (evs & Htrace & Hevs). exists evs. split; [exact Htrace|].
    intros Hin. rewrite forallb_forall in Hevs. specialize (Hevs _ Hin).
    cbn in Hevs. now rewrite String.eqb_refl in Hevs.
Qed.

End ImportRejection.

Lemma import_rejects_backup_shape_witness :
  isBackup payload_with_one_notepad_like_value = Ok true
  /\ importSingleNotepad (Ok payload_with_one_notepad_like_value) sample_machine
     = (Ok None,
        with_trace sample_machine
          (trace sample_machine ++ [SetIsProcessing true;
                                    Alert backup_file_message;
                                    SetIsProcessing false])).
Proof.
  assert (H : isBackup payload_with_one_notepad_like_value = Ok true) by reflexivity.
  split; [exact H|].
  exact (proj1 (proj2 (import_rejects_backup_shape
                         payload_with_one_notepad_like_value sample_machine)) H).
Defined.

(** C4 as stated fails: in
    [{"a": {"id":"a","notes":[]}, "b": {"id":"b","title":"Ideas"}}] the
    value under [b] holds no [notes], so the values do not each contain a
    notes sequence; the import rejects the payload as a backup all the
    same, since one value has [notes]. *)
Lemma backup_alert_though_a_value_lacks_notes :
  every_value_has_notes payload_with_one_notepad_like_value = false
  /\ trace (snd (importSingleNotepad (Ok payload_with_one_notepad_like_value)
                   sample_machine))
     = [SetIsProcessing true; Alert backup_file_message; SetIsProcessing false]
  /\ store (snd (importSingleNotepad (Ok payload_with_one_notepad_like_value)
                   sample_machine))
     = store sample_machine.
Proof. split; [reflexivity|]. split; reflexivity. Qed.

(** ** The reference platform honours the contract *)

Lemma base64_digits_invert :
  forallb (fun k =>
             match base64_value (base64_digit (N.of_nat k)) with
             | Some v => N.eqb v (N.of_nat k)
             | None => false
             end && negb (Ascii.eqb (base64_digit (N.of_nat k)) "="))
          (seq 0 64) = true.
Proof. vm_compute. reflexivity. Qed.

Lemma base64_digit_value (n : N) :
  (n < 64)%N ->
  base64_value (base64_digit n) = Some n
  /\ Ascii.eqb (base64_digit n) "=" = false.
Proof.
  intros Hn. pose proof base64_digits_invert as H.
  rewrite forallb_forall in H. specialize (H (N.to_nat n)).
  rewrite N2Nat.id in H.
  assert (Hin : In (N.to_nat n) (seq 0 64)) by (apply in_seq; lia).
  apply H in Hin. apply andb_prop in Hin as [Hv Heq].
  destruct (base64_value (base64_digit n)) as [v|]; [|discriminate].
  apply N.eqb_eq in Hv. subst v. split; [reflexivity|].
  now destruct (Ascii.eqb (base64_digit n) "=").
Qed.

Lemma base64_decode_quad (c1 c2 c3 c4 : ascii) (rest : list ascii)
  (v1 v2 v3 v4 : N) (bytes : list N) :
  base64_value c1 = Some v1 -> base64_value c2 = Some v2 ->
  base64_value c3 = Some v3 -> base64_value c4 = Some v4 ->
  Ascii.eqb c3 "=" = false -> Ascii.eqb c4 "=" = false ->
  base64_decode rest = Some bytes ->
  base64_decode (c1 :: c2 :: c3 :: c4 :: rest)
  = Some (v1 * 4 + v2 / 16 :: v2 mod 16 * 16 + v3 / 4 :: v3 mod 4 * 64 + v4 :: bytes)%N.
Proof.
  intros H1 H2 H3 H4 E3 E4 Hr. cbn [base64_decode].
  now rewrite H1, H2, E3, H3, E4, H4, Hr.
Qed.

(** Three bytes against the four digits they are written with. *)
Lemma sextets_of_bytes (a b c : N) :
  (a < 256)%N -> (b < 256)%N -> (c < 256)%N ->
  (a / 4 < 64 /\ a mod 4 * 16 + b / 16 < 64
   /\ b mod 16 * 4 + c / 64 < 64 /\ c mod 64 < 64
   /\ a / 4 * 4 + (a mod 4 * 16 + b / 16) / 16 = a
   /\ (a mod 4 * 16 + b / 16) mod 16 * 16 + (b mod 16 * 4 + c / 64) / 4 = b
   /\ (b mod 16 * 4 + c / 64) mod 4 * 64 + c mod 64 = c)%N.
Proof.
  intros Ha Hb Hc.
  pose proof (N.div_mod a 4 ltac:(discriminate)) as Da.
  pose proof (N.mod_upper_bound a 4 ltac:(discriminate)) as Ma.
  pose proof (N.div_mod b 16 ltac:(discriminate)) as Db.
  pose proof (N.mod_upper_bound b 16 ltac:(discriminate)) as Mb.
  pose proof (N.div_mod c 64 ltac:(discriminate)) as Dc.
  pose proof (N.mod_upper_bound c 64 ltac:(discriminate)) as Mc.
  assert (Qa : (a / 4 < 64)%N) by (apply N.Div0.div_lt_upper_bound; lia).
  assert (Qb : (b / 16 < 16)%N) by (apply N.Div0.div_lt_upper_bound; lia).
  assert (Qc : (c / 64 < 4)%N) by (apply N.Div0.div_lt_upper_bound; lia).
  assert (E1 : ((a mod 4 * 16 + b / 16) / 16 = a mod 4)%N).
  { rewrite N.div_add_l by discriminate. rewrite (N.div_small (b / 16)) by exact Qb.
    apply N.add_0_r. }
  assert (E2 : ((a mod 4 * 16 + b / 16) mod 16 = b / 16)%N).
  { rewrite N.add_comm, N.Div0.mod_add. now apply N.mod_small. }
  assert (E3 : ((b mod 16 * 4 + c / 64) / 4 = b mod 16)%N).
  { rewrite N.div_add_l by discriminate. rewrite (N.div_small (c / 64)) by exact Qc.
    apply N.add_0_r. }
  assert (E4 : ((b mod 16 * 4 + c / 64) mod 4 = c / 64)%N).
  { rewrite N.add_comm, N.Div0.mod_add. now apply N.mod_small. }
  rewrite E1, E2, E3, E4.
  generalize dependent (a / 4)%N. generalize dependent (a mod 4)%N.
  generalize dependent (b / 16)%N. generalize dependent (b mod 16)%N.
  generalize dependent (c / 64)%N. generalize dependent (c mod 64)%N.
  intros. repeat split; lia.
Qed.

Lemma base64_decode_encode_bounded (n : nat) :
  forall bytes : list N,
    (length bytes <= n)%nat -> Forall (fun b => (b < 256)%N) bytes ->
    base64_decode (base64_encode bytes) = Some bytes.
Proof.
  induction n as [|n IH]; intros bytes Hlen Hb.
  - destruct bytes; [reflexivity|cbn in Hlen; lia].
  - destruct bytes as [|a [|b [|c rest]]]; [reflexivity| | |].
    + apply Forall_cons in Hb as [Ha _].
      destruct (sextets_of_bytes a 0 0 Ha) as (H1 & H2 & _ & _ & E & _); [lia..|].
      rewrite N.add_0_r in H2, E.
      destruct (base64_digit_value _ H1) as [V1 _].
      destruct (base64_digit_value _ H2) as [V2 _].
      cbn [base64_encode base64_decode]. rewrite V1, V2. cbn.
      now rewrite E.
    + apply Forall_cons in Hb as [Ha Hb]. apply Forall_cons in Hb as [Hb _].
      destruct (sextets_of_bytes a b 0 Ha Hb) as (H1 & H2 & H3 & _ & E1 & E2 & _);
        [lia|].
      rewrite N.add_0_r in H3, E2.
      destruct (base64_digit_value _ H1) as [V1 _].
      destruct (base64_digit_value _ H2) as [V2 _].
      destruct (base64_digit_value _ H3) as [V3 N3].
      cbn [base64_encode base64_decode]. rewrite V1, V2, N3, V3. cbn.
      now rewrite E1, E2.
    + apply Forall_cons in Hb as [Ha Hb]. apply Forall_cons in Hb as [Hb Hc].
      apply Forall_cons in Hc as [Hc Hrest].
      destruct (sextets_of_bytes a b c Ha Hb Hc)
        as (H1 & H2 & H3 & H4 & E1 & E2 & E3).
      destruct (base64_digit_value _ H1) as [V1 _].
      destruct (base64_digit_value _ H2) as [V2 _].
      destruct (base64_digit_value _ H3) as [V3 N3].
      destruct (base64_digit_value _ H4) as [V4 N4].
      cbn [base64_encode].
      rewrite (base64_decode_quad _ _ _ _ _ _ _ _ _ rest V1 V2 V3 V4 N3 N4).
      * now rewrite E1, E2, E3.
      * apply IH; [cbn in Hlen; lia|assumption].
Qed.

Lemma base64_decode_encode (bytes : list Byte.byte) :
  base64_decode (base64_encode (List.map Byte.to_N bytes))
  = Some (List.map Byte.to_N bytes).
Proof.
  apply (base64_decode_encode_bounded (length (List.map Byte.to_N bytes)));
    [reflexivity|].
  induction bytes as [|b r IH]; constructor; [|assumption].
  pose proof (Byte.to_N_bounded b). lia.
Qed.

Lemma byte_of_to_N (bytes : list Byte.byte) :
  List.map byte_of_N (List.map Byte.to_N bytes) = bytes.
Proof.
  induction bytes as [|b r IH]; [reflexivity|].
  cbn [List.map]. unfold byte_of_N at 1. rewrite Byte.of_to_N. cbn.
  now rewrite IH.
Qed.

Lemma list_ascii_of_string_app (s1 s2 : string) :
  list_ascii_of_string (s1 +:+ s2)
  = list_ascii_of_string s1 ++ list_ascii_of_string s2.
Proof.
  induction s1 as [|c s1 IH]; [reflexivity|].
  change (c :: list_ascii_of_string (s1 +:+ s2)
          = c :: (list_ascii_of_string s1 ++ list_ascii_of_string s2)).
  now f_equal.
Qed.

Lemma prefix_append (p s : string) : String.prefix p (p +:+ s) = true.
Proof.
  induction p as [|c p IH]; [now destruct s|].
  change (String.prefix (String c p) (String c (p +:+ s)) = true).
  cbn [String.prefix]. now destruct (ascii_dec c c).
Qed.

Lemma split_at_first_comma (before after : list ascii) :
  forallb (fun c => negb (Ascii.eqb c ",")) before = true ->
  split_at_comma (before ++ ","%char :: after) = Some (before, after).
Proof.
  induction before as [|c r IH]; cbn; [reflexivity|].
  intros H. apply andb_prop in H as [Hc Hr].
  destruct (Ascii.eqb c ","); [discriminate|]. now rewrite IH.
Qed.

Lemma is_prefix_app (p l : list ascii) : is_prefix p (p ++ l) = true.
Proof.
  induction p as [|c p IH]; cbn; [reflexivity|].
  now rewrite Ascii.eqb_refl, IH.
Qed.

Lemma strip_suffix_app (l s : list ascii) : strip_suffix s (l ++ s) = Some l.
Proof.
  unfold strip_suffix. rewrite rev_app_distr, is_prefix_app.
  rewrite <- (length_rev s), skipn_app, Nat.sub_diag, skipn_all, skipn_O.
  now rewrite app_nil_l, rev_involutive.
Qed.

(** A blob whose media type holds no comma round-trips through the
    reference platform: the contract of the codec is one that an actual
    Base64 codec meets. *)
Lemma reference_platform_round_trips (b : Blob) :
  forallb (fun c => negb (Ascii.eqb c ","))
          (list_ascii_of_string (blob_type b)) = true ->
  data_url_round_trips b.
Proof.
  intros Hcomma. unfold data_url_round_trips.
  cbn [readAsDataURL fetch_blob reference_platform].
  unfold reference_readAsDataURL.
  set (type := if String.eqb (blob_type b) "" then "application/octet-stream"
               else blob_type b).
  set (payload := base64_encode (List.map Byte.to_N (blob_bytes b))).
  assert (Htype : forallb (fun c => negb (Ascii.eqb c ","))
                          (list_ascii_of_string type) = true).
  { subst type. destruct (String.eqb (blob_type b) ""); [reflexivity|assumption]. }
  split; [apply prefix_append|].
  exists (mkBlob type (blob_bytes b)). split; [|reflexivity].
  unfold reference_fetch_blob. rewrite prefix_append.
  change (skipn 5 (list_ascii_of_string
                     ("data:" +:+ type +:+ ";base64," +:+ string_of_list_ascii payload)))
    with (list_ascii_of_string (type +:+ ";base64," +:+ string_of_list_ascii payload)).
  rewrite !list_ascii_of_string_app, list_ascii_of_string_of_list_ascii.
  change (list_ascii_of_string ";base64,")
    with (list_ascii_of_string ";base64" ++ [","%char]).
  replace (list_ascii_of_string type
           ++ (list_ascii_of_string ";base64" ++ [","%char]) ++ payload)
    with ((list_ascii_of_string type ++ list_ascii_of_string ";base64")
          ++ ","%char :: payload)
    by (now rewrite <- !app_assoc).
  rewrite split_at_first_comma.
  - rewrite strip_suffix_app. subst payload.
    rewrite base64_decode_encode, byte_of_to_N, string_of_list_ascii_of_string.
    reflexivity.
  - rewrite forallb_app, Htype. reflexivity.
Qed.

(** * Part III: further properties of the code *)

(** ** The reducer, command by command *)

Lemma prop_of_non_nullish (n : value) (k : string) :
  nullish n = false -> prop n k = Ok (get n k).
Proof. destruct n; try discriminate; reflexivity. Qed.

Lemma non_nullish_cons (n : value) (l : list value) :
  non_nullish (n :: l) <-> nullish n = false /\ non_nullish l.
Proof.
  unfold non_nullish. cbn [forallb]. rewrite andb_true_iff, negb_true_iff. tauto.
Qed.

Lemma non_nullish_app (l1 l2 : list value) :
  non_nullish (l1 ++ l2) <-> non_nullish l1 /\ non_nullish l2.
Proof. unfold non_nullish. rewrite forallb_app, andb_true_iff. tauto. Qed.

(** [findIndex] with the test [n.id === id] on notes that are not null. *)
Lemma findIndex_from_no_match (id : value) (l : list value) :
  forall i, non_nullish l ->
    forallb (fun n => negb (has_id id n)) l = true ->
    findIndex_from (fun n => let? j := prop n "id" in Ok (strict_eq j id)) l i
    = Ok (-1).
Proof.
  induction l as [|n l IH]; intros i Hnn Hno; [reflexivity|].
  apply non_nullish_cons in Hnn as [Hn Hnn].
  cbn [forallb] in Hno. apply andb_prop in Hno as [Hid Hno].
  cbn [findIndex_from]. rewrite (prop_of_non_nullish n "id" Hn). cbn [rbind].
  unfold has_id in Hid. apply negb_true_iff in Hid. rewrite Hid. now apply IH.
Qed.

Lemma findIndex_from_first_match (id : value) (before : list value) :
  forall (n : value) (after : list value) (i : Z),
    non_nullish (before ++ n :: after) ->
    forallb (fun n => negb (has_id id n)) before = true ->
    has_id id n = true ->
    findIndex_from (fun n => let? j := prop n "id" in Ok (strict_eq j id))
      (before ++ n :: after) i
    = Ok (i + Z.of_nat (length before)).
Proof.
  induction before as [|b before IH]; intros n after i Hnn Hno Hid.
  - apply non_nullish_cons in Hnn as [Hn _].
    cbn [app findIndex_from length]. rewrite (prop_of_non_nullish n "id" Hn).
    cbn [rbind]. unfold has_id in Hid. rewrite Hid. f_equal. cbn. lia.
  - cbn [app] in Hnn. apply non_nullish_cons in Hnn as [Hb Hnn].
    cbn [forallb] in Hno. apply andb_prop in Hno as [Hbid Hno].
    cbn [app findIndex_from]. rewrite (prop_of_non_nullish b "id" Hb).
    cbn [rbind]. unfold has_id in Hbid. apply negb_true_iff in Hbid. rewrite Hbid.
    rewrite (IH n after (i + 1) Hnn Hno Hid). f_equal. cbn [length]. lia.
Qed.

(** X1: DUPLICATE_NOTE.  When no note carries [originalId] the reducer hands
    back the state it was given.  Otherwise the new note goes right after
    the first note that carries it, every other note keeping its place, and
    the document is stamped. *)
Theorem duplicate_note_goes_after_original
  (timestamp : Z) (state : value) (notes : list value) (originalId newNote : value) :
  prop state "notes" = Ok (VArr notes) ->
  non_nullish notes ->
  (forallb (fun n => negb (has_id originalId n)) notes = true ->
   notepadReducer timestamp state (DUPLICATE_NOTE originalId newNote) = Ok state)
  /\ (forall before n after,
        notes = before ++ n :: after ->
        forallb (fun n => negb (has_id originalId n)) before = true ->
        has_id originalId n = true ->
        notepadReducer timestamp state (DUPLICATE_NOTE originalId newNote)
        = Ok (VObj (set_field "notes" (VArr (before ++ n :: newNote :: after))
                     (set_field "lastUpdate" (VNum timestamp) (own_props state))))).
Proof.
  intros Hnotes Hnn. split.
  - intros Hno. unfold notepadReducer. rewrite Hnotes. cbn [rbind as_array].
    unfold findIndex. rewrite findIndex_from_no_match by assumption.
    reflexivity.
  - intros before n after -> Hno Hid. unfold notepadReducer.
    rewrite Hnotes. cbn [rbind as_array iterate].
    unfold findIndex. rewrite findIndex_from_first_match by assumption.
    cbn [rbind].
    destruct (Z.eqb_spec (0 + Z.of_nat (length before)) (-1)) as [?|_]; [lia|].
    rewrite splice_insert by (rewrite length_app; cbn [length]; lia).
    replace (Z.to_nat (0 + Z.of_nat (length before) + 1))
      with (length (before ++ [n])) by (rewrite length_app; cbn; lia).
    replace (before ++ n :: after) with ((before ++ [n]) ++ after)
      by (now rewrite <- app_assoc).
    rewrite take_app_length, drop_app_length. now rewrite <- app_assoc.
Qed.

Lemma duplicate_note_goes_after_original_witness :
  let notes := [sample_note "a"; sample_note "b"; sample_note "c"] in
  let copy := sample_note "b-copy" in
  prop (sample_doc 10 notes) "notes" = Ok (VArr notes)
  /\ non_nullish notes
  /\ notes = [sample_note "a"] ++ sample_note "b" :: [sample_note "c"]
  /\ forallb (fun n => negb (has_id (VStr "b") n)) [sample_note "a"] = true
  /\ has_id (VStr "b") (sample_note "b") = true
  /\ notepadReducer 20 (sample_doc 10 notes) (DUPLICATE_NOTE (VStr "b") copy)
     = Ok (sample_doc 20 [sample_note "a"; sample_note "b"; copy; sample_note "c"]).
Proof.
  intros notes copy.
  assert (H1 : prop (sample_doc 10 notes) "notes" = Ok (VArr notes)) by reflexivity.
  assert (H2 : non_nullish notes) by reflexivity.
  assert (H3 : notes = [sample_note "a"] ++ sample_note "b" :: [sample_note "c"])
    by reflexivity.
  assert (H4 : forallb (fun n => negb (has_id (VStr "b") n)) [sample_note "a"] = true)
    by reflexivity.
  assert (H5 : has_id (VStr "b") (sample_note "b") = true) by reflexivity.
  repeat (split; [assumption|]).
  rewrite (proj2 (duplicate_note_goes_after_original 20 (sample_doc 10 notes) notes
                    (VStr "b") copy H1 H2) _ _ _ H3 H4 H5).
  reflexivity.
Defined.


(** [filter] and [map] with the tests of DELETE_NOTE and UPDATE_NOTE never
    raise on notes that are not null. *)
Lemma rfilter_by_id (id : value) (l : list value) :
  non_nullish l ->
  rfilter (fun n => let? i := prop n "id" in Ok (negb (strict_eq i id))) l
  = Ok (List.filter (fun n => negb (has_id id n)) l).
Proof.
  induction l as [|n l IH]; intros Hnn; [reflexivity|].
  apply non_nullish_cons in Hnn as [Hn Hnn].
  cbn [rfilter List.filter]. rewrite (prop_of_non_nullish n "id" Hn).
  cbn [rbind]. rewrite (IH Hnn). reflexivity.
Qed.

Lemma rmap_by_id (payload : value) (l : list value) :
  non_nullish l -> nullish payload = false ->
  rmap (fun n => let? i := prop n "id" in
                 let? j := prop payload "id" in
                 Ok (if strict_eq i j then payload else n)) l
  = Ok (List.map (fun n => if has_id (get payload "id") n then payload else n) l).
Proof.
  intros Hnn Hp. induction l as [|n l IH]; [reflexivity|].
  apply non_nullish_cons in Hnn as [Hn Hnn].
  cbn [rmap List.map]. rewrite (IH Hnn).
  rewrite (prop_of_non_nullish n "id" Hn).
  rewrite (prop_of_non_nullish payload "id" Hp). reflexivity.
Qed.

(** A null or undefined note makes the tests [n.id === ...] raise. *)
Lemma rfilter_meets_nullish (id : value) (l : list value) :
  forallb (fun n => negb (nullish n)) l = false ->
  rfilter (fun n => let? i := prop n "id" in Ok (negb (strict_eq i id))) l
  = Throw TypeError.
Proof.
  induction l as [|n l IH]; [discriminate|].
  cbn [forallb rfilter]. destruct n; cbn [nullish negb andb prop rbind];
    try reflexivity; intros H; rewrite (IH H); reflexivity.
Qed.

Lemma filter_all (p : value -> bool) (l : list value) :
  forallb p l = true -> List.filter p l = l.
Proof.
  induction l as [|x l IH]; [reflexivity|]. cbn.
  intros [Hx Hl]%andb_prop. rewrite Hx. now rewrite IH.
Qed.

Lemma element_notes (l : list value) : element l "notes" = VUndefined.
Proof. reflexivity. Qed.

Lemma state_with_notes_is_object (state : value) (l : list value) :
  prop state "notes" = Ok (VArr l) -> exists f, state = VObj f.
Proof.
  destruct state as [| |b|n|s|b|elems|f]; cbn [prop get];
    change (String.eqb "notes" "length") with false;
    change (String.eqb "notes" "size") with false;
    change (String.eqb "notes" "type") with false; cbv iota;
    rewrite ?element_notes; try discriminate.
  eauto.
Qed.

(** X2: DELETE_NOTE on notes none of which is null.  Every note whose id is
    the payload goes, the others stay in their order, and the document is
    stamped; this is so even when no note carries the id (the notes are then
    the ones there were, and [lastUpdate] moves all the same). *)
Theorem delete_note_removes_every_note_with_id
  (timestamp : Z) (state : value) (notes : list value) (id : value) :
  prop state "notes" = Ok (VArr notes) ->
  non_nullish notes ->
  exists kept,
    notepadReducer timestamp state (DELETE_NOTE id)
    = Ok (VObj (set_field "notes" (VArr kept)
                 (set_field "lastUpdate" (VNum timestamp) (own_props state))))
    /\ (forall n, In n kept <-> In n notes /\ has_id id n = false)
    /\ sublist kept notes
    /\ (forallb (fun n => negb (has_id id n)) notes = true -> kept = notes).
Proof.
  intros Hnotes Hnn.
  exists (List.filter (fun n => negb (has_id id n)) notes). repeat split.
  - unfold notepadReducer. rewrite Hnotes. cbn [rbind as_array].
    rewrite rfilter_by_id by assumption. reflexivity.
  - now apply filter_In in H.
  - apply filter_In in H as [_ H]. now apply negb_true_iff in H.
  - intros [Hin Hid]. apply filter_In. split; [assumption|]. now rewrite Hid.
  - clear. induction notes as [|n l IH]; cbn; [constructor|].
    destruct (negb (has_id id n)); now constructor.
  - apply filter_all.
Qed.

Lemma delete_note_removes_every_note_with_id_witness :
  let notes := [sample_note "a"; sample_note "b"; sample_note "a"] in
  exists kept,
    notepadReducer 20 (sample_doc 10 notes) (DELETE_NOTE (VStr "a"))
    = Ok (VObj (set_field "notes" (VArr kept)
                 (set_field "lastUpdate" (VNum 20) (own_props (sample_doc 10 notes)))))
    /\ (forall n, In n kept <-> In n notes /\ has_id (VStr "a") n = false)
    /\ sublist kept notes
    /\ (forallb (fun n => negb (has_id (VStr "a") n)) notes = true -> kept = notes).
Proof.
  intros notes.
  apply (delete_note_removes_every_note_with_id 20 (sample_doc 10 notes) notes (VStr "a"));
    reflexivity.
Defined.

(** X3: UPDATE_NOTE on notes none of which is null, with a payload that is
    not null.  The notes keep their number and their places: a note whose id
    is the payload's is replaced by the payload, every other note is kept.
    When no note carries the payload's id the notes are unchanged, and the
    document is stamped all the same. *)
Theorem update_note_replaces_in_place
  (timestamp : Z) (state : value) (notes : list value) (payload : value) :
  prop state "notes" = Ok (VArr notes) ->
  non_nullish notes ->
  nullish payload = false ->
  exists notes',
    notepadReducer timestamp state (UPDATE_NOTE payload)
    = Ok (VObj (set_field "notes" (VArr notes')
                 (set_field "lastUpdate" (VNum timestamp) (own_props state))))
    /\ length notes' = length notes
    /\ (forall i n, notes !! i = Some n ->
          notes' !! i = Some (if has_id (get payload "id") n then payload else n))
    /\ (forallb (fun n => negb (has_id (get payload "id") n)) notes = true ->
        notes' = notes).
Proof.
  intros Hnotes Hnn Hp.
  exists (List.map (fun n => if has_id (get payload "id") n then payload else n) notes).
  repeat split.
  - unfold notepadReducer. rewrite Hnotes. cbn [rbind as_array].
    rewrite rmap_by_id by assumption. reflexivity.
  - apply length_map.
  - intros i n Hi.
    change (List.map ?f notes) with (f <$> notes).
    rewrite list_lookup_fmap, Hi. reflexivity.
  - clear. induction notes as [|n l IH]; [reflexivity|]. cbn.
    intros [Hn Hl]%andb_prop. apply negb_true_iff in Hn. rewrite Hn.
    now rewrite IH.
Qed.

Lemma update_note_replaces_in_place_witness :
  let notes := [sample_note "a"; sample_note "b"] in
  let payload := VObj [("id", VStr "b"); ("title", VStr "Shopping");
                       ("content", VStr "milk"); ("accentColor", VStr "");
                       ("collapsed", VBool true)] in
  exists notes',
    notepadReducer 20 (sample_doc 10 notes) (UPDATE_NOTE payload)
    = Ok (VObj (set_field "notes" (VArr notes')
                 (set_field "lastUpdate" (VNum 20) (own_props (sample_doc 10 notes)))))
    /\ length notes' = length notes
    /\ (forall i n, notes !! i = Some n ->
          notes' !! i = Some (if has_id (get payload "id") n then payload else n))
    /\ (forallb (fun n => negb (has_id (get payload "id") n)) notes = true ->
        notes' = notes).
Proof.
  intros notes payload.
  apply (update_note_replaces_in_place 20 (sample_doc 10 notes) notes payload);
    reflexivity.
Defined.


(** *** MOVE_NOTE with a target in range *)

Lemma splice_remove_at (before after : list value) (x : value) :
  splice (before ++ x :: after) (Z.of_nat (length before)) 1 []
  = ([x], before ++ after).
Proof.
  unfold splice. rewrite length_app. cbn [length].
  destruct (Z.ltb_spec (Z.of_nat (length before)) 0) as [?|_]; [lia|].
  rewrite (Z.min_l (Z.of_nat (length before))) by lia.
  replace (Z.to_nat (Z.min (Z.max 1 0)
             (Z.of_nat (length before + S (length after)) - Z.of_nat (length before))))
    with 1%nat by lia.
  rewrite Nat2Z.id, drop_app_length, take_app_length. cbn [take app].
  replace (length before + 1)%nat with (length (before ++ [x]))
    by (rewrite length_app; reflexivity).
  replace (before ++ x :: after) with ((before ++ [x]) ++ after)
    by (now rewrite <- app_assoc).
  now rewrite drop_app_length.
Qed.

Lemma splice_remove_beyond (l : list value) (from : Z) :
  Z.of_nat (length l) <= from -> splice l from 1 [] = ([], l).
Proof.
  intros Hfrom. unfold splice.
  destruct (Z.ltb_spec from 0) as [?|_]; [lia|].
  rewrite (Z.min_r from) by lia. rewrite Z.sub_diag.
  replace (Z.to_nat (Z.min (Z.max 1 0) 0)) with 0%nat by lia.
  rewrite Nat2Z.id, Nat.add_0_r, take_0, firstn_all. cbn [app].
  rewrite drop_all. now rewrite app_nil_r.
Qed.

Lemma move_note_target_in_range (notes : list value) (newIndex : Z) :
  1 <= newIndex <= Z.of_nat (length notes) ->
  ((newIndex - 1 <? 0) || (newIndex - 1 >=? Z.of_nat (length notes)))%bool = false.
Proof.
  intros H. destruct (Z.ltb_spec (newIndex - 1) 0) as [?|_]; [lia|].
  destruct (Z.geb_spec (newIndex - 1) (Z.of_nat (length notes))) as [?|_]; [lia|].
  reflexivity.
Qed.

(** The document MOVE_NOTE builds when both positions name a note. *)
Lemma move_note_within_bounds_result
  (timestamp : Z) (state : value) (before after : list value) (x : value)
  (oldIndex newIndex : Z) :
  prop state "notes" = Ok (VArr (before ++ x :: after)) ->
  oldIndex - 1 = Z.of_nat (length before) ->
  1 <= newIndex <= Z.of_nat (length (before ++ x :: after)) ->
  notepadReducer timestamp state (MOVE_NOTE oldIndex newIndex)
  = Ok (VObj (set_field "notes"
               (VArr (take (Z.to_nat (newIndex - 1)) (before ++ after) ++ x
                        :: drop (Z.to_nat (newIndex - 1)) (before ++ after)))
               (set_field "lastUpdate" (VNum timestamp) (own_props state)))).
Proof.
  intros Hnotes Hold Hnew. unfold notepadReducer.
  rewrite Hnotes. cbn [rbind iterate].
  rewrite move_note_target_in_range by assumption.
  rewrite Hold, splice_remove_at. cbn [hd].
  rewrite splice_insert; [reflexivity|].
  rewrite !length_app in *. cbn [length] in Hnew. lia.
Qed.

(** X4: MOVE_NOTE with both positions in [1 .. notes.length].  The note at
    the source position lands at the target position; taking it out of the
    new list and out of the old one leaves the same list, so every other
    note keeps its order; the notes are a permutation of the ones there
    were; and a move onto the same position leaves the notes as they are. *)
Theorem move_note_within_bounds_relocates_one_note
  (timestamp : Z) (state : value) (notes : list value) (oldIndex newIndex : Z) :
  prop state "notes" = Ok (VArr notes) ->
  1 <= oldIndex <= Z.of_nat (length notes) ->
  1 <= newIndex <= Z.of_nat (length notes) ->
  exists x notes',
    notes !! Z.to_nat (oldIndex - 1) = Some x
    /\ notepadReducer timestamp state (MOVE_NOTE oldIndex newIndex)
       = Ok (VObj (set_field "notes" (VArr notes')
                    (set_field "lastUpdate" (VNum timestamp) (own_props state))))
    /\ notes' !! Z.to_nat (newIndex - 1) = Some x
    /\ delete (Z.to_nat (newIndex - 1)) notes' = delete (Z.to_nat (oldIndex - 1)) notes
    /\ notes' ≡ₚ notes
    /\ (oldIndex = newIndex -> notes' = notes).
Proof.
  intros Hnotes Hold Hnew.
  destruct (lookup_lt_is_Some_2 notes (Z.to_nat (oldIndex - 1))) as [x Hx]; [lia|].
  pose proof (take_drop_middle notes _ x Hx) as Hsplit.
  set (before := take (Z.to_nat (oldIndex - 1)) notes) in *.
  set (after := drop (S (Z.to_nat (oldIndex - 1))) notes) in *.
  assert (Hlen : length before = Z.to_nat (oldIndex - 1))
    by (subst before; rewrite length_take; lia).
  assert (Hrest : (Z.to_nat (newIndex - 1) <= length (before ++ after))%nat).
  { apply (f_equal (@length value)) in Hsplit.
    rewrite !length_app in *. cbn [length] in Hsplit. lia. }
  set (j := Z.to_nat (newIndex - 1)) in *.
  assert (Hj : length (take j (before ++ after)) = j)
    by (rewrite length_take; lia).
  exists x, (take j (before ++ after) ++ x :: drop j (before ++ after)).
  split; [assumption|]. split.
  { apply move_note_within_bounds_result.
    - now rewrite Hsplit.
    - lia.
    - now rewrite Hsplit. }
  split. { rewrite <- Hj at 1. apply list_lookup_middle. reflexivity. }
  split.
  { rewrite <- Hj at 1. rewrite delete_middle, take_drop.
    rewrite <- Hsplit at 1. rewrite <- Hlen. now rewrite delete_middle. }
  split.
  { rewrite <- Permutation_middle, take_drop. rewrite <- Hsplit.
    now rewrite <- Permutation_middle. }
  intros ->. subst j. rewrite <- Hlen.
  now rewrite take_app_length, drop_app_length.
Qed.

Lemma move_note_within_bounds_relocates_one_note_witness :
  let notes := [sample_note "a"; sample_note "b"; sample_note "c"] in
  prop (sample_doc 10 notes) "notes" = Ok (VArr notes)
  /\ 1 <= 3 <= Z.of_nat (length notes)
  /\ 1 <= 1 <= Z.of_nat (length notes)
  /\ exists x notes',
      notes !! Z.to_nat (3 - 1) = Some x
      /\ notepadReducer 20 (sample_doc 10 notes) (MOVE_NOTE 3 1)
         = Ok (VObj (set_field "notes" (VArr notes')
                      (set_field "lastUpdate" (VNum 20)
                         (own_props (sample_doc 10 notes)))))
      /\ notes' !! Z.to_nat (1 - 1) = Some x
      /\ delete (Z.to_nat (1 - 1)) notes' = delete (Z.to_nat (3 - 1)) notes
      /\ notes' ≡ₚ notes
      /\ (3 = 1 -> notes' = notes).
Proof.
  intros notes.
  assert (H1 : prop (sample_doc 10 notes) "notes" = Ok (VArr notes)) by reflexivity.
  assert (H2 : 1 <= 3 <= Z.of_nat (length notes)) by (cbn; lia).
  assert (H3 : 1 <= 1 <= Z.of_nat (length notes)) by (cbn; lia).
  repeat (split; [assumption|]).
  exact (move_note_within_bounds_relocates_one_note 20 (sample_doc 10 notes) notes
           3 1 H1 H2 H3).
Defined.

(** *** MOVE_NOTE with a source beyond the end *)

Lemma rmap_meets_nullish (payload : value) (l : list value) :
  forallb (fun n => negb (nullish n)) l = false ->
  rmap (fun n => let? i := prop n "id" in
                 let? j := prop payload "id" in
                 Ok (if strict_eq i j then payload else n)) l
  = Throw TypeError.
Proof.
  induction l as [|n l IH]; [discriminate|].
  cbn [forallb rmap].
  destruct n; cbn [nullish negb andb prop rbind]; try reflexivity;
    intros H; rewrite (IH H);
    destruct payload; reflexivity.
Qed.

(** X5: the source position of MOVE_NOTE is not checked against the end of
    the list.  With [oldIndex] past the last note and a target in range,
    nothing is taken out and [undefined] is put in at the target position:
    the list grows by one.  Any DELETE_NOTE or UPDATE_NOTE on the document
    that results raises a TypeError. *)
Theorem move_note_from_beyond_end_inserts_undefined
  (timestamp : Z) (state : value) (notes : list value) (oldIndex newIndex : Z) :
  prop state "notes" = Ok (VArr notes) ->
  Z.of_nat (length notes) < oldIndex ->
  1 <= newIndex <= Z.of_nat (length notes) ->
  exists state',
    notepadReducer timestamp state (MOVE_NOTE oldIndex newIndex) = Ok state'
    /\ prop state' "notes"
       = Ok (VArr (take (Z.to_nat (newIndex - 1)) notes ++ VUndefined
                     :: drop (Z.to_nat (newIndex - 1)) notes))
    /\ (forall t id, notepadReducer t state' (DELETE_NOTE id) = Throw TypeError)
    /\ (forall t payload,
          notepadReducer t state' (UPDATE_NOTE payload) = Throw TypeError).
Proof.
  intros Hnotes Hold Hnew.
  assert (Hundef : forallb (fun n => negb (nullish n))
                     (take (Z.to_nat (newIndex - 1)) notes ++ VUndefined
                        :: drop (Z.to_nat (newIndex - 1)) notes) = false).
  { rewrite forallb_app. cbn [forallb nullish negb andb]. apply andb_false_r. }
  eexists. split.
  { unfold notepadReducer. rewrite Hnotes. cbn [rbind iterate].
    rewrite move_note_target_in_range by assumption.
    rewrite splice_remove_beyond by lia. cbn [hd].
    rewrite splice_insert by lia. reflexivity. }
  cbn [prop]. rewrite restamped_notes. split; [reflexivity|]. split.
  - intros t id. unfold notepadReducer. cbn [prop]. rewrite restamped_notes.
    cbn [rbind as_array]. now rewrite rfilter_meets_nullish.
  - intros t payload. unfold notepadReducer. cbn [prop]. rewrite restamped_notes.
    cbn [rbind as_array]. now rewrite rmap_meets_nullish.
Qed.

Lemma move_note_from_beyond_end_inserts_undefined_witness :
  let notes := [sample_note "a"; sample_note "b"] in
  prop (sample_doc 10 notes) "notes" = Ok (VArr notes)
  /\ Z.of_nat (length notes) < 3
  /\ 1 <= 1 <= Z.of_nat (length notes)
  /\ exists state',
      notepadReducer 20 (sample_doc 10 notes) (MOVE_NOTE 3 1) = Ok state'
      /\ prop state' "notes"
         = Ok (VArr (take (Z.to_nat (1 - 1)) notes ++ VUndefined
                       :: drop (Z.to_nat (1 - 1)) notes))
      /\ (forall t id, notepadReducer t state' (DELETE_NOTE id) = Throw TypeError)
      /\ (forall t payload,
            notepadReducer t state' (UPDATE_NOTE payload) = Throw TypeError).
Proof.
  intros notes.
  assert (H1 : prop (sample_doc 10 notes) "notes" = Ok (VArr notes)) by reflexivity.
  assert (H2 : Z.of_nat (length notes) < 3) by (cbn; lia).
  assert (H3 : 1 <= 1 <= Z.of_nat (length notes)) by (cbn; lia).
  repeat (split; [assumption|]).
  exact (move_note_from_beyond_end_inserts_undefined 20 (sample_doc 10 notes) notes
           3 1 H1 H2 H3).
Defined.


(** *** What every command keeps *)

Lemma findIndex_from_in_range (id : value) (l : list value) :
  forall i, non_nullish l ->
    exists r,
      findIndex_from (fun n => let? j := prop n "id" in Ok (strict_eq j id)) l i
      = Ok r
      /\ (r = -1 \/ i <= r < i + Z.of_nat (length l)).
Proof.
  induction l as [|n l IH]; intros i Hnn.
  - exists (-1). split; [reflexivity|now left].
  - apply non_nullish_cons in Hnn as [Hn Hnn].
    cbn [findIndex_from]. rewrite (prop_of_non_nullish n "id" Hn). cbn [rbind].
    destruct (strict_eq (get n "id") id).
    + exists i. split; [reflexivity|]. right. cbn [length]. lia.
    + destruct (IH (i + 1) Hnn) as (r & Hr & Hrange). exists r.
      split; [assumption|]. cbn [length]. lia.
Qed.

Lemma non_nullish_take (l : list value) (n : nat) :
  non_nullish l -> non_nullish (take n l).
Proof.
  intros H. rewrite <- (take_drop n l) in H. now apply non_nullish_app in H.
Qed.

Lemma non_nullish_drop (l : list value) (n : nat) :
  non_nullish l -> non_nullish (drop n l).
Proof.
  intros H. rewrite <- (take_drop n l) in H. now apply non_nullish_app in H.
Qed.

Lemma non_nullish_insert (l : list value) (n : nat) (x : value) :
  non_nullish l -> nullish x = false ->
  non_nullish (take n l ++ x :: drop n l).
Proof.
  intros Hl Hx. apply non_nullish_app. split; [now apply non_nullish_take|].
  apply non_nullish_cons. split; [assumption|now apply non_nullish_drop].
Qed.

Lemma well_formed_restamped
  (t : Z) (f : list (string * value)) (notes : list value) :
  non_nullish notes ->
  well_formed_doc
    (VObj (set_field "notes" (VArr notes) (set_field "lastUpdate" (VNum t) f))).
Proof.
  intros H. eexists _, notes. split; [reflexivity|].
  split; [apply field_set_field_eq|assumption].
Qed.

(** X6: the reducer answers every safe command on a well-formed document,
    and the document it answers with is well formed: an object whose
    [notes] is an array without null or undefined elements.  A command is
    safe when the note or document it brings is not null (SET_NOTEPAD: is
    itself well formed) and, for a MOVE_NOTE whose target is in range, the
    source is in range too. *)
Theorem reducer_keeps_documents_well_formed
  (timestamp : Z) (state : value) (notes : list value) (a : action) :
  well_formed_doc state ->
  prop state "notes" = Ok (VArr notes) ->
  safe_command (length notes) a ->
  exists state',
    notepadReducer timestamp state a = Ok state' /\ well_formed_doc state'.
Proof.
  intros Hwf Hnotes Hsafe.
  assert (Hnn : non_nullish notes).
  { destruct Hwf as (f & l & -> & Hf & Hl). cbn in Hnotes. rewrite Hf in Hnotes.
    cbn in Hnotes. now injection Hnotes as <-. }
  destruct a as [p|p|p|oid nn|p|p|oi ni|ty]; cbn [safe_command] in Hsafe.
  - exists (VObj (own_props p)). split; [reflexivity|].
    destruct Hsafe as (f & l & -> & Hf & Hl). now exists f, l.
  - eexists. split; [reflexivity|].
    destruct Hwf as (f & l & -> & Hf & Hl). eexists _, l.
    split; [reflexivity|]. split; [|assumption]. cbn [own_props].
    rewrite !field_set_field_ne by discriminate. assumption.
  - eexists. split.
    + unfold notepadReducer. rewrite Hnotes. reflexivity.
    + apply well_formed_restamped. apply non_nullish_app. split; [assumption|].
      apply non_nullish_cons. now split.
  - destruct (findIndex_from_in_range oid notes 0 Hnn) as (r & Hr & Hrange).
    unfold notepadReducer. rewrite Hnotes. cbn [rbind as_array iterate].
    unfold findIndex. rewrite Hr. cbn [rbind].
    destruct (Z.eqb_spec r (-1)) as [->|Hne]; [now exists state|].
    eexists. split; [reflexivity|]. apply well_formed_restamped.
    rewrite splice_insert by lia. now apply non_nullish_insert.
  - eexists. split.
    + unfold notepadReducer. rewrite Hnotes. cbn [rbind as_array].
      rewrite rmap_by_id by assumption. reflexivity.
    + apply well_formed_restamped. clear -Hnn Hsafe.
      induction notes as [|n l IH]; [reflexivity|].
      apply non_nullish_cons in Hnn as [Hn Hl]. cbn [List.map].
      apply non_nullish_cons. split; [|now apply IH].
      now destruct (has_id (get p "id") n).
  - eexists. split.
    + unfold notepadReducer. rewrite Hnotes. cbn [rbind as_array].
      rewrite rfilter_by_id by assumption. reflexivity.
    + apply well_formed_restamped. clear -Hnn.
      induction notes as [|n l IH]; [reflexivity|].
      apply non_nullish_cons in Hnn as [Hn Hl]. cbn [List.filter].
      destruct (negb (has_id p n)); [|now apply IH].
      apply non_nullish_cons. split; [assumption|now apply IH].
  - destruct (Z_lt_le_dec ni 1) as [Hlow|Hlow];
      [|destruct (Z_lt_le_dec (Z.of_nat (length notes)) ni) as [Hhigh|Hhigh]].
    + exists state. split; [|assumption]. unfold notepadReducer.
      rewrite Hnotes. cbn [rbind iterate].
      destruct (Z.ltb_spec (ni - 1) 0) as [_|?]; [reflexivity|lia].
    + exists state. split; [|assumption]. unfold notepadReducer.
      rewrite Hnotes. cbn [rbind iterate].
      destruct (Z.geb_spec (ni - 1) (Z.of_nat (length notes))) as [_|?]; [|lia].
      now rewrite orb_true_r.
    + assert (Hold : 1 <= oi <= Z.of_nat (length notes)) by (apply Hsafe; lia).
      destruct (lookup_lt_is_Some_2 notes (Z.to_nat (oi - 1))) as [x Hx]; [lia|].
      pose proof (take_drop_middle notes _ x Hx) as Hsplit.
      eexists. split.
      * rewrite <- Hsplit in Hnotes.
        apply (move_note_within_bounds_result timestamp state _ _ _ oi ni Hnotes).
        -- rewrite length_take. lia.
        -- now rewrite Hsplit.
      * apply well_formed_restamped. rewrite <- Hsplit in Hnn.
        apply non_nullish_app in Hnn as [Hb Ha].
        apply non_nullish_cons in Ha as [Hxn Ha].
        apply non_nullish_insert; [|assumption].
        apply non_nullish_app. now split.
  - now exists state.
Qed.

Lemma reducer_keeps_documents_well_formed_witness :
  let notes := [sample_note "a"; sample_note "b"] in
  well_formed_doc (sample_doc 10 notes)
  /\ prop (sample_doc 10 notes) "notes" = Ok (VArr notes)
  /\ safe_command (length notes) (MOVE_NOTE 2 1)
  /\ exists state',
      notepadReducer 20 (sample_doc 10 notes) (MOVE_NOTE 2 1) = Ok state'
      /\ well_formed_doc state'.
Proof.
  intros notes.
  assert (H1 : well_formed_doc (sample_doc 10 notes)).
  { eexists _, notes. split; [reflexivity|]. split; reflexivity. }
  assert (H2 : prop (sample_doc 10 notes) "notes" = Ok (VArr notes)) by reflexivity.
  assert (H3 : safe_command (length notes) (MOVE_NOTE 2 1)) by (cbn; lia).
  repeat (split; [assumption|]).
  exact (reducer_keeps_documents_well_formed 20 (sample_doc 10 notes) notes
           (MOVE_NOTE 2 1) H1 H2 H3).
Defined.

(** X7: no command but SET_NOTEPAD touches a property of the document other
    than [title], [lastUpdate] and [notes] (so [id] and [created] are never
    changed), and [title] is changed by UPDATE_TITLE only. *)
Theorem reducer_keeps_other_properties
  (timestamp : Z) (f : list (string * value)) (a : action) (state' : value) :
  is_set_notepad a = false ->
  notepadReducer timestamp (VObj f) a = Ok state' ->
  (forall k, k <> "title" -> k <> "lastUpdate" -> k <> "notes" ->
     get state' k = get (VObj f) k)
  /\ ((forall payload, a <> UPDATE_TITLE payload) ->
      get state' "title" = get (VObj f) "title").
Proof.
  intros Hset Hrun.
  assert (Hkeep : forall notes k, k <> "lastUpdate" -> k <> "notes" ->
            get (VObj (set_field "notes" notes
                         (set_field "lastUpdate" (VNum timestamp) f))) k
            = get (VObj f) k).
  { intros notes k H1 H2. now rewrite !get_set_field_ne by congruence. }
  destruct a as [p|p|p|oid nn|p|p|oi ni|ty]; cbn [notepadReducer] in Hrun;
    try discriminate Hset.
  - injection Hrun as <-. split.
    + intros k H1 H2 H3. cbn [own_props]. now rewrite !get_set_field_ne by congruence.
    + intros H. now destruct (H p).
  - destruct (prop (VObj f) "notes") as [notes|]; [|discriminate]; cbn [rbind] in Hrun.
    destruct (iterate notes); [|discriminate]; cbn [rbind] in Hrun.
    injection Hrun as <-. split; intros; apply Hkeep; congruence.
  - destruct (prop (VObj f) "notes") as [notes|]; [|discriminate]; cbn [rbind] in Hrun.
    destruct (as_array notes) as [arr|]; [|discriminate]; cbn [rbind] in Hrun.
    destruct (findIndex _ arr) as [index|]; [|discriminate]; cbn [rbind] in Hrun.
    destruct (index =? -1); [injection Hrun as <-; now split|].
    destruct (iterate notes); [|discriminate]; cbn [rbind] in Hrun.
    injection Hrun as <-. split; intros; apply Hkeep; congruence.
  - destruct (prop (VObj f) "notes") as [notes|]; [|discriminate]; cbn [rbind] in Hrun.
    destruct (as_array notes) as [arr|]; [|discriminate]; cbn [rbind] in Hrun.
    destruct (rmap _ arr); [|discriminate]; cbn [rbind] in Hrun.
    injection Hrun as <-. split; intros; apply Hkeep; congruence.
  - destruct (prop (VObj f) "notes") as [notes|]; [|discriminate]; cbn [rbind] in Hrun.
    destruct (as_array notes) as [arr|]; [|discriminate]; cbn [rbind] in Hrun.
    destruct (rfilter _ arr); [|discriminate]; cbn [rbind] in Hrun.
    injection Hrun as <-. split; intros; apply Hkeep; congruence.
  - destruct (prop (VObj f) "notes") as [notes|]; [|discriminate]; cbn [rbind] in Hrun.
    destruct (iterate notes) as [l|]; [|discriminate]; cbn [rbind] in Hrun.
    destruct ((ni - 1 <? 0) || (ni - 1 >=? Z.of_nat (length l)))%bool.
    + injection Hrun as <-. now split.
    + destruct (splice l (oi - 1) 1 []) as [removed notes1].
      injection Hrun as <-. split; intros; apply Hkeep; congruence.
  - injection Hrun as <-. now split.
Qed.

Lemma reducer_keeps_other_properties_witness :
  let f := own_props (sample_doc 10 [sample_note "a"]) in
  let state' := sample_doc 20 [sample_note "a"; sample_note "b"] in
  is_set_notepad (ADD_NOTE (sample_note "b")) = false
  /\ notepadReducer 20 (VObj f) (ADD_NOTE (sample_note "b")) = Ok state'
  /\ (forall k, k <> "title" -> k <> "lastUpdate" -> k <> "notes" ->
        get state' k = get (VObj f) k)
  /\ ((forall payload, ADD_NOTE (sample_note "b") <> UPDATE_TITLE payload) ->
      get state' "title" = get (VObj f) "title").
Proof.
  intros f state'.
  assert (H1 : is_set_notepad (ADD_NOTE (sample_note "b")) = false) by reflexivity.
  assert (H2 : notepadReducer 20 (VObj f) (ADD_NOTE (sample_note "b")) = Ok state')
    by reflexivity.
  repeat (split; [assumption|]).
  exact (reducer_keeps_other_properties 20 f (ADD_NOTE (sample_note "b")) state' H1 H2).
Defined.

(** X8: adding a note and then deleting it by its id gives back the notes
    there were, when no earlier note carries that id; the document carries
    the stamp of the deletion. *)
Theorem add_then_delete_restores_notes
  (t1 t2 : Z) (state : value) (notes : list value) (note : value) :
  prop state "notes" = Ok (VArr notes) ->
  non_nullish notes ->
  nullish note = false ->
  forallb (fun n => negb (has_id (get note "id") n)) notes = true ->
  has_id (get note "id") note = true ->
  exists state',
    run_reducer state [(t1, ADD_NOTE note); (t2, DELETE_NOTE (get note "id"))]
    = Ok state'
    /\ get state' "notes" = VArr notes
    /\ get state' "lastUpdate" = VNum t2.
Proof.
  intros Hnotes Hnn Hnote Hfresh Hown.
  eexists. split.
  - cbn [run_reducer]. unfold notepadReducer at 1. rewrite Hnotes.
    cbn [rbind iterate]. unfold notepadReducer. cbn [prop].
    rewrite restamped_notes. cbn [rbind as_array].
    rewrite rfilter_by_id.
    2:{ apply non_nullish_app. split; [assumption|].
        apply non_nullish_cons. now split. }
    rewrite List.filter_app. cbn [List.filter]. rewrite Hown. cbn [negb].
    rewrite app_nil_r, filter_all by assumption. reflexivity.
  - split; [apply restamped_notes|apply restamped_lastUpdate].
Qed.

Lemma add_then_delete_restores_notes_witness :
  let notes := [sample_note "a"; sample_note "b"] in
  exists state',
    run_reducer (sample_doc 10 notes)
      [(20, ADD_NOTE (sample_note "c"));
       (30, DELETE_NOTE (get (sample_note "c") "id"))]
    = Ok state'
    /\ get state' "notes" = VArr notes
    /\ get state' "lastUpdate" = VNum 30.
Proof.
  intros notes.
  apply (add_then_delete_restores_notes 20 30 (sample_doc 10 notes) notes
           (sample_note "c")); reflexivity.
Defined.


(** ** The store: writes, deletions and listings *)

Lemma put_all_lookup (data : list (string * value)) (k : string) :
  NoDup (List.map fst data) ->
  forall s,
    put_all data s !! k
    = match field k data with
      | Some v => Some v
      | None => s !! k
      end.
Proof.
  unfold put_all.
  induction data as [|[k0 v] r IH]; intros Hnd s; cbn [fold_left field fst snd];
    [reflexivity|].
  apply NoDup_cons in Hnd as [Hk0 Hnd]. rewrite (IH Hnd).
  destruct (String.eqb_spec k0 k) as [->|Hne].
  - assert (Hr : field k r = None).
    { destruct (field k r) as [w|] eqn:E; [|reflexivity]. exfalso. apply Hk0.
      clear -E. induction r as [|[k1 v1] r IH]; [discriminate|]. cbn in *.
      destruct (String.eqb_spec k1 k) as [->|_]; [left|right; auto]. }
    rewrite Hr. apply lookup_insert_eq.
  - destruct (field k r); [reflexivity|]. now apply lookup_insert_ne.
Qed.

Lemma field_In (k : string) (v : value) (f : list (string * value)) :
  field k f = Some v -> In (k, v) f.
Proof.
  induction f as [|[k0 w] r IH]; cbn; [discriminate|].
  destruct (String.eqb_spec k0 k) as [->|_]; [intros [= ->]; now left|].
  intros H. right. auto.
Qed.

(** X9: a write followed by a listing reads back what was written.  On a
    store whose records sit under their own ids, after [bulkPut] of an
    object whose properties are records named by their ids, [getAll]
    resolves to an object that holds each written record under its id and
    every other record of the store as it was; the store still keeps every
    record under its own id.  Stated for a store and a written object with nothing under
    the name [__proto__], which an assignment does not create. *)
Theorem bulkPut_then_getAll_reads_back (data : list (string * value)) (m : machine) :
  plain_library (store m) ->
  field "__proto__" data = None ->
  store_wf (store m) ->
  NoDup (List.map fst data) ->
  (forall k v, In (k, v) data -> get v "id" = VStr k) ->
  exists map m',
    (bulkPut (VObj data) ;; getAll) m = (Ok (VObj map), m')
    /\ store_wf (store m')
    /\ trace m' = trace m ++ [DbBulkPut data; DbGetAll]
    /\ forall k, field k map = match field k data with
                               | Some v => Some v
                               | None => store m !! k
                               end.
Proof.
  intros _ _ Hwf Hnd Hids.
  set (m1 := snd (bulkPut (VObj data) m)).
  assert (Hstore : store m1 = put_all data (store m)) by reflexivity.
  assert (Hwf1 : store_wf (store m1)).
  { intros k v. rewrite Hstore, put_all_lookup by assumption.
    destruct (field k data) as [w|] eqn:E.
    - intros [= ->]. apply Hids. now apply field_In.
    - apply Hwf. }
  destruct (getAll_on_wf_store m1 Hwf1) as (map & Hrun & Hmap).
  exists map, (with_trace m1 (trace m1 ++ [DbGetAll])). split; [|split; [|split]].
  - unfold bind at 1. change (bulkPut (VObj data) m) with (Ok tt, m1).
    cbv iota. exact Hrun.
  - exact Hwf1.
  - cbn. now rewrite <- app_assoc.
  - intros k. rewrite Hmap, Hstore. now apply put_all_lookup.
Qed.

Lemma bulkPut_then_getAll_reads_back_witness :
  let data := [("notepad-2", VObj [("id", VStr "notepad-2"); ("notes", VArr [])])] in
  plain_library (store sample_machine)
  /\ field "__proto__" data = None
  /\ store_wf (store sample_machine)
  /\ NoDup (List.map fst data)
  /\ (forall k v, In (k, v) data -> get v "id" = VStr k)
  /\ exists map m',
      (bulkPut (VObj data) ;; getAll) sample_machine = (Ok (VObj map), m')
      /\ store_wf (store m')
      /\ trace m' = trace sample_machine ++ [DbBulkPut data; DbGetAll]
      /\ forall k, field k map = match field k data with
                                 | Some v => Some v
                                 | None => store sample_machine !! k
                                 end.
Proof.
  intros data.
  assert (Hp : plain_library (store sample_machine)) by reflexivity.
  assert (Hd : field "__proto__" data = None) by reflexivity.
  assert (H1 : store_wf (store sample_machine)).
  { intros k v H. cbn in H. apply lookup_singleton_Some in H as [<- <-]. reflexivity. }
  assert (H2 : NoDup (List.map fst data)).
  { constructor; [intros H; inversion H|constructor]. }
  assert (H3 : forall k v, In (k, v) data -> get v "id" = VStr k).
  { intros k v [[= <- <-]|[]]. reflexivity. }
  repeat (split; [assumption|]).
  exact (bulkPut_then_getAll_reads_back data sample_machine Hp Hd H1 H2 H3).
Defined.

(** X10: [delete] removes the record under the string key it is given and
    nothing else: a listing after it misses that id and shows every other
    record as it was.  With an id that is not a string nothing is removed:
    the promise is rejected with a DataError when the id is no valid key
    (undefined, null, a boolean, an object), and resolves without effect
    when it is one (a number).  Stated for a store with nothing under the name
    [__proto__], which a lookup by name finds on every object. *)
Theorem delete_removes_one_record (m : machine) :
  plain_library (store m) ->
  store_wf (store m) ->
  (forall k,
     exists map m',
       (StorageDB.delete (VStr k) ;; getAll) m = (Ok (VObj map), m')
       /\ store_wf (store m')
       /\ field k map = None
       /\ forall k', k' <> k -> field k' map = store m !! k')
  /\ (forall id, (forall k, id <> VStr k) ->
        StorageDB.delete id m
        = (if valid_key id then Ok tt else Throw DOMException, m)).
Proof.
  intros _ Hwf. split.
  - intros k.
    set (m1 := snd (StorageDB.delete (VStr k) m)).
    assert (Hstore : store m1 = base.delete k (store m)) by reflexivity.
    assert (Hwf1 : store_wf (store m1)).
    { intros k' v. rewrite Hstore. intros H.
      apply lookup_delete_Some in H as [_ H]. now apply Hwf. }
    destruct (getAll_on_wf_store m1 Hwf1) as (map & Hrun & Hmap).
    exists map, (with_trace m1 (trace m1 ++ [DbGetAll])). split; [|split; [|split]].
    + unfold bind at 1. change (StorageDB.delete (VStr k) m) with (Ok tt, m1).
      cbv iota. exact Hrun.
    + exact Hwf1.
    + rewrite Hmap, Hstore. apply lookup_delete_eq.
    + intros k' Hne. rewrite Hmap, Hstore. now apply lookup_delete_ne.
  - intros id Hid. unfold StorageDB.delete.
    destruct (valid_key id); [|reflexivity].
    destruct id; try (destruct m; reflexivity). now destruct (Hid s).
Qed.

Lemma delete_removes_one_record_witness :
  plain_library (store sample_machine)
  /\ store_wf (store sample_machine)
  /\ exists map m',
      (StorageDB.delete (VStr "notepad-1") ;; getAll) sample_machine
      = (Ok (VObj map), m')
      /\ store_wf (store m')
      /\ field "notepad-1" map = None
      /\ forall k', k' <> "notepad-1" -> field k' map = store sample_machine !! k'.
Proof.
  assert (Hp : plain_library (store sample_machine)) by reflexivity.
  assert (H1 : store_wf (store sample_machine)).
  { intros k v H. cbn in H. apply lookup_singleton_Some in H as [<- <-]. reflexivity. }
  repeat (split; [assumption|]).
  exact (proj1 (delete_removes_one_record sample_machine Hp H1) "notepad-1").
Defined.

Lemma field_set_field_Some (k k' : string) (v w : value) (f : list (string * value)) :
  field k (set_field k' v f) = Some w ->
  (k = k' /\ w = v) \/ field k f = Some w.
Proof.
  destruct (String.eqb_spec k k') as [->|Hne].
  - rewrite field_set_field_eq. intros [= ->]. now left.
  - rewrite field_set_field_ne by assumption. now right.
Qed.

Lemma index_by_id_keys (items : list value) :
  Forall (fun v => nullish v = false) items ->
  forall acc,
    exists map,
      index_by_id items acc = Ok map
      /\ (forall k v, field k map = Some v ->
            (In v items /\ to_string (get v "id") = k) \/ field k acc = Some v)
      /\ (forall v, In v items -> is_Some (field (to_string (get v "id")) map))
      /\ (forall k, is_Some (field k acc) -> is_Some (field k map)).
Proof.
  induction 1 as [|item rest Hitem _ IH]; intros acc.
  - exists acc. split; [reflexivity|]. split; [auto|]. split; [intros v []|auto].
  - cbn [index_by_id]. rewrite (prop_of_non_nullish item "id" Hitem). cbn [rbind].
    destruct (IH (set_field (to_string (get item "id")) item acc))
      as (map & Hrun & Hkeys & Hall & Hacc).
    exists map. split; [assumption|]. split; [|split].
    + intros k v Hk. destruct (Hkeys k v Hk) as [[Hin Hid]|Hprev].
      * left. split; [now right|assumption].
      * apply field_set_field_Some in Hprev as [[-> ->]|Hprev]; [|now right].
        left. split; [now left|reflexivity].
    + intros v [<-|Hin]; [|now apply Hall].
      apply Hacc. rewrite field_set_field_eq. eauto.
    + intros k Hk. apply Hacc.
      destruct (String.eqb_spec k (to_string (get item "id"))) as [->|Hne].
      * rewrite field_set_field_eq. eauto.
      * now rewrite field_set_field_ne.
Qed.

(** X11: what [getAll] lists is keyed by the ids of the records, not by the
    keys they are stored under.  On any store without null records the
    call resolves; every property of the object it resolves to is a record
    of the store, under the name its [id] prints as; and the id of every
    record of the store is a property of that object.  Stated for records whose id does not print
    as [__proto__], a name an assignment does not create. *)
Theorem getAll_lists_records_by_their_id (m : machine) :
  (forall k v, store m !! k = Some v -> to_string (get v "id") <> "__proto__") ->
  records_not_null (store m) ->
  exists map,
    getAll m = (Ok (VObj map), with_trace m (trace m ++ [DbGetAll]))
    /\ (forall k v, field k map = Some v ->
          to_string (get v "id") = k /\ exists k0, store m !! k0 = Some v)
    /\ (forall k0 v, store m !! k0 = Some v ->
          is_Some (field (to_string (get v "id")) map)).
Proof.
  intros _ Hnn.
  assert (Hitems : Forall (fun v => nullish v = false)
                     (List.map snd (records_in_key_order (store m)))).
  { apply List.Forall_forall. intros v Hin. apply in_map_iff in Hin as ([k w] & <- & Hin).
    apply records_in_key_order_elem in Hin. now apply (Hnn k). }
  destruct (index_by_id_keys _ Hitems []) as (map & Hrun & Hkeys & Hall & _).
  exists map. split; [|split].
  - unfold getAll, bind, get_store, lift. cbn [emit store]. now rewrite Hrun.
  - intros k v Hk. destruct (Hkeys k v Hk) as [[Hin Hid]|Hnil]; [|discriminate].
    split; [assumption|]. apply in_map_iff in Hin as ([k0 w] & <- & Hin).
    exists k0. now apply records_in_key_order_elem.
  - intros k0 v Hv. apply Hall. apply in_map_iff. exists (k0, v).
    split; [reflexivity|].
    apply list_elem_of_In. unfold records_in_key_order.
    rewrite merge_sort_Permutation. now apply elem_of_map_to_list.
Qed.

Lemma getAll_lists_records_by_their_id_witness :
  let m := Machine (clock sample_machine) 0 (random sample_machine) 0
             {[ "x" := VObj [("id", VStr "y"); ("notes", VArr [])] ]} [] in
  (forall k v, store m !! k = Some v -> to_string (get v "id") <> "__proto__")
  /\ records_not_null (store m)
  /\ exists map,
      getAll m = (Ok (VObj map), with_trace m (trace m ++ [DbGetAll]))
      /\ (forall k v, field k map = Some v ->
            to_string (get v "id") = k /\ exists k0, store m !! k0 = Some v)
      /\ (forall k0 v, store m !! k0 = Some v ->
            is_Some (field (to_string (get v "id")) map)).
Proof.
  intros m.
  assert (Hp : forall k v, store m !! k = Some v -> to_string (get v "id") <> "__proto__").
  { intros k v H. cbn in H. apply lookup_singleton_Some in H as [<- <-]. discriminate. }
  assert (H1 : records_not_null (store m)).
  { intros k v H. cbn in H. apply lookup_singleton_Some in H as [<- <-]. reflexivity. }
  repeat (split; [assumption|]).
  exact (getAll_lists_records_by_their_id m Hp H1).
Defined.


(** ** Where a restore puts the entries *)

Lemma keys_set_field (k : string) (v : value) (f : list (string * value)) :
  List.map fst (set_field k v f)
  = match field k f with
    | Some _ => List.map fst f
    | None => List.map fst f ++ [k]
    end.
Proof.
  induction f as [|[k0 w] r IH]; cbn; [reflexivity|].
  destruct (String.eqb_spec k0 k) as [->|Hne]; cbn; [reflexivity|].
  rewrite IH. now destruct (field k r).
Qed.

Lemma field_None_not_key (k : string) (f : list (string * value)) :
  field k f = None -> ~ In k (List.map fst f).
Proof.
  induction f as [|[k0 w] r IH]; cbn; [tauto|].
  destruct (String.eqb_spec k0 k) as [->|Hne]; [discriminate|].
  intros H [Heq|Hin]; [congruence|]. now apply IH.
Qed.

Lemma NoDup_keys_set_field (k : string) (v : value) (f : list (string * value)) :
  NoDup (List.map fst f) -> NoDup (List.map fst (set_field k v f)).
Proof.
  intros Hnd. rewrite keys_set_field. destruct (field k f) eqn:E; [assumption|].
  apply NoDup_app. split; [assumption|]. split.
  - intros x Hx Hk. apply list_elem_of_In in Hx.
    apply list_elem_of_singleton in Hk as ->.
    now apply (field_None_not_key k f).
  - apply NoDup_singleton.
Qed.

Lemma NoDup_keys_collect (entries : list (option (string * value))) :
  forall acc, NoDup (List.map fst acc) -> NoDup (List.map fst (collect entries acc)).
Proof.
  induction entries as [|[[id notepad]|] rest IH]; intros acc Hacc; cbn [collect];
    [assumption| |now apply IH].
  apply IH. unfold assign_key.
  destruct (field id acc); [now apply NoDup_keys_set_field|].
  destruct (String.eqb id "__proto__"); [assumption|now apply NoDup_keys_set_field].
Qed.

Section RestoredKeys.
Context {platform : Platform}.

Lemma NoDup_keys_validateBackup
  (newData : value) (m m' : machine) (validatedData : list (string * value)) :
  validateBackup newData m = (Ok validatedData, m') ->
  NoDup (List.map fst validatedData).
Proof.
  unfold validateBackup, bind, ret.
  destruct (promise_all_map _ _ m) as [[entries|e] m1]; [|discriminate].
  intros [= <- _]. apply NoDup_keys_collect. constructor.
Qed.

(** The store a restore leaves, for a payload that is a backup mapping. *)
Lemma restoreFromFile_store (libraryData : value) (m : machine) :
  isBackupCollection libraryData = true ->
  exists validatedData m1,
    validateBackup libraryData (with_trace m (trace m ++ [SetIsProcessing true]))
    = (Ok validatedData, m1)
    /\ store (snd (restoreFromFile (Ok libraryData) m))
       = match validatedData with
         | [] => store m
         | _ :: _ => put_all validatedData ∅
         end.
Proof.
  intros Hbackup.
  assert (Hsingle : isSingleNotepad libraryData = false).
  { unfold isBackupCollection in Hbackup.
    destruct (isSingleNotepad libraryData); [|reflexivity].
    now rewrite andb_false_r in Hbackup. }
  destruct (validation_only_validation libraryData
              (with_trace m (trace m ++ [SetIsProcessing true])))
    as (validatedData & m1 & Hrun & Hstore & _).
  exists validatedData, m1.
  unfold validation in Hrun. rewrite Hbackup in Hrun. split; [assumption|].
  unfold restoreFromFile, bind, try_finally, try_catch, lift, dataFallbackMode.
  cbn [emit fst snd]. unfold try_catch. rewrite Hsingle. unfold bind.
  unfold validation. rewrite Hbackup.
  unfold with_trace in Hrun. rewrite Hrun. rewrite nonempty_test.
  destruct validatedData as [|entry rest]; cbn; [exact Hstore|reflexivity].
Qed.

(** X12: a restore files every kept candidate under the key it has in the
    backup mapping, whatever its own [id] says.  The record holds the
    candidate's id; when that id is not the key, deleting the notepad by
    its id leaves the record in the store.  Stated for a key other than [__proto__]. *)
Theorem restored_entries_sit_under_payload_keys
  (libraryData : value) (k : string) (m : machine) :
  k <> "__proto__" ->
  isBackupCollection libraryData = true ->
  In k (keys libraryData) ->
  passes_safeguard (get libraryData k) = true ->
  exists entry,
    store (snd (restoreFromFile (Ok libraryData) m)) !! k = Some entry
    /\ get entry "id" = get (get libraryData k) "id"
    /\ (get entry "id" <> VStr k ->
        store (snd (StorageDB.delete (get entry "id")
                      (snd (restoreFromFile (Ok libraryData) m)))) !! k
        = Some entry).
Proof.
  intros Hplain Hbackup Hin Hpass.
  destruct (restoreFromFile_store libraryData m Hbackup)
    as (validatedData & m1 & Hrun & Hstore).
  pose proof (NoDup_keys_validateBackup _ _ _ _ Hrun) as Hnd.
  destruct (validateBackup_entries libraryData
              (with_trace m (trace m ++ [SetIsProcessing true])))
    as (validatedData' & m1' & Hrun' & _ & Hentries).
  rewrite Hrun in Hrun'. injection Hrun' as <- <-.
  specialize (Hentries k).
  destruct (field k validatedData) as [entry|] eqn:Hk.
  2:{ specialize (Hentries Hin Hplain). congruence. }
  destruct Hentries as (_ & _ & notes & notes' & created & lastUpdate
                        & _ & _ & _ & _ & Hentry).
  assert (Hlookup : store (snd (restoreFromFile (Ok libraryData) m)) !! k = Some entry).
  { rewrite Hstore. destruct validatedData as [|e rest]; [discriminate|].
    rewrite put_all_lookup by assumption. now rewrite Hk. }
  exists entry. split; [assumption|]. split; [now rewrite Hentry|].
  intros Hne. unfold StorageDB.delete.
  destruct (valid_key (get entry "id")); [|exact Hlookup].
  destruct (get entry "id") as [| |b|n|s|b|l|f] eqn:Eid; try exact Hlookup.
  cbn. rewrite lookup_delete_ne by congruence. exact Hlookup.
Qed.

End RestoredKeys.

Lemma restored_entries_sit_under_payload_keys_witness :
  let libraryData :=
    VObj [("x", VObj [("id", VStr "y"); ("title", VStr "Travel");
                      ("created", VNum 5); ("lastUpdate", VNum 6);
                      ("notes", VArr [])])] in
  "x" <> "__proto__"
  /\ isBackupCollection libraryData = true
  /\ In "x" (keys libraryData)
  /\ passes_safeguard (get libraryData "x") = true
  /\ exists entry,
      store (snd (restoreFromFile (Ok libraryData) sample_machine)) !! "x" = Some entry
      /\ get entry "id" = get (get libraryData "x") "id"
      /\ (get entry "id" <> VStr "x" ->
          store (snd (StorageDB.delete (get entry "id")
                        (snd (restoreFromFile (Ok libraryData) sample_machine)))) !! "x"
          = Some entry).
Proof.
  intros libraryData.
  assert (Hp : "x" <> "__proto__") by discriminate.
  assert (H1 : isBackupCollection libraryData = true) by reflexivity.
  assert (H2 : In "x" (keys libraryData)) by (now left).
  assert (H3 : passes_safeguard (get libraryData "x") = true) by reflexivity.
  repeat (split; [assumption|]).
  exact (restored_entries_sit_under_payload_keys libraryData "x" sample_machine
           Hp H1 H2 H3).
Defined.


(** ** Generated ids *)

(** X13: the ids [generateID] builds for one prefix are told apart by the
    reading of the clock and by the random suffix: two calls whose clock
    readings differ, or whose random suffixes differ, resolve to different
    ids. *)
Theorem generateID_tells_readings_apart
  {platform : Platform} (prefix : string) (m1 m2 : machine) :
  clock m1 (ticks m1) <> clock m2 (ticks m2)
  \/ random m1 (draws m1) <> random m2 (draws m2) ->
  fst (generateID prefix m1) <> fst (generateID prefix m2).
Proof.
  intros Hdiff Heq. unfold generateID, bind, Date_now, Math_random_base36, ret in Heq.
  cbn [fst clock ticks random draws] in Heq.
  injection Heq as Heq. apply string_app_inv_head in Heq.
  rewrite !string_app_cons, !string_app_nil_l in Heq. injection Heq as Heq.
  destruct (pretty_Z_shape (clock m1 (ticks m1))) as (c1 & t1 & E1 & F1).
  destruct (pretty_Z_shape (clock m2 (ticks m2))) as (c2 & t2 & E2 & F2).
  rewrite E1, E2 in Heq. rewrite !string_app_cons in Heq. injection Heq as Hc Heq.
  apply split_at_first_dash in Heq as [Ht Hr]; [|assumption..].
  destruct Hdiff as [Hclock|Hrandom]; [|contradiction].
  apply Hclock. apply (inj pretty). rewrite E1, E2. congruence.
Qed.

Lemma generateID_tells_readings_apart_witness :
  let m2 := snd (generateID "note" sample_machine) in
  (clock sample_machine (ticks sample_machine) <> clock m2 (ticks m2)
   \/ random sample_machine (draws sample_machine) <> random m2 (draws m2))
  /\ fst (generateID "note" sample_machine) <> fst (generateID "note" m2).
Proof.
  intros m2.
  assert (H : clock sample_machine (ticks sample_machine) <> clock m2 (ticks m2)
              \/ random sample_machine (draws sample_machine) <> random m2 (draws m2)).
  { right. cbn. discriminate. }
  split; [assumption|].
  exact (generateID_tells_readings_apart "note" sample_machine m2 H).
Defined.


(** ** Names of exported files *)

Lemma to_lower_is_lower (c : ascii) : to_lower (to_lower c) = to_lower c.
Proof. destruct c as [[] [] [] [] [] [] [] []]; reflexivity. Qed.

Lemma to_lower_not_space (c : ascii) :
  is_space c = false -> is_space (to_lower c) = false.
Proof. destruct c as [[] [] [] [] [] [] [] []]; intros H; try reflexivity; discriminate H. Qed.

Lemma replace_spaces_no_space (l : list ascii) :
  forall in_run,
    forallb (fun c => negb (is_space c)) (replace_spaces in_run l) = true.
Proof.
  induction l as [|c r IH]; intros in_run; [reflexivity|].
  cbn [replace_spaces]. destruct (is_space c) eqn:E.
  - destruct in_run; [apply IH|]. cbn [forallb]. now rewrite IH.
  - cbn [forallb]. now rewrite E, IH.
Qed.

Lemma replace_spaces_nil (l : list ascii) :
  replace_spaces false l = [] -> l = [].
Proof.
  destruct l as [|c r]; [reflexivity|]. cbn [replace_spaces].
  destruct (is_space c); discriminate.
Qed.

Lemma trimStart_nil (l : list ascii) :
  trimStart l = [] <-> forallb is_space l = true.
Proof.
  induction l as [|c r IH]; [now split|]. cbn [trimStart forallb].
  destruct (is_space c); [exact IH|]. split; discriminate.
Qed.

Lemma trimStart_stable (l : list ascii) :
  forallb is_space (trimStart l) = true -> trimStart l = [].
Proof.
  induction l as [|c r IH]; [reflexivity|]. cbn [trimStart].
  destruct (is_space c) eqn:E; [exact IH|]. cbn [forallb]. now rewrite E.
Qed.

Lemma forallb_of_rev (p : ascii -> bool) (l : list ascii) :
  forallb p (rev l) = true -> forallb p l = true.
Proof.
  rewrite !forallb_forall. intros H x Hx. apply H. now apply in_rev in Hx.
Qed.

Lemma trim_nil (l : list ascii) : trim l = [] <-> forallb is_space l = true.
Proof.
  unfold trim. split.
  - intros H. apply (f_equal (@rev ascii)) in H. rewrite rev_involutive in H.
    cbn [rev] in H. apply trimStart_nil in H. apply forallb_of_rev in H.
    apply trimStart_stable in H. now apply trimStart_nil.
  - intros H. apply trimStart_nil in H. now rewrite H.
Qed.

(** X14: the name [getExportFileName] gives a single notepad.  A falsy
    title (undefined, null, the empty string) gives
    [sidenotes.sidenotes.txt].  A non-empty string title gives a stem
    followed by [.sidenotes.txt]; the stem holds no white space and no
    capital letter, and it is empty exactly when the title is white space
    only.  A truthy title that is not a string raises a TypeError, whatever
    the type asked for. *)
Theorem export_file_name_is_clean (iso : string) (type : string) :
  type <> "BACKUP" ->
  (forall title, truthy title = false ->
     getExportFileName iso title type = Ok "sidenotes.sidenotes.txt")
  /\ (forall s, s <> "" ->
        exists stem,
          getExportFileName iso (VStr s) type = Ok (stem +:+ ".sidenotes.txt")
          /\ forallb (fun c => negb (is_space c) && negb (is_upper c))
               (list_ascii_of_string stem) = true
          /\ (stem = "" <-> forallb is_space (list_ascii_of_string s) = true))
  /\ (forall title type', truthy title = true -> (forall s, title <> VStr s) ->
        getExportFileName iso title type' = Throw TypeError).
Proof.
  intros Htype. apply String.eqb_neq in Htype. split; [|split].
  - intros title Hfalsy. unfold getExportFileName. rewrite Hfalsy, Htype. reflexivity.
  - intros s Hs.
    assert (Htruthy : truthy (VStr s) = true).
    { cbn. apply negb_true_iff. now apply String.eqb_neq. }
    eexists. split; [|split].
    + unfold getExportFileName. rewrite Htruthy, Htype. reflexivity.
    + rewrite list_ascii_of_string_of_list_ascii. unfold toLowerCase.
      generalize (replace_spaces_no_space (trim (list_ascii_of_string s)) false).
      generalize (replace_spaces false (trim (list_ascii_of_string s))).
      intros l. induction l as [|c r IH]; [reflexivity|]. cbn [forallb List.map].
      intros [Hc Hr]%andb_prop. apply negb_true_iff in Hc.
      rewrite (to_lower_not_space c Hc). unfold is_upper.
      rewrite to_lower_is_lower, Ascii.eqb_refl. cbn [negb andb]. now apply IH.
    + rewrite <- trim_nil. split.
      * intros H. apply (f_equal list_ascii_of_string) in H.
        rewrite list_ascii_of_string_of_list_ascii in H. cbn in H.
        apply map_eq_nil in H. now apply replace_spaces_nil in H.
      * intros ->. reflexivity.
  - intros title type' Htruthy Hnot. unfold getExportFileName. rewrite Htruthy.
    destruct title; try reflexivity. now destruct (Hnot s).
Qed.

Lemma export_file_name_is_clean_witness :
  "NOTE" <> "BACKUP"
  /\ "  Shopping  List 2024 " <> ""
  /\ getExportFileName "2026-03-01T10:00:00.000Z" (VStr "  Shopping  List 2024 ") "NOTE"
     = Ok "shopping_list_2024.sidenotes.txt"
  /\ exists stem,
      getExportFileName "2026-03-01T10:00:00.000Z" (VStr "  Shopping  List 2024 ") "NOTE"
      = Ok (stem +:+ ".sidenotes.txt")
      /\ forallb (fun c => negb (is_space c) && negb (is_upper c))
           (list_ascii_of_string stem) = true
      /\ (stem = "" <->
          forallb is_space (list_ascii_of_string "  Shopping  List 2024 ") = true).
Proof.
  assert (H1 : "NOTE" <> "BACKUP") by discriminate.
  assert (H2 : "  Shopping  List 2024 " <> "") by discriminate.
  repeat (split; [assumption|]). split; [reflexivity|].
  exact (proj1 (proj2 (export_file_name_is_clean "2026-03-01T10:00:00.000Z" "NOTE" H1))
           "  Shopping  List 2024 " H2).
Defined.


(** ** The processing flag *)

Lemma last_flag_app (evs1 evs2 : list event) (acc : option bool) :
  last_flag (evs1 ++ evs2) acc = last_flag evs2 (last_flag evs1 acc).
Proof.
  revert acc. induction evs1 as [|e r IH]; intros acc; [reflexivity|].
  destruct e; cbn [app last_flag]; apply IH.
Qed.

Lemma last_flag_set (evs : list event) (b : bool) (acc : option bool) :
  last_flag evs None = Some b -> last_flag evs acc = Some b.
Proof.
  revert acc. induction evs as [|e r IH] using rev_ind; intros acc; [discriminate|].
  rewrite !last_flag_app. destruct e; cbn [last_flag]; auto.
Qed.

Lemma last_flag_no_flag (evs : list event) (acc : option bool) :
  no_flag evs -> last_flag evs acc = acc.
Proof.
  unfold no_flag. revert acc. induction evs as [|e r IH]; intros acc; [reflexivity|].
  destruct e; cbn [forallb is_flag negb andb last_flag]; try discriminate; apply IH.
Qed.

Lemma settles_emits_only {A} (q : event -> bool) (c : M A) (r : result A) :
  settles c r -> (forall e, is_decoding_event e = true -> q e = true) ->
  emits_only q c.
Proof.
  intros Hc Hq m. destruct (Hc m) as (evs & Hrun & Hdec). exists evs.
  rewrite Hrun. split; [reflexivity|].
  clear -Hdec Hq. induction evs as [|e r IH]; [reflexivity|].
  cbn [forallb] in *. apply andb_prop in Hdec as [He Hr].
  now rewrite (Hq e He), IH.
Qed.

(** [setIsProcessing(true); try { c } finally { setIsProcessing(false) }]
    around a [c] that never sets the flag and never raises. *)
Lemma flag_bracket (c : M unit) (m : machine) :
  emits_only (fun e => negb (is_flag e)) c ->
  (forall m0, fst (c m0) = Ok tt) ->
  exists evs,
    fst ((emit (SetIsProcessing true) ;;
          try_finally c (emit (SetIsProcessing false))) m) = Ok tt
    /\ trace (snd ((emit (SetIsProcessing true) ;;
                    try_finally c (emit (SetIsProcessing false))) m))
       = trace m ++ [SetIsProcessing true] ++ evs ++ [SetIsProcessing false]
    /\ no_flag evs.
Proof.
  intros Hc Hok. unfold bind, try_finally. cbn [emit].
  match goal with |- context [c ?m0] =>
    destruct (Hc m0) as (evs & Ht & He); specialize (Hok m0);
    destruct (c m0) as [r m1] end.
  cbn [fst snd trace] in *. exists evs. subst r. cbn [fst snd trace].
  split; [reflexivity|]. split; [|exact He].
  rewrite Ht. now rewrite <- !app_assoc.
Qed.

Lemma caught_returns (c : M unit) (h : exn -> M unit) :
  (forall e m, fst (h e m) = Ok tt) ->
  forall m, fst (try_catch c h m) = Ok tt.
Proof.
  intros Hh m. unfold try_catch. destruct (c m) as [[[]|e] m1]; [reflexivity|].
  apply Hh.
Qed.

Section Flag.
Context {platform : Platform}.
Variable shareLocalFile : value -> string -> string -> value -> M value.
Variable iso : string.
Hypothesis share_sets_no_flag :
  forall data filename contentType title,
    emits_only (fun e => negb (is_flag e))
      (shareLocalFile data filename contentType title).

(** X15: [shareSingleNotepad] never rejects.  A notepad that is falsy or
    whose id is not a non-empty string is turned down with an error on the
    console and nothing else: the flag is not touched and nothing is
    shared.  Otherwise [setIsProcessing(true)] comes first and
    [setIsProcessing(false)] last, with no call of [setIsProcessing] in
    between, whether the notes serialize, the title makes a file name and
    the sharing succeeds, or not. *)
Theorem share_guards_then_brackets_the_flag (notepad : value) (m : machine) :
  (if truthy notepad && truthy (get notepad "id")
      && String.eqb (typeof (get notepad "id")) "string"
   then
     exists evs,
       fst (shareSingleNotepad shareLocalFile iso notepad m) = Ok tt
       /\ trace (snd (shareSingleNotepad shareLocalFile iso notepad m))
          = trace m ++ [SetIsProcessing true] ++ evs ++ [SetIsProcessing false]
       /\ no_flag evs
   else
     shareSingleNotepad shareLocalFile iso notepad m
     = (Ok tt, with_trace m (trace m
                             ++ [ConsoleError "Invalid notepad object provided to share."]))).
Proof.
  unfold shareSingleNotepad.
  destruct (truthy notepad); cbn [negb orb andb]; [|reflexivity].
  destruct (truthy (get notepad "id")); cbn [negb orb andb]; [|reflexivity].
  destruct (String.eqb (typeof (get notepad "id")) "string"); cbn [negb];
    [|reflexivity].
  apply flag_bracket.
  - apply emits_only_try_catch.
    + apply emits_only_bind.
      * eapply settles_emits_only; [apply settles_cleanPayload|].
        intros [] H; try discriminate H; reflexivity.
      * intros payload. apply emits_only_bind; [apply emits_only_lift|].
        intros filename. apply emits_only_bind; [apply share_sets_no_flag|].
        intros _. apply emits_only_ret.
    + intros e. apply emits_only_bind; [now apply emits_only_emit|].
      intros _. now apply emits_only_emit.
  - apply caught_returns. reflexivity.
Qed.

(** X17: on a store of which no record is null or undefined (on such a
    record the handler of the request of [getAll] raises and its promise is
    never settled), [backupFullLibrary] never rejects, and brackets what it
    does between [setIsProcessing(true)] and [setIsProcessing(false)], with
    no call of [setIsProcessing] in between, whatever else the library
    holds and whether the sharing succeeds or not. *)
Theorem backup_brackets_the_flag (m : machine) :
  records_not_null (store m) ->
  exists evs,
    fst (backupFullLibrary shareLocalFile iso m) = Ok tt
    /\ trace (snd (backupFullLibrary shareLocalFile iso m))
       = trace m ++ [SetIsProcessing true] ++ evs ++ [SetIsProcessing false]
    /\ no_flag evs.
Proof.
  intros _. unfold backupFullLibrary. apply flag_bracket.
  - apply emits_only_try_catch.
    + apply emits_only_bind.
      * unfold backupPayload, getAll.
        repeat (apply emits_only_bind; [|intros ?]); auto with emits.
        apply emits_only_promise_all. intros entry. unfold serializeEntry.
        apply emits_only_bind; [apply emits_only_lift|]. intros notes.
        apply emits_only_bind; [|intros ?; apply emits_only_ret].
        eapply settles_emits_only; [apply settles_serializeNotes|].
        intros [] H; try discriminate H; reflexivity.
      * intros payload. apply emits_only_bind; [apply emits_only_lift|].
        intros filename. apply emits_only_bind; [apply share_sets_no_flag|].
        intros _. apply emits_only_ret.
    + intros e. apply emits_only_bind; [now apply emits_only_emit|].
      intros _. now apply emits_only_emit.
  - apply caught_returns. reflexivity.
Qed.

End Flag.

Lemma downloading_share_sets_no_flag (data : value) (filename contentType : string)
  (title : value) :
  emits_only (fun e => negb (is_flag e))
    (downloading_share data filename contentType title).
Proof. apply emits_only_ret. Qed.

Lemma share_guards_then_brackets_the_flag_witness :
  (forall data filename contentType title,
     emits_only (fun e => negb (is_flag e))
       (downloading_share data filename contentType title))
  /\ exists evs,
      fst (shareSingleNotepad downloading_share "2026-03-01T10:00:00.000Z"
             notepad_with_picture sample_machine) = Ok tt
      /\ trace (snd (shareSingleNotepad downloading_share "2026-03-01T10:00:00.000Z"
                       notepad_with_picture sample_machine))
         = trace sample_machine ++ [SetIsProcessing true] ++ evs
             ++ [SetIsProcessing false]
      /\ no_flag evs.
Proof.
  split; [exact downloading_share_sets_no_flag|].
  exact (share_guards_then_brackets_the_flag downloading_share
           "2026-03-01T10:00:00.000Z" downloading_share_sets_no_flag
           notepad_with_picture sample_machine).
Defined.

Lemma machine_with_picture_records_not_null :
  records_not_null (store machine_with_picture).
Proof.
  intros k v H. cbn [store machine_with_picture] in H.
  apply lookup_singleton_Some in H as [<- <-]. reflexivity.
Defined.

Lemma backup_brackets_the_flag_witness :
  (forall data filename contentType title,
     emits_only (fun e => negb (is_flag e))
       (downloading_share data filename contentType title))
  /\ records_not_null (store machine_with_picture)
  /\ exists evs,
      fst (backupFullLibrary downloading_share "2026-03-01T10:00:00.000Z"
             machine_with_picture) = Ok tt
      /\ trace (snd (backupFullLibrary downloading_share "2026-03-01T10:00:00.000Z"
                       machine_with_picture))
         = trace machine_with_picture ++ [SetIsProcessing true] ++ evs
             ++ [SetIsProcessing false]
      /\ no_flag evs.
Proof.
  split; [exact downloading_share_sets_no_flag|].
  split; [exact machine_with_picture_records_not_null|].
  exact (backup_brackets_the_flag downloading_share "2026-03-01T10:00:00.000Z"
           downloading_share_sets_no_flag machine_with_picture
           machine_with_picture_records_not_null).
Defined.


(** *** The flag after an import *)

Lemma on_return_bind {A B} (c : M A) (k : A -> M B) (P : list event -> B -> Prop) :
  emits_only (fun _ => true) c ->
  (forall a, on_return (k a) P) ->
  (forall pre evs b, P evs b -> P (pre ++ evs) b) ->
  on_return (bind c k) P.
Proof.
  intros Hc Hk Hpre m. destruct (Hc m) as (evs & Ht & _). unfold bind.
  destruct (c m) as [[a|e] m1]; cbn [fst snd] in *.
  - destruct (Hk a m1) as (evs' & Ht' & HP). exists (evs ++ evs'). split.
    + now rewrite Ht', Ht, <- app_assoc.
    + intros b Hb. apply Hpre. now apply HP.
  - exists evs. split; [assumption|]. discriminate.
Qed.

Lemma on_return_throws {A} (c : M A) (P : list event -> A -> Prop) :
  emits_only (fun _ => true) c ->
  (forall m, exists e, fst (c m) = Throw e) ->
  on_return c P.
Proof.
  intros Hc Hthrow m. destruct (Hc m) as (evs & Ht & _). exists evs.
  split; [assumption|]. intros a Ha. destruct (Hthrow m) as [e He]. congruence.
Qed.

Section ImportFlag.
Context {platform : Platform}.

Lemma import_outcome_prefix (pre evs : list event) (outcome : option dialog) :
  import_outcome evs outcome -> import_outcome (pre ++ evs) outcome.
Proof.
  intros [Hflag Hd]. split; [|assumption].
  rewrite last_flag_app. now apply last_flag_set.
Qed.

Lemma saveToDatabase_releases (target : value) (m : machine) :
  fst (saveToDatabase target m) = Ok tt
  /\ trace (snd (saveToDatabase target m))
     = trace m ++ [DbBulkPut [(to_string (get target "id"), target)];
                   OnOpenNotepad target; SetIsProcessing false; OnClose].
Proof.
  split; [reflexivity|]. cbn. now rewrite <- !app_assoc.
Qed.

(** The part of [importSingleNotepad] inside [try]. *)
Lemma import_body_outcome (parsed : result value) :
  on_return
    (let* notepadData := lift parsed in
     let* backup := lift (isBackup notepadData) in
     if backup then
       emit (Alert backup_file_message) ;;
       emit (SetIsProcessing false) ;;
       ret None
     else if negb (truthy notepadData) || negb (truthy (get notepadData "notes")) then
       emit (SetIsProcessing false) ;;
       throw (Error "Invalid structure")
     else
       let* notepad := hydrateNotepad notepadData in
       let* currentLibrary := getAll in
       let isDuplicate := truthy_at currentLibrary (to_string (get notepad "id")) in
       if isDuplicate then
         emit (SetIsProcessing false) ;;
         openDialog (collisionDialog notepad) ;;
         ret (Some (collisionDialog notepad))
       else
         saveToDatabase notepad ;;
         ret None)
    import_outcome.
Proof.
  apply on_return_bind; [apply emits_only_lift| |apply import_outcome_prefix].
  intros notepadData.
  apply on_return_bind; [apply emits_only_lift| |apply import_outcome_prefix].
  intros [|].
  { intros m. exists [Alert backup_file_message; SetIsProcessing false]. split.
    - cbn. now rewrite <- !app_assoc.
    - intros a [= <-]. split; [reflexivity|discriminate]. }
  destruct (negb (truthy notepadData) || negb (truthy (get notepadData "notes"))).
  { intros m. exists [SetIsProcessing false]. split; [reflexivity|discriminate]. }
  apply on_return_bind; [|intros notepad|apply import_outcome_prefix].
  { now apply emits_only_hydrateNotepad. }
  apply on_return_bind; [|intros currentLibrary|apply import_outcome_prefix].
  { unfold getAll. repeat (apply emits_only_bind; [|intros ?]); auto with emits. }
  cbv zeta. destruct (truthy_at currentLibrary (to_string (get notepad "id"))).
  - intros m.
    exists [SetIsProcessing false;
            OpenDialog (dialog_message (collisionDialog notepad))
              (List.map fst (dialog_actions (collisionDialog notepad)))].
    split.
    + cbn. now rewrite <- !app_assoc.
    + intros a [= <-]. split; [reflexivity|]. intros d [= <-]. eauto.
  - intros m.
    exists [DbBulkPut [(to_string (get notepad "id"), notepad)];
            OnOpenNotepad notepad; SetIsProcessing false; OnClose].
    split.
    + cbn. now rewrite <- !app_assoc.
    + intros a [= <-]. split; [reflexivity|discriminate].
Qed.

Lemma import_run (parsed : result value) (m : machine) :
  exists outcome evs mf,
    importSingleNotepad parsed m = (Ok outcome, mf)
    /\ trace mf = trace m ++ evs
    /\ import_outcome evs outcome.
Proof.
  unfold importSingleNotepad. unfold bind at 1.
  set (m0 := with_trace m (trace m ++ [SetIsProcessing true])).
  change (emit (SetIsProcessing true) m) with (Ok tt, m0). cbv beta iota.
  unfold try_catch.
  destruct (import_body_outcome parsed m0) as (evs & Ht & Hout).
  match type of Ht with context [snd ?run] =>
    destruct run as [[outcome|e] m1] end;
    cbn [fst snd trace m0 with_trace] in *.
  - destruct (Hout outcome eq_refl) as [Hflag Hdialog].
    exists outcome, (SetIsProcessing true :: evs), m1. split; [reflexivity|].
    split; [rewrite Ht; now rewrite <- app_assoc|].
    split; [cbn [last_flag]; now apply last_flag_set|assumption].
  - eexists None,
      (SetIsProcessing true :: evs
       ++ [SetIsProcessing false; Alert "Import failed: Invalid file format.";
           ConsoleError ""]), _.
    split; [reflexivity|]. split.
    + cbn. rewrite Ht. now rewrite <- !app_assoc.
    + split; [|discriminate].
      cbn [last_flag]. rewrite last_flag_app. reflexivity.
Qed.

(** X16: an import never rejects and never leaves the processing flag
    set.  Whatever the file, on a store of which no record is null or
    undefined (on such a record the handler of the request of [getAll]
    raises and its promise is never settled), the callback of
    [importSingleNotepad] resolves, and the last call of [setIsProcessing]
    it makes passes [false].  If it leaves a dialog open, the dialog is the
    one about a collision, and pressing any of its buttons resolves too,
    with [false] the last value given to the flag. *)
Theorem import_always_releases_the_flag (parsed : result value) (m : machine) :
  records_not_null (store m) ->
  exists outcome evs,
    fst (importSingleNotepad parsed m) = Ok outcome
    /\ trace (snd (importSingleNotepad parsed m)) = trace m ++ evs
    /\ last_flag evs None = Some false
    /\ forall d label m',
         outcome = Some d ->
         In label (List.map fst (dialog_actions d)) ->
         exists evs',
           fst (press d label m') = Ok tt
           /\ trace (snd (press d label m')) = trace m' ++ evs'
           /\ last_flag evs' None = Some false.
Proof.
  intros _.
  destruct (import_run parsed m) as (outcome & evs & mf & Hrun & Ht & Hflag & Hdialog).
  exists outcome, evs. rewrite Hrun. cbn [fst snd].
  split; [reflexivity|]. split; [assumption|]. split; [assumption|].
  intros d label m' -> Hlabel. destruct (Hdialog d eq_refl) as [notepad ->].
  cbn [collisionDialog dialog_actions List.map fst] in Hlabel.
  destruct Hlabel as [<-|[<-|[<-|[]]]].
  - unfold press.
    cbn [collisionDialog dialog_actions action_labelled String.eqb Ascii.eqb Bool.eqb].
    unfold generateID, bind at 1. unfold bind at 1. cbn [Date_now].
    unfold bind at 1. cbn [Math_random_base36 ret].
    match goal with |- context [saveToDatabase ?t ?m0] =>
      destruct (saveToDatabase_releases t m0) as [Hok Htr];
      exists [DbBulkPut [(to_string (get t "id"), t)];
              OnOpenNotepad t; SetIsProcessing false; OnClose] end.
    split; [exact Hok|]. split; [exact Htr|reflexivity].
  - unfold press.
    cbn [collisionDialog dialog_actions action_labelled String.eqb Ascii.eqb Bool.eqb].
    destruct (saveToDatabase_releases notepad m') as [Hok Htr].
    exists [DbBulkPut [(to_string (get notepad "id"), notepad)];
            OnOpenNotepad notepad; SetIsProcessing false; OnClose].
    split; [exact Hok|]. split; [exact Htr|reflexivity].
  - exists [SetIsProcessing false]. split; [reflexivity|]. split; reflexivity.
Qed.

End ImportFlag.

Lemma sample_records_not_null : records_not_null (store sample_machine).
Proof.
  intros k v H. cbn [store sample_machine] in H.
  apply lookup_singleton_Some in H as [<- <-]. reflexivity.
Defined.

Lemma import_always_releases_the_flag_witness :
  records_not_null (store sample_machine)
  /\ exists outcome evs,
      fst (importSingleNotepad (Ok colliding_file) sample_machine) = Ok outcome
      /\ trace (snd (importSingleNotepad (Ok colliding_file) sample_machine))
         = trace sample_machine ++ evs
      /\ last_flag evs None = Some false.
Proof.
  split; [exact sample_records_not_null|].
  destruct (import_always_releases_the_flag (Ok colliding_file) sample_machine
              sample_records_not_null)
    as (outcome & evs & Hok & Htrace & Hflag & _).
  exists outcome, evs. auto.
Defined.


(** ** A backup followed by a restore *)

Lemma NoDup_keys_fold_set_field (recs : list (string * value)) :
  forall acc,
    NoDup (List.map fst acc) ->
    NoDup (List.map fst
             (fold_left (fun a kv => set_field (fst kv) (snd kv) a) recs acc)).
Proof.
  induction recs as [|[k v] r IH]; intros acc Hacc; cbn [fold_left]; [assumption|].
  apply IH. now apply NoDup_keys_set_field.
Qed.

Lemma field_of_member (k : string) (v : value) (f : list (string * value)) :
  NoDup (List.map fst f) -> In (k, v) f -> field k f = Some v.
Proof.
  induction f as [|[k0 w] r IH]; intros Hnd Hin; [destruct Hin|].
  cbn [List.map fst] in Hnd. apply NoDup_cons in Hnd as [Hk0 Hnd].
  cbn [field]. destruct Hin as [[= -> ->]|Hin].
  - now rewrite String.eqb_refl.
  - destruct (String.eqb_spec k0 k) as [->|_]; [|auto].
    exfalso. apply Hk0. apply list_elem_of_In.
    change k with (fst (k, v)). now apply in_map.
Qed.

Lemma field_is_Some (k : string) (f : list (string * value)) :
  is_Some (field k f) <-> In k (List.map fst f).
Proof.
  induction f as [|[k0 w] r IH]; cbn [field List.map fst In].
  - split; [intros [? [=]]|tauto].
  - destruct (String.eqb_spec k0 k) as [->|Hne].
    + split; eauto.
    + rewrite IH. split; [auto|]. intros [?|?]; [congruence|assumption].
Qed.

Lemma all_results_Forall2 {X A} (g : X -> result A) (l : list X) (out : list A) :
  Forall2 (fun x y => g x = Ok y) l out -> all_results (List.map g l) = Ok out.
Proof.
  induction 1 as [|x y l out Hx _ IH]; [reflexivity|].
  cbn [List.map all_results]. now rewrite Hx, IH.
Qed.

(** The listing of a store whose records sit under their own ids. *)
Lemma getAll_listing (m : machine) :
  store_wf (store m) ->
  getAll m = (Ok (VObj (listing (store m))), with_trace m (trace m ++ [DbGetAll]))
  /\ (forall k, field k (listing (store m)) = store m !! k)
  /\ NoDup (List.map fst (listing (store m))).
Proof.
  intros Hwf. unfold listing. split; [|split].
  - unfold getAll, bind, get_store, lift. cbn [emit store].
    rewrite index_by_id_own_keys; [reflexivity|].
    intros k v Hin. apply Hwf. now apply records_in_key_order_elem.
  - intros k. rewrite field_fold_set_field by apply NoDup_records_in_key_order.
    rewrite field_records_in_key_order. now destruct (store m !! k).
  - apply NoDup_keys_fold_set_field. constructor.
Qed.

Section BackupRestore.
Context {platform : Platform}.

Lemma settles_serializeEntry (entry : string * value) :
  settles (serializeEntry entry) (serialized_entry entry).
Proof.
  unfold serializeEntry, serialized_entry.
  apply settles_rbind; [apply settles_lift|]. intros notes.
  apply settles_rbind; [apply settles_serializeNotes|]. intros s.
  apply settles_ret.
Qed.

(** What [backupPayload] resolves to. *)
Lemma backupPayload_run (m : machine) :
  store_wf (store m) ->
  exists map m1,
    backupPayload m
    = (let? entries := all_results (List.map serialized_entry map) in
       Ok (VObj (fromEntries entries)), m1)
    /\ store m1 = store m
    /\ (forall k, field k map = store m !! k)
    /\ NoDup (List.map fst map).
Proof.
  intros Hwf. destruct (getAll_listing m Hwf) as (Hrun & Hmap & Hnd).
  set (map := listing (store m)) in *.
  destruct (settles_promise_all serializeEntry serialized_entry map
              settles_serializeEntry (with_trace m (trace m ++ [DbGetAll])))
    as (evs & Hall & _).
  exists map. eexists. split; [|split; [|split; assumption]].
  - unfold backupPayload. unfold bind at 1. rewrite Hrun. cbn [own_props].
    unfold bind at 1. rewrite Hall.
    destruct (all_results (List.map serialized_entry map)); reflexivity.
  - reflexivity.
Qed.

Lemma serialized_stored_note (note : value) :
  stored_note note -> exists s, serialized_note note = Ok s.
Proof.
  intros [_ Hmem]. destruct (note_round_trip note Hmem) as (s & _ & Hs & _). eauto.
Qed.

(** The entries of the backup of a library of stored notepads. *)
Lemma serialized_entries_of_library (entries : list (string * value)) :
  (forall k notepad, In (k, notepad) entries -> stored_notepad k notepad) ->
  exists out,
    all_results (List.map serialized_entry entries) = Ok out
    /\ List.map fst out = List.map fst entries
    /\ forall k candidate,
         In (k, candidate) out ->
         exists notepad notes sl,
           In (k, notepad) entries
           /\ get notepad "notes" = VArr notes
           /\ Forall stored_note notes
           /\ Forall2 (fun n s => serialized_note n = Ok s) notes sl
           /\ candidate = VObj (set_field "notes" (VArr sl) (own_props notepad)).
Proof.
  induction entries as [|[k notepad] r IH]; intros Hst.
  - exists []. split; [reflexivity|]. split; [reflexivity|]. intros ? ? [].
  - destruct IH as (out & Hout & Hkeys & Hcand).
    { intros k' np' Hin. apply Hst. now right. }
    destruct (Hst k notepad (or_introl eq_refl)) as (_ & notes & Hnotes & Hall).
    assert (Hsl : exists sl, Forall2 (fun n s => serialized_note n = Ok s) notes sl).
    { clear -Hall. induction Hall as [|n l Hn _ [sl IH]]; [exists []; constructor|].
      destruct (serialized_stored_note n Hn) as [s Hs]. exists (s :: sl).
      now constructor. }
    destruct Hsl as [sl Hsl].
    assert (Hobj : exists f, notepad = VObj f).
    { destruct notepad; cbn in Hnotes; try discriminate; eauto;
        rewrite ?element_notes in Hnotes; discriminate. }
    destruct Hobj as [f ->].
    exists ((k, VObj (set_field "notes" (VArr sl) f)) :: out). split; [|split].
    + cbn [List.map all_results]. rewrite Hout. unfold serialized_entry.
      cbn [snd fst prop]. rewrite Hnotes. cbn [rbind serialized].
      rewrite (all_results_Forall2 _ _ _ Hsl). reflexivity.
    + cbn [List.map fst]. now rewrite Hkeys.
    + intros k' candidate [[= <- <-]|Hin].
      * exists (VObj f), notes, sl. repeat split; auto. now left.
      * destruct (Hcand k' candidate Hin) as (np & ns & sl' & H1 & H2).
        exists np, ns, sl'. split; [now right|assumption].
Qed.

(** One note through the backup and the restore. *)
Lemma note_through_backup (clk : nat -> Z) (rnd : nat -> string)
  (note s out : value) :
  stored_note note ->
  serialized_note note = Ok s ->
  backfilled_note clk rnd s out ->
  restored_note note out.
Proof.
  intros [[nf ->] [_ Hblob]] Hs (id & Hid & ->).
  unfold serialized_note in Hs. cbn [prop rbind] in Hs.
  destruct (opt_prop (get (VObj nf) "attachment") "blob") as [| | | |str|b| |] eqn:Hb;
    try (injection Hs as <-; cbn [own_props] in *;
         split; [reflexivity|]; split;
         [intros Ht; unfold defaulted_id in Hid; rewrite Ht in Hid; exact Hid|];
         repeat (split; [reflexivity|]);
         change (content_eq (restored_attachment (get (VObj nf) "attachment"))
                   (js_or (get (VObj nf) "attachment") VNull));
         unfold restored_attachment; rewrite Hb; cbn [truthy typeof andb String.eqb];
         rewrite ?andb_false_r; apply content_eq_refl).
  - contradiction.
  - destruct (blob_of_attachment _ _ Hb ltac:(discriminate)) as (af & Hatt & Hfield).
    destruct (data_url_decodes b Hblob) as (b' & Hdec & Hbytes).
    destruct Hblob as [Hprefix _].
    rewrite Hatt in Hs. cbn [own_props] in Hs. injection Hs as <-.
    cbn [own_props] in *.
    assert (Hnf : field "attachment" nf = Some (VObj af)).
    { cbn [get] in Hatt. destruct (field "attachment" nf); cbn in Hatt;
        [now subst|discriminate]. }
    split; [reflexivity|]. split.
    { intros Ht. unfold defaulted_id in Hid.
      rewrite get_set_field_ne in Hid by discriminate. rewrite Ht in Hid. exact Hid. }
    rewrite !get_set_field_ne by discriminate.
    repeat (split; [reflexivity|]).
    match goal with |- content_eq (get (VObj ?l) "attachment") _ =>
      change (get (VObj l) "attachment")
        with (restored_attachment
                (get (VObj (set_field "attachment"
                              (VObj (set_field "blob" (VStr (readAsDataURL b)) af)) nf))
                     "attachment")) end.
    rewrite get_set_field_eq.
    unfold restored_attachment. cbn [opt_prop]. rewrite get_set_field_eq.
    assert (Htruthy : truthy (VStr (readAsDataURL b)) = true).
    { cbn. destruct (readAsDataURL b); [discriminate Hprefix|reflexivity]. }
    rewrite Htruthy. cbn [typeof andb assign]. rewrite String.eqb_refl.
    rewrite Hdec, set_field_set_field. rewrite Hatt. cbn [js_or truthy].
    eapply content_eq_set_field; [exact Hfield|]. now apply content_eq_blob.
Qed.

Lemma notes_through_backup (clk : nat -> Z) (rnd : nat -> string)
  (notes sl notes' : list value) :
  Forall stored_note notes ->
  Forall2 (fun n s => serialized_note n = Ok s) notes sl ->
  Forall2 (backfilled_note clk rnd) sl notes' ->
  Forall2 restored_note notes notes'.
Proof.
  intros Hst Hs. revert notes'.
  induction Hs as [|n s notes sl Hn _ IH]; intros notes' Hb; inversion Hb; subst.
  - constructor.
  - apply Forall_cons in Hst as [Hn0 Hst]. constructor; [|now apply IH].
    now apply (note_through_backup clk rnd n s).
Qed.

(** X18: a backup followed by a restore gives the library back.  On a
    library whose notepads sit under their own, non-empty ids and hold
    notes as the application holds them, restoring from the object
    [backupFullLibrary] prints, on any device, leaves a store with the
    same ids; under each the notepad has its id and its title (or
    "Untitled Notepad"), its dates when it had them, and note for note the
    id, title, content, colour and attachment there were, the attachment
    blobs holding the same bytes.  Taking the backup leaves the store as
    it is.  Stated for a store with nothing under the name
    [__proto__], which a lookup by name finds on every object. *)
Theorem backup_then_restore_gives_the_library_back (m m2 : machine) :
  plain_library (store m) ->
  store_wf (store m) ->
  (forall k notepad, store m !! k = Some notepad -> stored_notepad k notepad) ->
  store m <> ∅ ->
  exists payload m1,
    backupPayload m = (Ok payload, m1)
    /\ store m1 = store m
    /\ (forall k, is_Some (store (snd (restoreFromFile (Ok payload) m2)) !! k)
                  <-> is_Some (store m !! k))
    /\ (forall k notepad,
          store m !! k = Some notepad ->
          exists entry,
            store (snd (restoreFromFile (Ok payload) m2)) !! k = Some entry
            /\ restored_notepad k notepad entry).
Proof.
  intros Hplain Hwf Hstored Hne.
  destruct (backupPayload_run m Hwf) as (map & m1 & Hrun & Hstore & Hmap & Hnd).
  assert (Hin : forall k notepad, In (k, notepad) map -> store m !! k = Some notepad).
  { intros k np H. rewrite <- Hmap. now apply field_of_member. }
  destruct (serialized_entries_of_library map) as (out & Hout & Hkeys & Hcand).
  { intros k np H. apply Hstored. now apply Hin. }
  rewrite Hout in Hrun. cbn [rbind] in Hrun.
  assert (Hndout : NoDup (List.map fst out)) by now rewrite Hkeys.
  assert (Hfield : forall k, field k (fromEntries out) = field k out).
  { intros k. unfold fromEntries. rewrite field_fold_set_field by assumption.
    now destruct (field k out). }
  set (payload := VObj (fromEntries out)) in *.
  assert (Hpayload : forall k,
            match store m !! k with
            | Some notepad =>
                exists notes sl,
                  get notepad "notes" = VArr notes
                  /\ Forall stored_note notes
                  /\ Forall2 (fun n s => serialized_note n = Ok s) notes sl
                  /\ field k (fromEntries out)
                     = Some (VObj (set_field "notes" (VArr sl) (own_props notepad)))
            | None => field k (fromEntries out) = None
            end).
  { intros k. rewrite Hfield. destruct (store m !! k) as [notepad|] eqn:Hk.
    - assert (Hsome : is_Some (field k out)).
      { apply field_is_Some. rewrite Hkeys. apply field_is_Some.
        rewrite Hmap, Hk. eauto. }
      destruct Hsome as [candidate Hc]. rewrite Hc.
      destruct (Hcand k candidate (field_In _ _ _ Hc))
        as (np & notes & sl & Hnp & Hnotes & Hst & Hsl & ->).
      apply Hin in Hnp. rewrite Hk in Hnp. injection Hnp as <-.
      exists notes, sl. auto.
    - destruct (field k out) as [candidate|] eqn:Hc; [|reflexivity].
      exfalso. assert (Hsome : is_Some (field k map)).
      { apply field_is_Some. rewrite <- Hkeys. apply field_is_Some. eauto. }
      rewrite Hmap, Hk in Hsome. now destruct Hsome. }
  assert (Hbackup : isBackupCollection payload = true).
  { unfold isBackupCollection, isSingleNotepad, payload. cbn [truthy typeof andb get].
    specialize (Hpayload "notes").
    destruct (store m !! "notes") as [np|].
    - destruct Hpayload as (notes & sl & _ & _ & _ & ->). reflexivity.
    - rewrite Hpayload. reflexivity. }
  destruct (restoreFromFile_store payload m2 Hbackup)
    as (validatedData & m3 & Hval & Hrestored).
  pose proof (NoDup_keys_validateBackup _ _ _ _ Hval) as Hndval.
  destruct (validateBackup_entries payload
              (with_trace m2 (trace m2 ++ [SetIsProcessing true])))
    as (validatedData' & m3' & Hval' & _ & Hentries).
  rewrite Hval in Hval'. injection Hval' as <- <-.
  assert (Hkept : forall k notepad,
            store m !! k = Some notepad ->
            exists entry,
              field k validatedData = Some entry /\ restored_notepad k notepad entry).
  { intros k notepad Hk. specialize (Hpayload k). rewrite Hk in Hpayload.
    destruct Hpayload as (notes & sl & Hnotes & Hst & Hsl & Hcandidate).
    destruct (Hstored k notepad Hk) as [Hkne _].
    assert (Hobj : exists f, notepad = VObj f).
    { apply (state_with_notes_is_object notepad notes).
      destruct notepad; try discriminate Hnotes; cbn [prop]; now rewrite Hnotes. }
    destruct Hobj as [f ->]. cbn [own_props] in Hcandidate.
    assert (Hidk : get (VObj f) "id" = VStr k) by now apply Hwf.
    assert (Hget : get payload k = VObj (set_field "notes" (VArr sl) f)).
    { unfold payload. cbn [get]. now rewrite Hcandidate. }
    assert (Hpass : passes_safeguard (get payload k) = true).
    { rewrite Hget. unfold passes_safeguard. cbn [truthy andb].
      rewrite get_set_field_ne by discriminate. rewrite Hidk, get_set_field_eq.
      cbn [truthy isArray]. rewrite andb_true_r. apply negb_true_iff.
      now apply String.eqb_neq. }
    specialize (Hentries k).
    destruct (field k validatedData) as [entry|].
    2:{ exfalso. rewrite Hentries in Hpass; [discriminate| |].
        - apply field_is_Some. unfold payload. cbn [own_props].
          rewrite Hcandidate. eauto.
        - intros ->. unfold plain_library in Hplain. congruence. }
    destruct Hentries as (_ & _ & notes0 & notes' & created & lastUpdate
                          & Hn0 & Hnotes' & Hcreated & HlastUpdate & ->).
    rewrite Hget in *. rewrite get_set_field_eq in Hn0. injection Hn0 as <-.
    rewrite !get_set_field_ne in * by discriminate.
    exists (VObj [("id", get (VObj f) "id");
                  ("title", js_or (get (VObj f) "title") (VStr "Untitled Notepad"));
                  ("created", created); ("lastUpdate", lastUpdate);
                  ("notes", VArr notes')]).
    split; [reflexivity|]. split; [exact Hidk|]. split; [reflexivity|]. split.
    { intros Ht. unfold defaulted_time in Hcreated. rewrite Ht in Hcreated.
      exact Hcreated. }
    split.
    { intros Ht. unfold defaulted_time in HlastUpdate. rewrite Ht in HlastUpdate.
      exact HlastUpdate. }
    exists notes, notes'. split; [assumption|]. split; [reflexivity|].
    eapply notes_through_backup; eassumption. }
  assert (Hnonempty : validatedData <> []).
  { destruct (map_choose (store m) Hne) as (k & notepad & Hk).
    destruct (Hkept k notepad Hk) as (entry & Hentry & _).
    intros ->. discriminate Hentry. }
  assert (Hlookup : forall k,
            store (snd (restoreFromFile (Ok payload) m2)) !! k = field k validatedData).
  { intros k. rewrite Hrestored. destruct validatedData as [|e r]; [congruence|].
    rewrite put_all_lookup by assumption. now destruct (field k (e :: r)). }
  exists payload, m1. split; [exact Hrun|]. split; [exact Hstore|]. split.
  - intros k. rewrite Hlookup. split.
    + intros [entry Hentry]. specialize (Hentries k). rewrite Hentry in Hentries.
      destruct Hentries as (Hkey & _). apply field_is_Some in Hkey.
      unfold payload in Hkey. cbn [own_props] in Hkey.
      specialize (Hpayload k). destruct (store m !! k); [eauto|].
      rewrite Hpayload in Hkey. now destruct Hkey.
    + intros [notepad Hk]. destruct (Hkept k notepad Hk) as (entry & Hentry & _).
      eauto.
  - intros k notepad Hk. destruct (Hkept k notepad Hk) as (entry & Hentry & Hres).
    exists entry. rewrite Hlookup. auto.
Qed.

End BackupRestore.

Lemma backup_then_restore_gives_the_library_back_witness :
  plain_library (store machine_with_picture)
  /\ store_wf (store machine_with_picture)
  /\ (forall k notepad,
        store machine_with_picture !! k = Some notepad -> stored_notepad k notepad)
  /\ store machine_with_picture <> ∅
  /\ exists payload m1,
      backupPayload machine_with_picture = (Ok payload, m1)
      /\ store m1 = store machine_with_picture
      /\ (forall k, is_Some (store (snd (restoreFromFile (Ok payload) sample_machine)) !! k)
                    <-> is_Some (store machine_with_picture !! k))
      /\ (forall k notepad,
            store machine_with_picture !! k = Some notepad ->
            exists entry,
              store (snd (restoreFromFile (Ok payload) sample_machine)) !! k = Some entry
              /\ restored_notepad k notepad entry).
Proof.
  assert (Hp : plain_library (store machine_with_picture)) by reflexivity.
  assert (H1 : store_wf (store machine_with_picture)).
  { intros k v H. cbn in H. apply lookup_singleton_Some in H as [<- <-]. reflexivity. }
  assert (H2 : forall k notepad,
             store machine_with_picture !! k = Some notepad -> stored_notepad k notepad).
  { intros k v H. cbn in H. apply lookup_singleton_Some in H as [<- <-].
    split; [discriminate|]. eexists. split; [reflexivity|].
    constructor; [|constructor; [|constructor]].
    - split; [eexists; reflexivity|]. split; [reflexivity|].
      exact sample_blob_round_trips.
    - split; [eexists; reflexivity|]. split; [reflexivity|exact I]. }
  assert (H3 : store machine_with_picture <> ∅).
  { cbn. apply insert_non_empty. }
  repeat (split; [assumption|]).
  exact (backup_then_restore_gives_the_library_back machine_with_picture sample_machine
           Hp H1 H2 H3).
Defined.


(** ** The list of notepads *)

Lemma insert_by_lastUpdate_Permutation (x : value) (l : list value) :
  insert_by_lastUpdate x l ≡ₚ x :: l.
Proof.
  induction l as [|y r IH]; [reflexivity|]. cbn [insert_by_lastUpdate].
  destruct (compare_lastUpdate x y <=? 0); [reflexivity|].
  rewrite IH. apply Permutation_swap.
Qed.

Lemma sort_by_lastUpdate_Permutation (l : list value) :
  sort_by_lastUpdate l ≡ₚ l.
Proof.
  induction l as [|x r IH]; [reflexivity|]. cbn [sort_by_lastUpdate].
  rewrite insert_by_lastUpdate_Permutation. now rewrite IH.
Qed.

Lemma element_id (l : list value) : element l "id" = VUndefined.
Proof. reflexivity. Qed.

Lemma record_with_id_is_object (v : value) (k : string) :
  get v "id" = VStr k -> exists f, v = VObj f.
Proof.
  destruct v as [| |b|n|s|b|elems|f]; cbn [get];
    change (String.eqb "id" "length") with false;
    change (String.eqb "id" "size") with false;
    change (String.eqb "id" "type") with false; cbv iota;
    rewrite ?element_id; try discriminate.
  eauto.
Qed.

Lemma at_index_member (l : list value) (i : Z) :
  at_index l i = VUndefined \/ In (at_index l i) l.
Proof.
  unfold at_index.
  destruct (Z.leb_spec 0 i) as [Hlow|]; [|now left].
  destruct (Z.ltb_spec i (Z.of_nat (length l))) as [Hhigh|]; [|now left].
  right. apply nth_In. lia.
Qed.

(** The choice [l[i] || l[i - 1] || l[0]] among records that are objects. *)
Lemma next_notepad_choice (l : list value) (i : Z) :
  l <> [] ->
  (forall v, In v l -> truthy v = true) ->
  let next := js_or (js_or (at_index l i) (at_index l (i - 1))) (at_index l 0) in
  truthy next = true /\ In next l.
Proof.
  intros Hne Hall. cbv zeta.
  assert (H0 : In (at_index l 0) l).
  { destruct l as [|x r]; [congruence|]. now left. }
  assert (Hmem : forall j, truthy (at_index l j) = true -> In (at_index l j) l).
  { intros j Ht. destruct (at_index_member l j) as [Hu|Hin]; [|assumption].
    rewrite Hu in Ht. discriminate. }
  unfold js_or.
  destruct (truthy (at_index l i)) eqn:Hi; cbv iota.
  - rewrite Hi. auto.
  - destruct (truthy (at_index l (i - 1))) eqn:Hp; cbv iota.
    + auto.
    + destruct (truthy (at_index l 0)) eqn:H0t; [auto|].
      destruct l as [|x r]; [congruence|].
      change (at_index (x :: r) 0) with x in H0t.
      rewrite (Hall x (or_introl eq_refl)) in H0t. discriminate.
Qed.

Lemma findIndex_on_non_nullish (id : value) (l : list value) :
  non_nullish l ->
  exists r,
    findIndex (fun n => let? j := prop n "id" in Ok (strict_eq j id)) l = Ok r.
Proof.
  intros Hnn. destruct (findIndex_from_in_range id l 0 Hnn) as (r & Hr & _). eauto.
Qed.

(** X19: what the button "Delete" of the list of notepads does.  The
    record under the id goes and the list is refreshed.  When the notepad
    deleted is the one that is open: if no notepad is left a new one is
    created; otherwise one of the notepads that are left is opened, never
    the one that was deleted.  When it is not the open one, nothing is
    opened nor created.  Stated for a store with nothing under the name
    [__proto__], which a lookup by name finds on every object. *)
Theorem deleting_the_open_notepad_opens_one_that_is_left
  (notepads : list value) (activeNotepadId : value) (k : string) (m : machine) :
  plain_library (store m) ->
  non_nullish notepads ->
  store_wf (store m) ->
  exists calls m',
    deleteNotepad notepads activeNotepadId (VStr k) m = (Ok calls, m')
    /\ store m' = delete k (store m)
    /\ (activeNotepadId <> VStr k -> calls = [Refresh])
    /\ (activeNotepadId = VStr k -> delete k (store m) = ∅ ->
        calls = [Refresh; CreateNotepad true])
    /\ (activeNotepadId = VStr k -> delete k (store m) <> ∅ ->
        exists k' next,
          k' <> k /\ store m !! k' = Some next
          /\ calls = [Refresh; OpenNotepad next]).
Proof.
  intros _ Hnn Hwf.
  destruct (findIndex_on_non_nullish (VStr k) notepads Hnn) as [index Hindex].
  set (m1 := snd (StorageDB.delete (VStr k) m)).
  assert (Hstore : store m1 = delete k (store m)) by reflexivity.
  assert (Hwf1 : store_wf (store m1)).
  { intros k' v. rewrite Hstore. intros H.
    apply lookup_delete_Some in H as [_ H]. now apply Hwf. }
  destruct (getAll_listing m1 Hwf1) as (Hrun & Hmap & Hnd).
  set (map := listing (store m1)) in *.
  set (updatedList := sort_by_lastUpdate (values (VObj map))).
  assert (Hmember : forall v, In v updatedList ->
            exists k', k' <> k /\ store m !! k' = Some v).
  { intros v Hv. apply list_elem_of_In in Hv. unfold updatedList in Hv.
    rewrite sort_by_lastUpdate_Permutation in Hv. apply list_elem_of_In in Hv.
    unfold values in Hv. cbn [own_props] in Hv.
    apply in_map_iff in Hv as ([k' w] & <- & Hin). exists k'.
    apply (field_of_member _ _ _ Hnd) in Hin. rewrite Hmap, Hstore in Hin.
    now apply lookup_delete_Some in Hin. }
  assert (Hempty : updatedList = [] <-> delete k (store m) = ∅).
  { split.
    - intros Hnil. apply map_empty. intros k'. rewrite <- Hstore, <- Hmap.
      destruct (field k' map) as [v|] eqn:E; [|reflexivity]. exfalso.
      apply field_In in E. assert (Hin : In v updatedList).
      { apply list_elem_of_In. unfold updatedList.
        rewrite sort_by_lastUpdate_Permutation. apply list_elem_of_In.
        unfold values. cbn [own_props]. apply in_map_iff. now exists (k', v). }
      rewrite Hnil in Hin. destruct Hin.
    - intros He. destruct updatedList as [|v r] eqn:E; [reflexivity|]. exfalso.
      destruct (Hmember v (or_introl eq_refl)) as (k' & Hne & Hk').
      assert (Hl : delete k (store m) !! k' = Some v)
        by (apply lookup_delete_Some; auto).
      rewrite He in Hl. now rewrite lookup_empty in Hl. }
  assert (Hrunall :
            deleteNotepad notepads activeNotepadId (VStr k) m
            = (Ok (if strict_eq (VStr k) activeNotepadId then
                     if Z.of_nat (length updatedList) =? 0
                     then [Refresh; CreateNotepad true]
                     else
                       if truthy (js_or (js_or (at_index updatedList index)
                                           (at_index updatedList (index - 1)))
                                    (at_index updatedList 0))
                       then [Refresh;
                             OpenNotepad
                               (js_or (js_or (at_index updatedList index)
                                         (at_index updatedList (index - 1)))
                                  (at_index updatedList 0))]
                       else [Refresh]
                   else [Refresh]),
               with_trace m1 (trace m1 ++ [DbGetAll]))).
  { unfold deleteNotepad. rewrite Hindex. unfold bind at 1, lift. cbv iota beta.
    unfold bind at 1. change (StorageDB.delete (VStr k) m) with (Ok tt, m1).
    cbv iota beta. unfold bind at 1. rewrite Hrun. cbv zeta. fold updatedList.
    destruct (strict_eq (VStr k) activeNotepadId); [|reflexivity].
    destruct (Z.of_nat (length updatedList) =? 0); [reflexivity|].
    destruct (truthy _); reflexivity. }
  eexists _, _. split; [exact Hrunall|]. split; [exact Hstore|].
  split; [|split].
  - intros Hne. destruct activeNotepadId as [| | | |s| | |]; try reflexivity.
    cbn [strict_eq]. destruct (String.eqb_spec k s) as [->|_]; [congruence|reflexivity].
  - intros -> He. cbn [strict_eq]. rewrite String.eqb_refl.
    apply Hempty in He. rewrite He. reflexivity.
  - intros -> Hne. cbn [strict_eq]. rewrite String.eqb_refl.
    assert (Hlist : updatedList <> []) by (intros H; now apply Hempty in H).
    destruct (Z.eqb_spec (Z.of_nat (length updatedList)) 0) as [Hz|_].
    { destruct updatedList; [congruence|discriminate Hz]. }
    destruct (next_notepad_choice updatedList index Hlist) as [Htruthy Hin].
    { intros v Hv. destruct (Hmember v Hv) as (k' & _ & Hk').
      destruct (record_with_id_is_object v k' (Hwf k' v Hk')) as [f ->]. reflexivity. }
    rewrite Htruthy. destruct (Hmember _ Hin) as (k' & Hk & Hnext).
    exists k'. eexists. split; [exact Hk|]. split; [exact Hnext|reflexivity].
Qed.

Lemma deleting_the_open_notepad_opens_one_that_is_left_witness :
  let notepads := [sample_doc 10 [sample_note "a"]] in
  plain_library (store machine_with_two_notepads)
  /\ non_nullish notepads
  /\ store_wf (store machine_with_two_notepads)
  /\ exists calls m',
      deleteNotepad notepads (VStr "notepad-1") (VStr "notepad-1")
        machine_with_two_notepads = (Ok calls, m')
      /\ store m' = delete "notepad-1" (store machine_with_two_notepads)
      /\ (VStr "notepad-1" <> VStr "notepad-1" -> calls = [Refresh])
      /\ (VStr "notepad-1" = VStr "notepad-1" ->
          delete "notepad-1" (store machine_with_two_notepads) = ∅ ->
          calls = [Refresh; CreateNotepad true])
      /\ (VStr "notepad-1" = VStr "notepad-1" ->
          delete "notepad-1" (store machine_with_two_notepads) <> ∅ ->
          exists k' next,
            k' <> "notepad-1"
            /\ store machine_with_two_notepads !! k' = Some next
            /\ calls = [Refresh; OpenNotepad next]).
Proof.
  intros notepads.
  assert (Hp : plain_library (store machine_with_two_notepads)) by reflexivity.
  assert (H1 : non_nullish notepads) by reflexivity.
  assert (H2 : store_wf (store machine_with_two_notepads)).
  { intros k v H. cbn in H. apply lookup_insert_Some in H as [[<- <-]|[_ H]];
      [reflexivity|]. apply lookup_singleton_Some in H as [<- <-]. reflexivity. }
  repeat (split; [assumption|]).
  exact (deleting_the_open_notepad_opens_one_that_is_left notepads (VStr "notepad-1")
           "notepad-1" machine_with_two_notepads Hp H1 H2).
Defined.


(** ** Start-up *)

(** The head of the sorted list carries the greatest stamp. *)
Lemma sort_by_lastUpdate_head (l : list value) :
  (forall v, In v l -> exists n, get v "lastUpdate" = VNum n) ->
  l <> [] ->
  exists h rest n,
    sort_by_lastUpdate l = h :: rest
    /\ get h "lastUpdate" = VNum n
    /\ forall v n', In v l -> get v "lastUpdate" = VNum n' -> n' <= n.
Proof.
  induction l as [|x r IH]; intros Hnum Hne; [congruence|].
  destruct (Hnum x (or_introl eq_refl)) as [nx Hx].
  destruct r as [|y r'].
  - exists x, [], nx. split; [reflexivity|]. split; [assumption|].
    intros v n' [<-|[]] Hv. rewrite Hx in Hv. injection Hv as <-. lia.
  - destruct IH as (h & rest & n & Hsort & Hh & Hmax);
      [intros v Hv; apply Hnum; now right|discriminate|].
    cbn [sort_by_lastUpdate] in *. rewrite Hsort. cbn [insert_by_lastUpdate].
    unfold compare_lastUpdate. rewrite Hh, Hx.
    destruct (Z.leb_spec (n - nx) 0) as [Hle|Hgt].
    + exists x, (h :: rest), nx. split; [reflexivity|]. split; [assumption|].
      intros v n' [<-|Hv] Hn'.
      * rewrite Hx in Hn'. injection Hn' as <-. lia.
      * specialize (Hmax v n' Hv Hn'). lia.
    + exists h, (insert_by_lastUpdate x rest), n. split; [reflexivity|].
      split; [assumption|].
      intros v n' [<-|Hv] Hn'.
      * rewrite Hx in Hn'. injection Hn' as <-. lia.
      * exact (Hmax v n' Hv Hn').
Qed.

Lemma library_wf_store_wf (s : gmap string value) : library_wf s -> store_wf s.
Proof. intros H k v Hk. now apply H. Qed.

(** The records [getAll] lists are the records of the store. *)
Lemma listing_values (s : gmap string value) (v : value) :
  store_wf s ->
  In v (values (VObj (listing s))) <-> exists k, s !! k = Some v.
Proof.
  intros Hwf.
  pose (m := Machine (fun _ => 0) 0 (fun _ => "") 0 s []).
  destruct (getAll_listing m Hwf) as (_ & Hmap & Hnd). cbn [store m] in *.
  unfold values. cbn [own_props]. split.
  - intros Hin. apply in_map_iff in Hin as ([k w] & <- & Hin). exists k.
    rewrite <- Hmap. now apply field_of_member.
  - intros [k Hk]. rewrite <- Hmap in Hk. apply field_In in Hk.
    apply in_map_iff. now exists (k, v).
Qed.

Section StartUp.
Context {platform : Platform}.

Lemma refreshNotepadsList_run (st : app_state) (m : machine) :
  store_wf (store m) ->
  refreshNotepadsList st m
  = (Ok tt,
     App (app_notepad st) (sort_by_lastUpdate (values (VObj (listing (store m)))))
         (app_availableColors st) (app_title st),
     with_trace m (trace m ++ [DbGetAll])).
Proof.
  intros Hwf. destruct (getAll_listing m Hwf) as (Hrun & _).
  unfold refreshNotepadsList, atry_catch, abind, arun. rewrite Hrun. reflexivity.
Qed.

(** [fillNotepad] installs the notepad before anything in it can raise. *)
Lemma fillNotepad_installs (f : list (string * value)) (st : app_state) (m : machine) :
  exists r st' m',
    fillNotepad (VObj f) st m = (r, st', m')
    /\ app_notepad st' = VObj f
    /\ app_notepadsList st' = app_notepadsList st
    /\ store m' = store m.
Proof.
  unfold fillNotepad, abind, dispatch, arun, lift, setAvailableColors,
    set_document_title.
  cbn [Date_now notepadReducer own_props].
  destruct (let? notes := prop (VObj f) "notes" in _) as [usedColors|e];
    eexists _, _, _; (split; [reflexivity|]); repeat split.
Qed.

(** X20: what the application opens at start-up.  On a library whose
    records sit under their own ids with numbers as stamps, the start-up
    effect never raises and leaves the store as it is; the list of
    notepads holds the records of the store; when the store is not empty
    the notepad opened is a record of the store whose [lastUpdate] is the
    greatest; when it is empty a new notepad is opened, with a generated
    id, the default title, the current time as [created] and [lastUpdate]
    and one empty note.  Stated for a store with nothing under the name
    [__proto__], which a lookup by name finds on every object. *)
Theorem start_up_opens_the_most_recent_notepad (st : app_state) (m : machine) :
  plain_library (store m) ->
  library_wf (store m) ->
  exists st' m',
    init st m = (Ok tt, st', m')
    /\ store m' = store m
    /\ (forall v, In v (app_notepadsList st') <-> exists k, store m !! k = Some v)
    /\ (store m <> ∅ ->
        exists k n,
          store m !! k = Some (app_notepad st')
          /\ get (app_notepad st') "lastUpdate" = VNum n
          /\ forall k' v n',
               store m !! k' = Some v -> get v "lastUpdate" = VNum n' -> n' <= n)
    /\ (store m = ∅ ->
        app_notepad st'
        = VObj [("id", VStr ("notepad-" +:+ pretty (clock m (S (ticks m))) +:+ "-"
                             +:+ random m (draws m)));
                ("title", VStr "New notepad");
                ("created", VNum (clock m (ticks m)));
                ("lastUpdate", VNum (clock m (ticks m)));
                ("notes",
                 VArr [VObj [("id", VStr ("note-"
                                          +:+ pretty (clock m (S (S (ticks m))))
                                          +:+ "-" +:+ random m (S (draws m))));
                             ("title", VStr "New note"); ("content", VStr "");
                             ("accentColor", VStr ""); ("collapsed", VBool false)]])]).
Proof.
  intros _ Hlib. pose proof (library_wf_store_wf _ Hlib) as Hwf.
  set (m1 := with_trace m (trace m ++ [DbGetAll])).
  set (l := sort_by_lastUpdate (values (VObj (listing (store m))))).
  assert (Hmem : forall v, In v l <-> exists k, store m !! k = Some v).
  { intros v. unfold l. rewrite <- (listing_values (store m) v Hwf).
    split; intros H; apply list_elem_of_In; apply list_elem_of_In in H.
    - now rewrite sort_by_lastUpdate_Permutation in H.
    - now rewrite sort_by_lastUpdate_Permutation. }
  destruct (getAll_listing m1 Hwf) as (Hrun1 & _). cbn [m1 store with_trace] in Hrun1.
  fold m1 in Hrun1. fold l in Hrun1.
  assert (Hstart : init st m
            = atry_catch
                (if truthy (at_index l 0) then fillNotepad (at_index l 0)
                 else createNewNotepad true)
                (fun err => arun (emit (ConsoleError "Database initialisation failed")))
                (App (app_notepad st) l (app_availableColors st) (app_title st))
                (with_trace m1 (trace m1 ++ [DbGetAll]))).
  { unfold init, atry_catch. unfold abind at 1.
    rewrite (refreshNotepadsList_run st m Hwf). fold l. fold m1.
    unfold abind at 1, arun at 1. rewrite Hrun1. reflexivity. }
  destruct (decide (store m = ∅)) as [Hempty|Hne].
  - assert (Hl : l = []).
    { destruct l as [|v r] eqn:E; [reflexivity|]. exfalso.
      destruct (proj1 (Hmem v) (or_introl eq_refl)) as [k Hk].
      rewrite Hempty in Hk. now rewrite lookup_empty in Hk. }
    rewrite Hl in *. change (truthy (at_index [] 0)) with false in Hstart.
    cbv iota in Hstart.
    eexists _, _. split; [rewrite Hstart; reflexivity|].
    split; [reflexivity|]. split; [cbn [app_notepadsList]; exact Hmem|].
    split; [congruence|]. intros _. reflexivity.
  - assert (Hlne : l <> []).
    { intros Hl. destruct (map_choose (store m) Hne) as (k & v & Hk).
      assert (Hin : In v l) by (apply Hmem; eauto). rewrite Hl in Hin. destruct Hin. }
    destruct (sort_by_lastUpdate_head (values (VObj (listing (store m)))))
      as (h & rest & n & Hsort & Hh & Hmax).
    { intros v Hv. apply (listing_values _ _ Hwf) in Hv as [k Hk].
      now destruct (Hlib k v Hk). }
    { intros Hnil. apply Hlne. unfold l. now rewrite Hnil. }
    fold l in Hsort.
    assert (Hhead : at_index l 0 = h) by (rewrite Hsort; reflexivity).
    destruct (proj1 (Hmem h)) as [k Hk]; [rewrite Hsort; now left|].
    destruct (record_with_id_is_object h k (Hwf k h Hk)) as [f Hf].
    rewrite Hhead, Hf in Hstart. cbn [truthy] in Hstart.
    destruct (fillNotepad_installs f
                (App (app_notepad st) l (app_availableColors st) (app_title st))
                (with_trace m1 (trace m1 ++ [DbGetAll])))
      as (r & st1 & m2 & Hfill & Hopened & Hlist & Hstore).
    unfold atry_catch in Hstart. rewrite Hfill in Hstart.
    assert (Hdone : exists m', init st m = (Ok tt, st1, m') /\ store m' = store m).
    { destruct r as [[]|e]; eexists; (split; [exact Hstart|]); exact Hstore. }
    destruct Hdone as (m' & Hinit & Hstore').
    exists st1, m'. split; [exact Hinit|]. split; [exact Hstore'|].
    split; [rewrite Hlist; exact Hmem|]. split; [|congruence].
    intros _. exists k, n. rewrite Hopened, <- Hf. split; [exact Hk|].
    split; [exact Hh|].
    intros k' v n' Hv Hn'. apply (Hmax v n'); [|assumption].
    apply (listing_values _ _ Hwf). eauto.
Qed.

End StartUp.

Lemma start_up_opens_the_most_recent_notepad_witness :
  plain_library (store machine_with_two_notepads)
  /\ library_wf (store machine_with_two_notepads)
  /\ exists st' m',
      init initial_app machine_with_two_notepads = (Ok tt, st', m')
      /\ store m' = store machine_with_two_notepads
      /\ (forall v, In v (app_notepadsList st')
                    <-> exists k, store machine_with_two_notepads !! k = Some v)
      /\ (store machine_with_two_notepads <> ∅ ->
          exists k n,
            store machine_with_two_notepads !! k = Some (app_notepad st')
            /\ get (app_notepad st') "lastUpdate" = VNum n
            /\ forall k' v n',
                 store machine_with_two_notepads !! k' = Some v ->
                 get v "lastUpdate" = VNum n' -> n' <= n).
Proof.
  assert (H1 : library_wf (store machine_with_two_notepads)).
  { intros k v H. cbn in H. apply lookup_insert_Some in H as [[<- <-]|[_ H]].
    - split; [reflexivity|]. now exists 10.
    - apply lookup_singleton_Some in H as [<- <-]. split; [reflexivity|]. now exists 30. }
  assert (Hp : plain_library (store machine_with_two_notepads)) by reflexivity.
  repeat (split; [assumption|]).
  destruct (start_up_opens_the_most_recent_notepad initial_app
              machine_with_two_notepads Hp H1)
    as (st' & m' & Hrun & Hstore & Hlist & Hlast & _).
  exists st', m'. auto.
Defined.


(** ** Debounced calls *)

(** With one timer waiting, under the handle the hook remembers. *)
Lemma debounced_run_one_waiting
  (delay : Z) (calls : list (Z * value)) (finish : Z) :
  0 <= delay ->
  forall (t0 : Z) (a0 : value) (handle next : Z) (done : list value),
    0 < handle -> 0 < next ->
    in_time_order ((t0, a0) :: calls) finish ->
    invoked (debounced_run delay calls finish
               (Debounce (VNum handle) [Timer handle (t0 + delay) a0] next done))
    = done ++ followed_by_quiet delay ((t0, a0) :: calls) finish.
Proof.
  intros Hdelay. induction calls as [|[t1 a1] rest IH];
    intros t0 a0 handle next done Hhandle Hnext Horder.
  - cbn [debounced_run followed_by_quiet elapse waiting invoked List.filter timer_due].
    destruct (t0 + delay <=? finish); reflexivity.
  - cbn [in_time_order] in Horder. destruct Horder as [H01 Horder].
    assert (Htruthy : truthy (VNum handle) = true).
    { cbn. destruct (Z.eqb_spec handle 0); [lia|reflexivity]. }
    assert (Hstep :
              debouncedFunction delay t1 a1
                (Debounce (VNum handle) [Timer handle (t0 + delay) a0] next done)
              = Debounce (VNum next) [Timer next (t1 + delay) a1] (next + 1)
                  (done ++ if t0 + delay <=? t1 then [a0] else [])).
    { unfold debouncedFunction, elapse, clearTimeout, setTimeout.
      cbn [waiting invoked List.filter timer_due timer_current next_handle].
      rewrite Htruthy. rewrite (Z.max_l delay 0) by lia.
      destruct (t0 + delay <=? t1);
        cbn [negb List.filter List.map sort_by_due insert_by_due timer_args
               timer_handle strict_eq waiting invoked next_handle timer_current];
        rewrite ?Z.eqb_refl; reflexivity. }
    cbn [debounced_run]. rewrite Hstep.
    rewrite (IH t1 a1 next (next + 1) _ Hnext ltac:(lia) Horder).
    cbn [followed_by_quiet]. destruct (t0 + delay <=? t1);
      rewrite <- ?app_assoc, ?app_nil_r; reflexivity.
Qed.

Lemma burst_forwards_the_last (delay : Z) (calls : list (Z * value)) (finish : Z) :
  burst delay calls ->
  forall t a, last calls = Some (t, a) -> t + delay <= finish ->
    followed_by_quiet delay calls finish = [a].
Proof.
  induction calls as [|[t0 a0] rest IH]; intros Hburst t a Hlast Hfinish;
    [discriminate|].
  cbn [burst] in Hburst. destruct Hburst as [Hgap Hburst].
  cbn [followed_by_quiet]. destruct rest as [|[t1 a1] rest'].
  - cbn in Hlast. injection Hlast as <- <-.
    destruct (Z.leb_spec (t0 + delay) finish); [reflexivity|lia].
  - destruct (Z.leb_spec (t0 + delay) t1); [lia|].
    apply (IH Hburst t a); [|assumption].
    now rewrite last_cons_cons in Hlast.
Qed.

(** X21: what a debounced function forwards.  For calls at times that do
    not go back, the callback is invoked with the arguments of exactly the
    calls that are followed by [delay] of quiet, in their order, and with
    nothing else.  A burst of calls, each less than [delay] after the one
    before, followed by [delay] of quiet, makes one invocation, with the
    arguments of the last call. *)
Theorem debounce_forwards_calls_followed_by_quiet
  (delay : Z) (calls : list (Z * value)) (finish : Z) :
  0 <= delay ->
  in_time_order calls finish ->
  invoked (debounced_run delay calls finish useDebounce)
  = followed_by_quiet delay calls finish
  /\ (burst delay calls ->
      forall t a, last calls = Some (t, a) -> t + delay <= finish ->
        invoked (debounced_run delay calls finish useDebounce) = [a]).
Proof.
  intros Hdelay Horder.
  assert (Hrun : invoked (debounced_run delay calls finish useDebounce)
                 = followed_by_quiet delay calls finish).
  { destruct calls as [|[t0 a0] rest]; [reflexivity|].
    cbn [debounced_run].
    assert (Hfirst : debouncedFunction delay t0 a0 useDebounce
                     = Debounce (VNum 1) [Timer 1 (t0 + delay) a0] 2 []).
    { unfold debouncedFunction, useDebounce, elapse, setTimeout.
      cbn [waiting invoked List.filter List.map sort_by_due timer_current truthy
             next_handle app].
      now rewrite (Z.max_l delay 0) by lia. }
    rewrite Hfirst.
    now rewrite (debounced_run_one_waiting delay rest finish Hdelay t0 a0 1 2 []
                   ltac:(lia) ltac:(lia) Horder). }
  split; [exact Hrun|].
  intros Hburst t a Hlast Hfinish. rewrite Hrun.
  now apply (burst_forwards_the_last delay calls finish Hburst t a).
Qed.

Lemma debounce_forwards_calls_followed_by_quiet_witness :
  let calls := [(0, VStr "s"); (100, VStr "si"); (250, VStr "sid"); (900, VStr "side")] in
  0 <= 300
  /\ in_time_order calls 1300
  /\ invoked (debounced_run 300 calls 1300 useDebounce) = [VStr "sid"; VStr "side"]
  /\ invoked (debounced_run 300 calls 1300 useDebounce)
     = followed_by_quiet 300 calls 1300.
Proof.
  intros calls.
  assert (H1 : 0 <= 300) by lia.
  assert (H2 : in_time_order calls 1300) by (cbn; lia).
  repeat (split; [assumption|]). split; [reflexivity|].
  exact (proj1 (debounce_forwards_calls_followed_by_quiet 300 calls 1300 H1 H2)).
Defined.


(** ** The neighbour of a deleted notepad *)



#[local] Instance key_order_total :
  Total (fun a b : string * value => Is_true (String.leb (fst a) (fst b))).
Proof. intros a b. apply (String.le_total (fst a) (fst b)). Qed.

#[local] Instance key_order_transitive :
  Transitive (fun a b : string * value => Is_true (String.leb (fst a) (fst b))).
Proof.
  intros a b c Hab Hbc.
  exact (@transitivity _ String.le _ (fst a) (fst b) (fst c) Hab Hbc).
Qed.









Section Neighbour.
Context (s : gmap string value) (k : string) (np : value).
Hypothesis Hlib : library_wf s.
Hypothesis Hk : s !! k = Some np.

Local Abbreviation L := (sort_by_lastUpdate (values (VObj (listing s)))).
Local Abbreviation L' := (sort_by_lastUpdate (values (VObj (listing (delete k s))))).








End Neighbour.






(** ** What [dataFallbackMode] catches *)

Section Fallback.
Context {platform : Platform}.

(** X23: nothing in a payload makes the validation raise.  For every
    parsed file [dataFallbackMode] resolves; its [catch], with the alert
    "The file format is invalid.", is reached only when the callback it is
    given raises; then the validated set was not empty, and the error is
    logged and reported as an invalid file format.  The callback is run
    only on a payload that is not a single notepad, with a validated set
    that is not empty. *)
Theorem dataFallbackMode_fails_only_with_its_callback
  (newData : value) (callbackAction : value -> M unit) (m : machine) :
  fst (dataFallbackMode newData callbackAction m) = Ok tt
  /\ (isSingleNotepad newData = true ->
      dataFallbackMode newData callbackAction m
      = (Ok tt, with_trace m (trace m ++ [Alert single_notepad_message])))
  /\ (isSingleNotepad newData = false ->
      exists validatedData m1,
        validation newData m = (Ok validatedData, m1)
        /\ match validatedData with
           | [] =>
               dataFallbackMode newData callbackAction m
               = (Ok tt, with_trace m1 (trace m1 ++ [Alert "No valid backup data found."]))
           | _ :: _ =>
               match callbackAction (VObj validatedData) m1 with
               | (Ok _, m2) =>
                   dataFallbackMode newData callbackAction m = (Ok tt, m2)
               | (Throw _, m2) =>
                   dataFallbackMode newData callbackAction m
                   = (Ok tt,
                      with_trace m2
                        (trace m2 ++ [ConsoleError "Data validation failed:";
                                      Alert "The file format is invalid."]))
               end
           end).
Proof.
  destruct (validation_only_validation newData m) as (validatedData & m1 & Hrun & _).
  assert (Hrest : isSingleNotepad newData = false ->
            match validatedData with
            | [] =>
                dataFallbackMode newData callbackAction m
                = (Ok tt, with_trace m1 (trace m1 ++ [Alert "No valid backup data found."]))
            | _ :: _ =>
                match callbackAction (VObj validatedData) m1 with
                | (Ok _, m2) =>
                    dataFallbackMode newData callbackAction m = (Ok tt, m2)
                | (Throw _, m2) =>
                    dataFallbackMode newData callbackAction m
                    = (Ok tt,
                       with_trace m2
                         (trace m2 ++ [ConsoleError "Data validation failed:";
                                       Alert "The file format is invalid."]))
                end
            end).
  { intros Hsingle. unfold dataFallbackMode, try_catch. rewrite Hsingle.
    unfold bind. rewrite Hrun. rewrite nonempty_test.
    destruct validatedData as [|entry rest]; [reflexivity|].
    destruct (callbackAction (VObj (entry :: rest)) m1) as [[[]|e] m2];
      [reflexivity|]. unfold emit, with_trace. cbn [clock ticks random draws store trace]. now rewrite <- app_assoc. }
  split; [|split].
  - destruct (isSingleNotepad newData) eqn:Hsingle.
    + unfold dataFallbackMode, try_catch. rewrite Hsingle. reflexivity.
    + specialize (Hrest eq_refl). destruct validatedData as [|entry rest].
      * now rewrite Hrest.
      * destruct (callbackAction (VObj (entry :: rest)) m1) as [[[]|e] m2];
          now rewrite Hrest.
  - intros Hsingle. unfold dataFallbackMode, try_catch. rewrite Hsingle. reflexivity.
  - intros Hsingle. exists validatedData, m1. split; [exact Hrun|]. now apply Hrest.
Qed.

End Fallback.

Lemma dataFallbackMode_fails_only_with_its_callback_witness :
  isSingleNotepad backup_a_b = false
  /\ exists validatedData m1,
      validation backup_a_b sample_machine = (Ok validatedData, m1)
      /\ match validatedData with
         | [] =>
             dataFallbackMode backup_a_b (fun _ => throw DOMException) sample_machine
             = (Ok tt, with_trace m1 (trace m1 ++ [Alert "No valid backup data found."]))
         | _ :: _ =>
             match (fun _ : value => @throw unit DOMException) (VObj validatedData) m1 with
             | (Ok _, m2) =>
                 dataFallbackMode backup_a_b (fun _ => throw DOMException) sample_machine
                 = (Ok tt, m2)
             | (Throw _, m2) =>
                 dataFallbackMode backup_a_b (fun _ => throw DOMException) sample_machine
                 = (Ok tt,
                    with_trace m2
                      (trace m2 ++ [ConsoleError "Data validation failed:";
                                    Alert "The file format is invalid."]))
             end
         end.
Proof.
  assert (H : isSingleNotepad backup_a_b = false) by reflexivity.
  split; [assumption|].
  exact (proj2 (proj2 (dataFallbackMode_fails_only_with_its_callback backup_a_b
                         (fun _ => throw DOMException) sample_machine)) H).
Defined.


(** ** Duplicating a note from the application *)

(** The document DUPLICATE_NOTE builds when the id is found. *)
Lemma reducer_duplicates_after
  (timestamp : Z) (state : value) (before after : list value)
  (n newNote originalId : value) :
  prop state "notes" = Ok (VArr (before ++ n :: after)) ->
  non_nullish (before ++ n :: after) ->
  forallb (fun x => negb (has_id originalId x)) before = true ->
  has_id originalId n = true ->
  notepadReducer timestamp state (DUPLICATE_NOTE originalId newNote)
  = Ok (VObj (set_field "notes" (VArr (before ++ n :: newNote :: after))
               (set_field "lastUpdate" (VNum timestamp) (own_props state)))).
Proof.
  intros Hnotes Hnn Hno Hid. unfold notepadReducer.
  rewrite Hnotes. cbn [rbind as_array iterate].
  unfold findIndex. rewrite findIndex_from_first_match by assumption.
  cbn [rbind].
  destruct (Z.eqb_spec (0 + Z.of_nat (length before)) (-1)) as [?|_]; [lia|].
  rewrite splice_insert by (rewrite length_app; cbn [length]; lia).
  replace (Z.to_nat (0 + Z.of_nat (length before) + 1))
    with (length (before ++ [n])) by (rewrite length_app; cbn; lia).
  replace (before ++ n :: after) with ((before ++ [n]) ++ after)
    by (now rewrite <- app_assoc).
  rewrite take_app_length, drop_app_length. now rewrite <- app_assoc.
Qed.

Section DuplicateNote.
Context {platform : Platform}.

(** X24: duplicating a note from the application.  For a note of the open
    notepad (the first that carries its id), [duplicateNote] followed by the
    reducer puts right after it a copy that has a generated id
    "note-<time>-<random>", the title followed by " (Copy)", and every
    other property of the original; the other notes keep their places and
    the document is stamped with the reading of the clock the reducer
    takes, the third of the call. *)
Theorem duplicateNote_puts_a_copy_after_the_original
  (st : app_state) (m : machine) (f original : list (string * value))
  (before after : list value) :
  app_notepad st = VObj f ->
  field "notes" f = Some (VArr (before ++ VObj original :: after)) ->
  non_nullish (before ++ VObj original :: after) ->
  forallb (fun n => negb (has_id (get (VObj original) "id") n)) before = true ->
  has_id (get (VObj original) "id") (VObj original) = true ->
  exists st' m' copy,
    duplicateNote (VObj original) st m = (Ok tt, st', m')
    /\ get (app_notepad st') "notes"
       = VArr (before ++ VObj original :: copy :: after)
    /\ get (app_notepad st') "lastUpdate" = VNum (clock m (S (S (ticks m))))
    /\ get copy "id"
       = VStr ("note-" +:+ pretty (clock m (S (ticks m))) +:+ "-"
               +:+ random m (draws m))
    /\ get copy "title"
       = VStr (to_string (get (VObj original) "title") +:+ " (Copy)")
    /\ (forall k, k <> "id" -> k <> "title" -> get copy k = get (VObj original) k)
    /\ store m' = store m.
Proof.
  intros Hst Hnotes Hnn Hno Hid.
  set (id := VStr ("note" +:+ "-" +:+ pretty (clock m (S (ticks m))) +:+ "-"
                   +:+ random m (draws m))).
  set (copy := VObj (set_field "title"
                       (VStr (to_string (get (VObj original) "title") +:+ " (Copy)"))
                       (set_field "id" id original))).
  assert (Hprop : prop (VObj f) "notes" = Ok (VArr (before ++ VObj original :: after))).
  { cbn [prop get]. now rewrite Hnotes. }
  pose proof (reducer_duplicates_after (clock m (S (S (ticks m)))) (VObj f)
                before after (VObj original) copy (get (VObj original) "id")
                Hprop Hnn Hno Hid) as Hreduce.
  eexists _, _, copy. split.
  - unfold duplicateNote, abind, arun, dispatch, generateID, bind, lift, ret.
    cbn [Date_now Math_random_base36 clock ticks random draws prop own_props].
    fold id. fold copy. rewrite Hst. cbn [app_notepad].
    rewrite Hreduce. reflexivity.
  - cbn [app_notepad]. split; [apply restamped_notes|].
    split; [apply restamped_lastUpdate|].
    split; [unfold copy; rewrite get_set_field_ne by discriminate;
            rewrite get_set_field_eq; reflexivity|].
    split; [apply get_set_field_eq|]. split; [|reflexivity].
    intros k Hk1 Hk2. unfold copy. now rewrite !get_set_field_ne by congruence.
Qed.

End DuplicateNote.

Lemma duplicateNote_puts_a_copy_after_the_original_witness :
  let st := App (sample_doc 10 [sample_note "a"; sample_note "b"]) []
              APP_DEFAULTS_accentColors (VStr "New notepad") in
  let original := own_props (sample_note "a") in
  app_notepad st = VObj (own_props (sample_doc 10 [sample_note "a"; sample_note "b"]))
  /\ field "notes" (own_props (sample_doc 10 [sample_note "a"; sample_note "b"]))
     = Some (VArr ([] ++ VObj original :: [sample_note "b"]))
  /\ non_nullish ([] ++ VObj original :: [sample_note "b"])
  /\ forallb (fun n => negb (has_id (get (VObj original) "id") n)) [] = true
  /\ has_id (get (VObj original) "id") (VObj original) = true
  /\ exists st' m' copy,
      duplicateNote (VObj original) st sample_machine = (Ok tt, st', m')
      /\ get (app_notepad st') "notes"
         = VArr ([] ++ VObj original :: copy :: [sample_note "b"])
      /\ get (app_notepad st') "lastUpdate"
         = VNum (clock sample_machine (S (S (ticks sample_machine))))
      /\ get copy "id"
         = VStr ("note-" +:+ pretty (clock sample_machine (S (ticks sample_machine)))
                 +:+ "-" +:+ random sample_machine (draws sample_machine))
      /\ get copy "title"
         = VStr (to_string (get (VObj original) "title") +:+ " (Copy)")
      /\ (forall k, k <> "id" -> k <> "title" -> get copy k = get (VObj original) k)
      /\ store m' = store sample_machine.
Proof.
  intros st original.
  assert (H1 : app_notepad st
               = VObj (own_props (sample_doc 10 [sample_note "a"; sample_note "b"])))
    by reflexivity.
  assert (H2 : field "notes" (own_props (sample_doc 10 [sample_note "a"; sample_note "b"]))
               = Some (VArr ([] ++ VObj original :: [sample_note "b"]))) by reflexivity.
  assert (H3 : non_nullish ([] ++ VObj original :: [sample_note "b"])) by reflexivity.
  assert (H4 : forallb (fun n => negb (has_id (get (VObj original) "id") n)) [] = true)
    by reflexivity.
  assert (H5 : has_id (get (VObj original) "id") (VObj original) = true) by reflexivity.
  repeat (split; [assumption|]).
  exact (duplicateNote_puts_a_copy_after_the_original st sample_machine _ original
           [] [sample_note "b"] H1 H2 H3 H4 H5).
Defined.


(** ** An import that carries no id *)

Section ImportWithoutId.
Context {platform : Platform}.

(** X25: the import does not ask for an id.  A file with notes and no
    [id], on a library that holds nothing under the name "undefined", is
    taken without a question: the notepad is written under the key
    "undefined", still without an id, opened, and the dialog closed.  The
    next file without an id then meets that record and is answered with the
    dialog about a version that already exists.  Stated for a store with nothing under the name
    [__proto__], which a lookup by name finds on every object. *)
Theorem import_without_id_is_filed_under_undefined
  (f : list (string * value)) (hydratedNotes : value) (m : machine) :
  plain_library (store m) ->
  store_wf (store m) ->
  store m !! "undefined" = None ->
  field "id" f = None ->
  truthy (get (VObj f) "notes") = true ->
  fst (hydrateNotes (get (VObj f) "notes") base64ToBlob m) = Ok hydratedNotes ->
  let notepad := VObj (set_field "notes" hydratedNotes f) in
  exists m1,
    importSingleNotepad (Ok (VObj f)) m = (Ok None, m1)
    /\ store m1 = <["undefined" := notepad]> (store m)
    /\ get notepad "id" = VUndefined
    /\ exists m2,
        importSingleNotepad (Ok (VObj f)) m1 = (Ok (Some (collisionDialog notepad)), m2)
        /\ store m2 = store m1.
Proof.
  intros _ Hwf Hfree Hid Hnotes Hhyd notepad.
  assert (Hh : hydrated (get (VObj f) "notes") = Ok hydratedNotes).
  { destruct (settles_hydrateNotes (get (VObj f) "notes") m) as (evs & Hrun & _).
    now rewrite Hrun in Hhyd. }
  assert (Hbackup : isBackup (VObj f) = Ok false).
  { unfold isBackup. rewrite Hnotes. reflexivity. }
  assert (Hnid : get notepad "id" = VUndefined).
  { unfold notepad. rewrite get_set_field_ne by discriminate. cbn [get].
    now rewrite Hid. }
  assert (Hrun : forall m0,
            exists m',
              store m' = store m0
              /\ importSingleNotepad (Ok (VObj f)) m0
                 = try_catch
                     (let* currentLibrary := getAll in
                      if truthy_at currentLibrary "undefined" then
                        emit (SetIsProcessing false) ;;
                        openDialog (collisionDialog notepad) ;;
                        ret (Some (collisionDialog notepad))
                      else saveToDatabase notepad ;; ret None)
                     (fun err =>
                        emit (SetIsProcessing false) ;;
                        emit (Alert "Import failed: Invalid file format.") ;;
                        emit (ConsoleError "") ;;
                        ret None) m').
  { intros m0. unfold importSingleNotepad.
    unfold bind at 1. cbn [emit]. unfold try_catch, bind at 1. cbn [lift].
    unfold bind at 1. cbn [lift]. rewrite Hbackup. cbn [truthy negb orb].
    rewrite Hnotes. cbn [negb]. unfold bind at 1.
    match goal with |- context [hydrateNotepad ?d ?m1] =>
      destruct (settles_hydrateNotepad d m1) as (evs & Hrun & _) end.
    rewrite Hh in Hrun. cbn [rbind own_props] in Hrun. rewrite Hrun.
    fold notepad. rewrite Hnid. cbn [to_string].
    eexists. split; [|reflexivity]. reflexivity. }
  destruct (Hrun m) as (m' & Hstore' & ->).
  assert (Hwf' : store_wf (store m')) by now rewrite Hstore'.
  destruct (getAll_on_wf_store m' Hwf') as (map & Hget & Hmap).
  unfold try_catch, bind at 1. rewrite Hget. unfold truthy_at. cbn [own_props].
  rewrite Hmap, Hstore', Hfree. change (inherited "undefined") with false. cbv iota.
  assert (Hsave : forall m0,
            (saveToDatabase notepad ;; ret None) m0
            = (@Ok (option dialog) None,
               snd (saveToDatabase notepad m0))
            /\ store (snd (saveToDatabase notepad m0))
               = <["undefined" := notepad]> (store m0)).
  { intros m0. unfold saveToDatabase, bulkPut, bind, get_store, set_store, ret.
    rewrite Hnid. cbn [to_string own_props emit fst snd store fold_left].
    split; reflexivity. }
  destruct (Hsave (with_trace m' (trace m' ++ [DbGetAll]))) as [Hsaved Hstored].
  rewrite Hsaved. eexists. split; [reflexivity|].
  split; [rewrite Hstored; cbn [store with_trace]; now rewrite Hstore'|].
  split; [exact Hnid|].
  set (m1 := snd (saveToDatabase notepad (with_trace m' (trace m' ++ [DbGetAll])))) in *.
  assert (Hstore1 : store m1 = <["undefined" := notepad]> (store m)).
  { rewrite Hstored. cbn [store with_trace]. now rewrite Hstore'. }
  destruct (Hrun m1) as (m1' & Hstore1' & ->).
  assert (Hrecs : forall k v, store m1' !! k = Some v -> to_string (get v "id") = k).
  { intros k v. rewrite Hstore1', Hstore1. intros H.
    apply lookup_insert_Some in H as [[<- <-]|[_ H]].
    - now rewrite Hnid.
    - now rewrite (Hwf k v H). }
  assert (Hlisted : exists map1,
            getAll m1' = (Ok (VObj map1), with_trace m1' (trace m1' ++ [DbGetAll]))
            /\ field "undefined" map1 = Some notepad).
  { unfold getAll, bind, get_store, lift. cbn [emit store].
    assert (Hnn : Forall (fun v => nullish v = false)
                    (List.map snd (records_in_key_order (store m1')))).
    { apply List.Forall_forall. intros v Hin.
      apply in_map_iff in Hin as ([k w] & <- & Hin).
      apply records_in_key_order_elem in Hin. rewrite Hstore1', Hstore1 in Hin.
      apply lookup_insert_Some in Hin as [[_ <-]|[_ Hin]]; [reflexivity|].
      pose proof (Hwf k w Hin) as Hw. destruct w; try discriminate Hw; reflexivity. }
    destruct (index_by_id_keys _ Hnn []) as (map1 & Hidx & Hkeys & Hall & _).
    rewrite Hidx. exists map1. split; [reflexivity|].
    destruct (Hall notepad) as [v Hv].
    { apply in_map_iff. exists ("undefined", notepad). split; [reflexivity|].
      apply list_elem_of_In. unfold records_in_key_order.
      rewrite merge_sort_Permutation. apply elem_of_map_to_list.
      rewrite Hstore1', Hstore1. apply lookup_insert_eq. }
    rewrite Hnid in Hv. cbn [to_string] in Hv. rewrite Hv. f_equal.
    destruct (Hkeys "undefined" v Hv) as [[Hin Hvid]|Hnil]; [|discriminate].
    apply in_map_iff in Hin as ([k w] & Heq & Hin). cbn [snd] in Heq. subst w.
    apply records_in_key_order_elem in Hin.
    pose proof (Hrecs k v Hin) as Hk. rewrite Hvid in Hk. subst k.
    rewrite Hstore1', Hstore1, lookup_insert_eq in Hin. congruence. }
  destruct Hlisted as (map1 & Hget1 & Hfield1).
  unfold try_catch, bind at 1. rewrite Hget1. unfold truthy_at. cbn [own_props].
  rewrite Hfield1. change (truthy notepad) with true. cbv iota.
  eexists. split; [reflexivity|]. cbn. exact Hstore1'.
Qed.

End ImportWithoutId.

Lemma import_without_id_is_filed_under_undefined_witness :
  let f := [("title", VStr "No id"); ("notes", VArr [sample_note "n1"])] in
  let notepad := VObj (set_field "notes" (VArr [sample_note "n1"]) f) in
  plain_library (store sample_machine)
  /\ store_wf (store sample_machine)
  /\ store sample_machine !! "undefined" = None
  /\ field "id" f = None
  /\ truthy (get (VObj f) "notes") = true
  /\ fst (hydrateNotes (get (VObj f) "notes") base64ToBlob sample_machine)
     = Ok (VArr [sample_note "n1"])
  /\ exists m1,
      importSingleNotepad (Ok (VObj f)) sample_machine = (Ok None, m1)
      /\ store m1 = <["undefined" := notepad]> (store sample_machine)
      /\ get notepad "id" = VUndefined
      /\ exists m2,
          importSingleNotepad (Ok (VObj f)) m1
          = (Ok (Some (collisionDialog notepad)), m2)
          /\ store m2 = store m1.
Proof.
  intros f notepad.
  assert (H0 : plain_library (store sample_machine)) by reflexivity.
  assert (H1 : store_wf (store sample_machine)).
  { intros k v H. cbn in H. apply lookup_singleton_Some in H as [<- <-]. reflexivity. }
  assert (H2 : store sample_machine !! "undefined" = None) by reflexivity.
  assert (H3 : field "id" f = None) by reflexivity.
  assert (H4 : truthy (get (VObj f) "notes") = true) by reflexivity.
  assert (H5 : fst (hydrateNotes (get (VObj f) "notes") base64ToBlob sample_machine)
               = Ok (VArr [sample_note "n1"])) by reflexivity.
  repeat (split; [assumption|]).
  exact (import_without_id_is_filed_under_undefined f _ sample_machine
           H0 H1 H2 H3 H4 H5).
Defined.


(** ** The search of the viewer *)

Lemma to_lower_code (c : ascii) :
  N_of_ascii (to_lower c)
  = (if ((65 <=? N_of_ascii c) && (N_of_ascii c <=? 90)
         || (192 <=? N_of_ascii c) && (N_of_ascii c <=? 222)
            && negb (N_of_ascii c =? 215))%N
     then N_of_ascii c + 32 else N_of_ascii c)%N.
Proof.
  unfold to_lower. cbv zeta.
  destruct ((65 <=? N_of_ascii c) && (N_of_ascii c <=? 90)
            || (192 <=? N_of_ascii c) && (N_of_ascii c <=? 222)
               && negb (N_of_ascii c =? 215))%N eqn:E; [|reflexivity].
  apply N_ascii_embedding.
  pose proof (N_ascii_bounded c).
  apply orb_prop in E as [E|E].
  - apply andb_prop in E as [_ E]. apply N.leb_le in E. lia.
  - apply andb_prop in E as [E _]. apply andb_prop in E as [_ E].
    apply N.leb_le in E. lia.
Qed.

Lemma ascii_code_inj (c d : ascii) : N_of_ascii c = N_of_ascii d -> c = d.
Proof.
  intros H. rewrite <- (ascii_N_embedding c), <- (ascii_N_embedding d). now rewrite H.
Qed.

Lemma to_lower_same_letter (c d : ascii) :
  to_lower c = to_lower d <-> same_letter c d.
Proof.
  assert (Hcode : to_lower c = to_lower d
                  <-> N_of_ascii (to_lower c) = N_of_ascii (to_lower d)).
  { split; [now intros ->|apply ascii_code_inj]. }
  rewrite Hcode, !to_lower_code. unfold same_letter, is_capital. cbv zeta.
  assert (Heq : c = d <-> N_of_ascii c = N_of_ascii d).
  { split; [now intros ->|apply ascii_code_inj]. }
  rewrite Heq.
  pose proof (N_ascii_bounded c) as Hn. pose proof (N_ascii_bounded d) as Hn'.
  clear Hcode Heq.
  set (n := N_of_ascii c) in *. set (n' := N_of_ascii d) in *. clearbody n n'.
  destruct (N.leb_spec 65 n), (N.leb_spec n 90), (N.leb_spec 192 n),
    (N.leb_spec n 222), (N.eqb_spec n 215),
    (N.leb_spec 65 n'), (N.leb_spec n' 90), (N.leb_spec 192 n'),
    (N.leb_spec n' 222), (N.eqb_spec n' 215);
    cbn [andb orb negb]; lia.
Qed.

Lemma lowercase_cons (c : ascii) (s : string) :
  lowercase (String c s) = String (to_lower c) (lowercase s).
Proof. reflexivity. Qed.

Lemma lowercase_app (a b : string) :
  lowercase (a +:+ b) = lowercase a +:+ lowercase b.
Proof.
  induction a as [|c a IH]; [reflexivity|].
  rewrite string_app_cons, !lowercase_cons, string_app_cons. now f_equal.
Qed.

Lemma lowercase_split (a : string) :
  forall text b,
    lowercase text = a +:+ b ->
    exists ta tb, text = ta +:+ tb /\ lowercase ta = a /\ lowercase tb = b.
Proof.
  induction a as [|c a IH]; intros text b H.
  - exists "", text. rewrite string_app_nil_l in H. auto.
  - destruct text as [|c0 text]; [discriminate|].
    rewrite lowercase_cons, string_app_cons in H. injection H as Hc H.
    destruct (IH text b H) as (ta & tb & -> & Ha & Hb).
    exists (String c0 ta), tb. rewrite lowercase_cons, Ha, Hc. auto.
Qed.

Lemma lowercase_same_letters (a b : string) :
  lowercase a = lowercase b <-> same_letters a b.
Proof.
  unfold same_letters. revert b.
  induction a as [|c a IH]; intros [|d b]; cbn [list_ascii_of_string];
    rewrite ?lowercase_cons.
  - split; [constructor|reflexivity].
  - split; [discriminate|]. intros H. inversion H.
  - split; [discriminate|]. intros H. inversion H.
  - split.
    + intros [= Hc H]. constructor; [now apply to_lower_same_letter|now apply IH].
    + intros H. inversion H as [|? ? ? ? Hc Hr]; subst.
      apply to_lower_same_letter in Hc. apply IH in Hr. congruence.
Qed.

Lemma prefix_app (t : string) :
  forall s, String.prefix t s = true <-> exists post, s = t +:+ post.
Proof.
  induction t as [|c t IH]; intros s.
  - split; [intros _; exists s; reflexivity|]. intros _. now destruct s.
  - destruct s as [|d s]; cbn [String.prefix].
    + split; [discriminate|]. intros [post H]. discriminate.
    + destruct (ascii_dec c d) as [->|Hne].
      * rewrite IH. split; intros [post H]; exists post.
        -- rewrite string_app_cons. now f_equal.
        -- rewrite string_app_cons in H. now injection H.
      * split; [discriminate|]. intros [post H].
        rewrite string_app_cons in H. congruence.
Qed.

Lemma includes_app (t s : string) :
  includes s t = true <-> exists pre post, s = pre +:+ t +:+ post.
Proof.
  induction s as [|c s IH]; cbn [includes].
  - rewrite orb_false_r, prefix_app. split.
    + intros [post H]. exists "", post. exact H.
    + intros (pre & post & H). destruct pre; [now exists post|discriminate].
  - rewrite orb_true_iff, prefix_app, IH. split.
    + intros [[post H]|(pre & post & H)].
      * exists "", post. exact H.
      * exists (String c pre), post. rewrite string_app_cons. now f_equal.
    + intros ([|c0 pre] & post & H).
      * left. now exists post.
      * right. rewrite string_app_cons in H. injection H as _ H. eauto.
Qed.

(** The test of the code, [text.toLowerCase().includes(term.toLowerCase())],
    is the occurrence of the term, the case of letters apart. *)
Lemma includes_lowercase (term text : string) :
  includes (lowercase text) (lowercase term) = true <-> occurs_in term text.
Proof.
  rewrite includes_app. unfold occurs_in. split.
  - intros (pre' & post' & H).
    apply lowercase_split in H as (pre & rest & -> & _ & H).
    apply lowercase_split in H as (found & post & -> & H & _).
    exists pre, found, post. split; [reflexivity|].
    now apply lowercase_same_letters.
  - intros (pre & found & post & -> & H).
    apply lowercase_same_letters in H.
    exists (lowercase pre), (lowercase post).
    now rewrite !lowercase_app, H.
Qed.

Lemma note_matches_mentions (term : string) (note : value) :
  (exists title, get note "title" = VStr title) ->
  (exists content, get note "content" = VStr content) ->
  exists b,
    note_matches (lowercase term) note = Ok b
    /\ (b = true <->
        (exists title, get note "title" = VStr title /\ occurs_in term title)
        \/ (exists content,
              get note "content" = VStr content /\ occurs_in term content)).
Proof.
  intros [t Ht] [c Hc].
  assert (Hp : forall k, prop note k = Ok (get note k)).
  { destruct note; try discriminate Ht; reflexivity. }
  unfold note_matches. rewrite !Hp, Ht, Hc. cbn [rbind toLowerCase_of].
  eexists. split; [reflexivity|].
  rewrite orb_true_iff, !includes_lowercase. split.
  - intros [H|H]; [left|right]; eauto.
  - intros [(t' & [= <-] & H)|(c' & [= <-] & H)]; [left|right]; assumption.
Qed.

Lemma some_note_matches (term : string) (notes : list value) :
  Forall (fun note =>
            (exists title, get note "title" = VStr title)
            /\ exists content, get note "content" = VStr content) notes ->
  exists b,
    some (note_matches (lowercase term)) notes = Ok b
    /\ (b = true <->
        exists note,
          In note notes
          /\ ((exists title, get note "title" = VStr title /\ occurs_in term title)
              \/ (exists content,
                    get note "content" = VStr content /\ occurs_in term content))).
Proof.
  induction 1 as [|note notes [Ht Hc] _ (b & Hrun & Hb)]; cbn [some].
  - exists false. split; [reflexivity|]. split; [discriminate|]. intros (? & [] & _).
  - destruct (note_matches_mentions term note Ht Hc) as (b0 & Hrun0 & Hb0).
    rewrite Hrun0. cbn [rbind]. destruct b0.
    + exists true. split; [reflexivity|]. split; [|reflexivity]. intros _.
      exists note. split; [now left|]. now apply Hb0.
    + exists b. split; [exact Hrun|]. rewrite Hb. split.
      * intros (n & Hin & H). exists n. split; [now right|assumption].
      * intros (n & [<-|Hin] & H); [|eauto].
        apply Hb0 in H. discriminate.
Qed.

Lemma notepad_matches_mentions (term : string) (notepad : value) :
  searchable notepad ->
  exists b,
    notepad_matches (lowercase term) notepad = Ok b
    /\ (b = true <-> mentions term notepad).
Proof.
  intros [[t Ht] (notes & Hnotes & Hall)].
  assert (Hp : forall k, prop notepad k = Ok (get notepad k)).
  { destruct notepad; try discriminate Ht; reflexivity. }
  unfold notepad_matches, mentions. rewrite !Hp, Ht, Hnotes.
  cbn [rbind toLowerCase_of as_array].
  destruct (includes (lowercase t) (lowercase term)) eqn:Htitle.
  - exists true. split; [reflexivity|]. split; [|reflexivity]. intros _. left.
    exists t. split; [reflexivity|]. now apply includes_lowercase.
  - destruct (some_note_matches term notes Hall) as (b & Hrun & Hb).
    exists b. split; [exact Hrun|]. rewrite Hb. split.
    + intros (note & Hin & H). right. exists notes, note. auto.
    + intros [(t' & [= <-] & H)|(notes' & note & [= <-] & Hin & H)].
      * apply includes_lowercase in H. congruence.
      * eauto.
Qed.

Lemma rfilter_returns (p : value -> result bool) (l : list value) :
  Forall (fun x => exists b, p x = Ok b) l -> exists out, rfilter p l = Ok out.
Proof.
  induction 1 as [|x l [b Hb] _ [out Hout]]; cbn [rfilter]; [eauto|].
  rewrite Hb, Hout. cbn [rbind]. destruct b; eauto.
Qed.

Lemma rfilter_kept (p : value -> result bool) (l out : list value) :
  rfilter p l = Ok out ->
  sublist out l /\ forall x, In x out <-> In x l /\ p x = Ok true.
Proof.
  revert out. induction l as [|y r IH]; intros out; cbn [rfilter].
  - intros [= <-]. split; [constructor|]. intros x. split; [intros []|intros [[] _]].
  - destruct (p y) as [b|e] eqn:Hy; cbn [rbind]; [|discriminate].
    destruct (rfilter p r) as [ys|e] eqn:Hr; cbn [rbind]; [|discriminate].
    destruct (IH ys eq_refl) as [Hsub Hin]. intros [= <-]. destruct b.
    + split; [now constructor|]. intros x. cbn [In]. rewrite Hin. split.
      * intros [<-|[H1 H2]]; auto.
      * intros [[<-|H1] H2]; auto.
    + split; [now constructor|]. intros x. rewrite Hin. cbn [In]. split.
      * intros [H1 H2]; auto.
      * intros [[<-|H1] H2]; [congruence|auto].
Qed.

(** X26: the search of the list of notepads.  With an empty term the list
    is shown as it is.  With another term, on notepads whose title is a
    string and whose notes are an array of notes with a string for title
    and for content, the search returns, in their order, exactly the
    notepads that mention the term: in their title, or in the title or the
    content of one of their notes, a capital letter of Latin-1 and its
    small letter counting as the same letter, in the term as in the text.
    A first notepad whose title is not a string makes the search for a
    term that is not empty raise a TypeError. *)
Theorem search_keeps_the_notepads_that_hold_the_term
  (notepads : list value) (searchTerm : string) :
  filteredNotepads notepads "" = Ok notepads
  /\ (searchTerm <> "" ->
      Forall searchable notepads ->
      exists shown,
        filteredNotepads notepads searchTerm = Ok shown
        /\ sublist shown notepads
        /\ forall notepad,
             In notepad shown <->
             In notepad notepads /\ mentions searchTerm notepad)
  /\ (forall notepad rest,
        searchTerm <> "" ->
        notepads = notepad :: rest ->
        (forall s, get notepad "title" <> VStr s) ->
        filteredNotepads notepads searchTerm = Throw TypeError).
Proof.
  split; [reflexivity|]. split.
  - intros Hne Hall. unfold filteredNotepads.
    apply String.eqb_neq in Hne. rewrite Hne.
    destruct (rfilter_returns (notepad_matches (lowercase searchTerm)) notepads)
      as [shown Hrun].
    { eapply Forall_impl; [exact Hall|]. intros notepad Hs.
      destruct (notepad_matches_mentions searchTerm notepad Hs) as (b & Hb & _).
      eauto. }
    exists shown. split; [exact Hrun|].
    destruct (rfilter_kept _ _ _ Hrun) as [Hsub Hin]. split; [exact Hsub|].
    intros notepad. rewrite Hin. split.
    + intros [Hmem Hmatch]. split; [exact Hmem|].
      destruct (notepad_matches_mentions searchTerm notepad) as (b & Hb & Hiff).
      { rewrite List.Forall_forall in Hall. now apply Hall. }
      apply Hiff. congruence.
    + intros [Hmem Hmentions]. split; [exact Hmem|].
      destruct (notepad_matches_mentions searchTerm notepad) as (b & Hb & Hiff).
      { rewrite List.Forall_forall in Hall. now apply Hall. }
      apply Hiff in Hmentions. congruence.
  - intros notepad rest Hne -> Htitle. unfold filteredNotepads.
    apply String.eqb_neq in Hne. rewrite Hne. cbn [rfilter].
    unfold notepad_matches at 1.
    destruct notepad as [| |b|n|s|b|l|f]; try reflexivity; cbn [prop rbind];
      destruct (get _ "title") as [| | | |t| | |] eqn:E; try reflexivity;
      now destruct (Htitle t).
Qed.

Lemma search_keeps_the_notepads_that_hold_the_term_witness :
  let garden :=
    VObj [("id", VStr "notepad-2"); ("title", VStr "Ideas for the GARDEN");
          ("created", VNum 2); ("lastUpdate", VNum 30); ("notes", VArr [])] in
  let notepads := [sample_doc 10 [sample_note "a"]; garden] in
  "Garden" <> ""
  /\ Forall searchable notepads
  /\ filteredNotepads notepads "Garden" = Ok [garden]
  /\ exists shown,
      filteredNotepads notepads "Garden" = Ok shown
      /\ sublist shown notepads
      /\ forall notepad,
           In notepad shown <-> In notepad notepads /\ mentions "Garden" notepad.
Proof.
  intros garden notepads.
  assert (H1 : "Garden" <> "") by discriminate.
  assert (H2 : Forall searchable notepads).
  { repeat constructor; try (eexists; reflexivity).
    - eexists. split; [reflexivity|].
      repeat constructor; eexists; reflexivity.
    - eexists. split; [reflexivity|]. constructor. }
  split; [exact H1|]. split; [exact H2|]. split; [reflexivity|].
  exact (proj1 (proj2 (search_keeps_the_notepads_that_hold_the_term
                         notepads "Garden")) H1 H2).
Defined.
